(** * Order ledger of the KHQR cafe backend

    A shallow embedding of the two Express handlers of the repository
    ([POST /api/create-khqr] and [GET /api/check-payment/:orderId]) in the
    three variants that keep an in-memory order store:

    - [Server]   : [server.js];
    - [Part002]  : the variant whose status check accepts every matched
                   settlement record ([src/unnamed/part_002]);
    - [Part003]  : the [ts-khqr] variant, which validates the currency and
                   rounds KHR amounts ([src/unnamed/part_003]).

    JavaScript numbers are IEEE 754 binary64 values ([spec_float] with
    [prec = 53], [emax = 1024]); parsed JSON is a tree of [JsValue]s; the
    order store [ORDERS] is the map of own properties of a plain object, whose
    entries reference mutable order objects kept in a heap.  Every [await]
    splits a handler into a part that runs up to the suspension and a part
    that resumes with the awaited result, so that other requests may run in
    between, as they do on the Node event loop.

    The two serverless handlers of the repository ([api/create-khqr.js] and
    [api/check-payment.js]) keep no store: the client carries the
    fingerprint.  They are embedded in [Serverless]. *)

From Stdlib Require Import ZArith String Ascii List Bool Lia.
From Stdlib Require Import Floats.SpecFloat.
From stdpp Require Import base tactics option strings list gmap pretty.

Open Scope string_scope.
Open Scope list_scope.
Set Warnings "-register-all".

(* ================================================================== *)
(** * JavaScript values and the operators the handlers use            *)
(* ================================================================== *)

Module Js.

(** ** Numbers *)

Definition number : Type := spec_float.

Definition prec : Z := 53.
Definition emax : Z := 1024.

Definition NaN : number := S754_nan.
Definition pos_zero : number := S754_zero false.

(** The Number value of a mathematical integer (exact below 2^53). *)
Definition of_Z (z : Z) : number := binary_normalize prec emax z 0 false.

(** The Number value of the decimal literal [m / 10^k].  Numerator and
    denominator are exact for [|m| < 2^53] and [k <= 22], and the division is
    correctly rounded, so the result is the double nearest to the literal,
    which is what a JavaScript or JSON parser yields. *)
Definition decimal (m : Z) (k : nat) : number :=
  SFdiv prec emax (of_Z m) (of_Z (10 ^ Z.of_nat k)).

Definition is_nan (x : number) : bool :=
  match x with S754_nan => true | _ => false end.

Definition is_zero (x : number) : bool :=
  match x with S754_zero _ => true | _ => false end.

Definition num_sub (x y : number) : number := SFsub prec emax x y.
Definition num_mul (x y : number) : number := SFmul prec emax x y.
Definition num_lt (x y : number) : bool := SFltb x y.
Definition num_le (x y : number) : bool := SFleb x y.
Definition num_eq (x y : number) : bool := SFeqb x y.
Definition Math_abs (x : number) : number := SFabs x.

(** The largest integer not above the finite value [(-1)^s * m * 2^e]. *)
Definition floor_finite (s : bool) (m : positive) (e : Z) : Z :=
  Z.shiftl (cond_Zopp s (Zpos m)) e.

(** [Math.round]: the integral Number closest to [x], ties towards
    +Infinity; a result of zero keeps the sign of [x]. *)
Definition Math_round (x : number) : number :=
  match x with
  | S754_finite s m e =>
      if (0 <=? e)%Z then x
      else
        let n := Z.shiftl (2 * cond_Zopp s (Zpos m) + 2 ^ (- e)) (e - 1) in
        if (n =? 0)%Z then S754_zero s else of_Z n
  | _ => x
  end.

(** [Number.isFinite(x)]. *)
Definition is_finite (x : number) : bool :=
  match x with
  | S754_zero _ | S754_finite _ _ _ => true
  | _ => false
  end.

(** [Number.isInteger(x)]: the value [m * 2^e] has no fractional part. *)
Definition is_integer (x : number) : bool :=
  match x with
  | S754_zero _ => true
  | S754_finite _ m e => (0 <=? e)%Z || (Zpos m mod 2 ^ (- e) =? 0)%Z
  | _ => false
  end.

(** [Math.floor(x).toString()].  Infinite and NaN arguments are written out
    as ECMAScript prints them; the decimal digits are those of the integer,
    which is how integral Numbers below 10^21 are printed. *)
Definition Math_floor_toString (x : number) : string :=
  match x with
  | S754_nan => "NaN"
  | S754_infinity false => "Infinity"
  | S754_infinity true => "-Infinity"
  | S754_zero _ => "0"
  | S754_finite s m e => pretty (floor_finite s m e)
  end.

(** ** Strings *)

(** Strings are sequences of bytes (UTF-8).  The handlers only compare
    strings, pad decimal digits, and look for the ASCII character [@], whose
    byte occurs in no multi-byte sequence. *)

Fixpoint repeat_string (n : nat) (c : string) : string :=
  match n with
  | O => ""
  | S n' => c +:+ repeat_string n' c
  end.

(** [s.padStart(n, c)] for a one-character filler [c]. *)
Definition padStart (n : nat) (c : string) (s : string) : string :=
  repeat_string (n - String.length s) c +:+ s.

(** [s.includes(c)] for a one-character needle [c]. *)
Fixpoint includes_char (s : string) (c : ascii) : bool :=
  match s with
  | EmptyString => false
  | String a rest => Ascii.eqb a c || includes_char rest c
  end.

(** ** Values *)

(** Data that crosses the process boundary: a parsed request body, the body
    of the settlement authority's response, the result object of the KHQR
    library.  An object lists its own properties, each key once. *)
Inductive JsValue : Type :=
| JUndefined
| JNull
| JBool (b : bool)
| JNum (n : number)
| JStr (s : string)
| JArr (items : list JsValue)
| JObj (props : list (string * JsValue)).

(** Completion of an evaluation that may throw. *)
Inductive Completion (A : Type) : Type :=
| Ok (a : A)
| Throw (reason : string).

Arguments Ok {A} a.
Arguments Throw {A} reason.

Definition bind {A B : Type} (c : Completion A) (f : A -> Completion B)
  : Completion B :=
  match c with
  | Ok a => f a
  | Throw r => Throw r
  end.

Notation "'let!' x ':=' c 'in' k" := (bind c (fun x => k))
  (at level 10, x name, c at level 100, k at level 200).

(** [try { c } catch (err) { handler }]: no handler of the repository
    inspects [err] beyond logging it. *)
Definition try_catch {A : Type} (c : Completion A) (handler : A) : A :=
  match c with
  | Ok a => a
  | Throw _ => handler
  end.

(** An [async] function either finishes or is suspended at an [await]. *)
Inductive Suspended (K A : Type) : Type :=
| Done (a : A)
| Await (k : K).

Arguments Done {K A} a.
Arguments Await {K A} k.

(** The pieces of the language whose full definition is the ECMAScript
    standard's: the StringToNumber grammar, Number::toString, and the Unicode
    upper-case mapping. *)
Class JsBuiltins : Type := {
  StringToNumber : string -> number;
  NumberToString : number -> string;
  toUpperCase : string -> string
}.

(** ToBoolean. *)
Definition truthy (v : JsValue) : bool :=
  match v with
  | JUndefined | JNull => false
  | JBool b => b
  | JNum n => negb (is_nan n || is_zero n)
  | JStr s => negb (String.eqb s "")
  | JArr _ | JObj _ => true
  end.

(** [a || b]. *)
Definition js_or (a b : JsValue) : JsValue := if truthy a then a else b.

Fixpoint own_property (props : list (string * JsValue)) (k : string)
  : option JsValue :=
  match props with
  | [] => None
  | (k', v) :: rest => if String.eqb k' k then Some v else own_property rest k
  end.

(** [v.k] for the property names the handlers read ([amount], [currency],
    [data], [responseCode], [status], [code], [qr], [md5]): none of them is
    defined on [Object.prototype] or on the prototypes of strings, numbers,
    booleans and arrays, so only own properties of objects can answer. *)
Definition Get (v : JsValue) (k : string) : Completion JsValue :=
  match v with
  | JUndefined | JNull => Throw "TypeError: cannot read properties"
  | JObj props => Ok (default JUndefined (own_property props k))
  | _ => Ok JUndefined
  end.

(** [v?.k]. *)
Definition GetOpt (v : JsValue) (k : string) : JsValue :=
  match v with
  | JObj props => default JUndefined (own_property props k)
  | _ => JUndefined
  end.

(** [a === b] where at least one operand is a primitive (a literal or a
    primitive own property of an order): an object is never identical to it. *)
Definition strict_eq (a b : JsValue) : bool :=
  match a, b with
  | JUndefined, JUndefined => true
  | JNull, JNull => true
  | JBool x, JBool y => Bool.eqb x y
  | JNum x, JNum y => num_eq x y
  | JStr x, JStr y => String.eqb x y
  | _, _ => false
  end.

Section Conversions.
Context `{JsBuiltins}.

(** ToString.  A parsed object has no callable own property, so an own
    [toString] makes OrdinaryToPrimitive run out of methods and throw;
    without it [Object.prototype.toString] answers.  Arrays answer through
    [Array.prototype.join], which prints [undefined] and [null] as empty. *)
Fixpoint ToString (v : JsValue) : Completion string :=
  match v with
  | JUndefined => Ok "undefined"
  | JNull => Ok "null"
  | JBool true => Ok "true"
  | JBool false => Ok "false"
  | JNum n => Ok (NumberToString n)
  | JStr s => Ok s
  | JArr items =>
      (fix join (l : list JsValue) : Completion string :=
         match l with
         | [] => Ok ""
         | x :: rest =>
             let! s := match x with
                       | JUndefined | JNull => Ok ""
                       | _ => ToString x
                       end in
             match rest with
             | [] => Ok s
             | _ => let! r := join rest in Ok (s +:+ "," +:+ r)
             end
         end) items
  | JObj props =>
      match own_property props "toString" with
      | Some _ => Throw "TypeError: Cannot convert object to primitive value"
      | None => Ok "[object Object]"
      end
  end.

(** ToNumber, which is what [Number(v)], [Math.round(v)], [v - w] and
    [v <= w] apply to an operand. *)
Definition ToNumber (v : JsValue) : Completion number :=
  match v with
  | JUndefined => Ok NaN
  | JNull => Ok pos_zero
  | JBool true => Ok (of_Z 1)
  | JBool false => Ok pos_zero
  | JNum n => Ok n
  | JStr s => Ok (StringToNumber s)
  | JArr _ | JObj _ => let! s := ToString v in Ok (StringToNumber s)
  end.

(** [(v).toUpperCase()]: only strings have the method. *)
Definition call_toUpperCase (v : JsValue) : Completion string :=
  match v with
  | JStr s => Ok (toUpperCase s)
  | JUndefined | JNull => Throw "TypeError: cannot read properties"
  | _ => Throw "TypeError: toUpperCase is not a function"
  end.

End Conversions.

(** ** Environment variables *)

(** [process.env.X || fallback]. *)
Definition env_or (x : option string) (fallback : string) : string :=
  match x with
  | Some s => if String.eqb s "" then fallback else s
  | None => fallback
  end.

(** [!s] for a string [s]. *)
Definition str_falsy (s : string) : bool := String.eqb s "".

(** ** The heap of mutable objects *)

Abbreviation Obj := (gmap string JsValue).
Abbreviation loc := nat.

(** Objects reachable through a property of [Object.prototype], which every
    plain object inherits: the prototype itself (through the [__proto__]
    accessor) and its eleven function-valued properties.  They own none of
    the properties the handlers read, so they start with no tracked
    property. *)
Definition Object_prototype_keys : list string :=
  [ "__proto__"; "constructor"; "hasOwnProperty"; "isPrototypeOf";
    "propertyIsEnumerable"; "toLocaleString"; "toString"; "valueOf";
    "__defineGetter__"; "__defineSetter__"; "__lookupGetter__";
    "__lookupSetter__" ].

Definition Object_prototype : loc := 0.

Fixpoint index_of (k : string) (l : list string) : option nat :=
  match l with
  | [] => None
  | k' :: rest => if String.eqb k' k then Some 0 else S <$> index_of k rest
  end.

(** [Object.prototype[k]]. *)
Definition inherited (k : string) : option loc :=
  index_of k Object_prototype_keys.

Definition builtin_heap : list Obj :=
  replicate (length Object_prototype_keys) ∅.

(** [o.k] for a heap object: an own property, else the property of
    [Object.prototype], where every prototype chain of the heap ends. *)
Definition get_prop (h : list Obj) (l : loc) (k : string) : JsValue :=
  match h !! l with
  | Some o =>
      match o !! k with
      | Some v => v
      | None =>
          match h !! Object_prototype with
          | Some p => default JUndefined (p !! k)
          | None => JUndefined
          end
      end
  | None => JUndefined
  end.

(** [o.k = v]. *)
Definition set_prop (h : list Obj) (l : loc) (k : string) (v : JsValue)
  : list Obj :=
  alter (fun o : Obj => <[k := v]> o) l h.

(** The ledger: the own properties of the store object and the heap. *)
Record State : Type := mkState {
  ORDERS : gmap string loc;
  heap : list Obj
}.

(** The store is [{}] when the process starts. *)
Definition init : State := {| ORDERS := ∅; heap := builtin_heap |}.

(** [ORDERS[orderId]]: an own property, else an inherited one. *)
Definition lookup_order (st : State) (orderId : string) : option loc :=
  match ORDERS st !! orderId with
  | Some l => Some l
  | None => inherited orderId
  end.

(** [ORDERS[orderId] = { ...props }] for an [orderId] other than
    [__proto__]: allocates the object and (re)defines the own property. *)
Definition store_order (st : State) (orderId : string) (o : Obj) : State :=
  {| ORDERS := <[orderId := length (heap st)]> (ORDERS st);
     heap := (heap st ++ [o])%list |}.

(** ** HTTP responses *)

(** [res.status(code).json(body)]; [res.json(body)] answers 200. *)
Record Response : Type := mkResponse {
  code : nat;
  json : list (string * JsValue)
}.

Definition is_4xx (r : Response) : bool :=
  (400 <=? code r)%nat && (code r <? 500)%nat.
Definition is_5xx (r : Response) : bool :=
  (500 <=? code r)%nat && (code r <? 600)%nat.

(** An error response: the given status code, [ok: false], and a non-empty
    [error] message. *)
Definition error_response (r : Response) (status : nat) : Prop :=
  code r = status
  /\ own_property (json r) "ok" = Some (JBool false)
  /\ exists message,
       own_property (json r) "error" = Some (JStr message) /\ message <> "".

(** ** Clock and order ids *)

(** What the accessors of [new Date()] return. *)
Record DateParts : Type := mkDate {
  getFullYear : Z;
  getMonth : Z;
  getDate : Z;
  getHours : Z;
  getMinutes : Z;
  getSeconds : Z
}.

(** [generateOrderId()], the same function in the three variants; [now] is
    [new Date()] and [random] is [Math.random()]. *)
Definition generateOrderId (now : DateParts) (random : number) : string :=
  let y := pretty (getFullYear now) in
  let m := padStart 2 "0" (pretty (getMonth now + 1)%Z) in
  let d := padStart 2 "0" (pretty (getDate now)) in
  let hh := padStart 2 "0" (pretty (getHours now)) in
  let mm := padStart 2 "0" (pretty (getMinutes now)) in
  let ss := padStart 2 "0" (pretty (getSeconds now)) in
  let rand :=
    padStart 3 "0" (Math_floor_toString (num_mul random (of_Z 1000))) in
  "CAFE-" +:+ y +:+ m +:+ d +:+ hh +:+ mm +:+ ss +:+ "-" +:+ rand.

End Js.

Export Js.

(** [process.env]: each variable is a string or undefined. *)
Record ProcessEnv : Type := mkEnv {
  env_BAKONG_BASE_URL : option string;
  env_BAKONG_TOKEN : option string;
  env_BAKONG_ACCOUNT_ID : option string;
  env_MERCHANT_NAME : option string;
  env_MERCHANT_CITY : option string;
  env_CURRENCY : option string
}.

(** [khqrData.currency] of the KHQR library: the two currency codes. *)
Inductive KhqrCurrency : Type := khr | usd.

(* ================================================================== *)
(** * server.js                                                        *)
(* ================================================================== *)

Module Server.

(** The [optionalData] literal and the arguments of [new IndividualInfo],
    in the order [server.js] passes them. *)
Record OptionalData : Type := mkOptionalData {
  od_currency : KhqrCurrency;
  od_amount : number;
  od_storeLabel : string;
  od_merchantCategoryCode : string;
  od_billNumber : string;
  od_purposeOfTransaction : string;
  od_expirationTimestamp : Z
}.

Record IndividualInfo : Type := mkIndividualInfo {
  arg_1 : string;
  arg_2 : KhqrCurrency;
  arg_3 : string;
  arg_4 : string;
  arg_5 : OptionalData
}.

(** What one creation request observes of the outside: the clock, the
    random source, and the KHQR encoder, a black box that returns a result
    object or throws. *)
Record World : Type := mkWorld {
  new_Date : DateParts;
  Math_random : number;
  Date_now : Z;
  generateIndividual : IndividualInfo -> Completion JsValue
}.

(** A creation suspended at [await QRCode.toDataURL(qrString, ...)]. *)
Record CreateCont : Type := mkCreateCont {
  c_orderId : string;
  c_amount : number;
  c_currencyCode : string;
  c_qrString : JsValue;
  c_md5 : JsValue
}.

(** A status check suspended at [await axios.post(..., { md5 }, ...)]. *)
Record CheckCont : Type := mkCheckCont {
  k_order : loc;
  k_md5 : JsValue
}.

Section Handlers.
Context `{JsBuiltins} (env : ProcessEnv).

Definition BAKONG_BASE_URL : string :=
  env_or (env_BAKONG_BASE_URL env) "https://api-bakong.nbc.gov.kh".
Definition BAKONG_TOKEN : string := env_or (env_BAKONG_TOKEN env) "".
Definition BAKONG_ACCOUNT_ID : string := env_or (env_BAKONG_ACCOUNT_ID env) "".
Definition MERCHANT_NAME : string := env_or (env_MERCHANT_NAME env) "CVG Cafe".
Definition MERCHANT_CITY : string :=
  env_or (env_MERCHANT_CITY env) "Phnom Penh".
Definition DEFAULT_CURRENCY : string :=
  toUpperCase (env_or (env_CURRENCY env) "USD").

Definition invalid_amount : Response :=
  mkResponse 400
    [("ok", JBool false); ("error", JStr "Invalid amount (must be > 0)")].

Definition invalid_account : Response :=
  mkResponse 500
    [("ok", JBool false);
     ("error",
      JStr "BAKONG_ACCOUNT_ID is not set or invalid. Example: yourid@aclb in .env")].

Definition generate_failed : Response :=
  mkResponse 500 [("ok", JBool false); ("error", JStr "Failed to generate KHQR")].

Definition create_error : Response :=
  mkResponse 500
    [("ok", JBool false); ("error", JStr "Server error while creating KHQR")].

(** [!result || result.status.code !== 0 || !result.data]. *)
Definition generate_rejected (result : JsValue) : Completion bool :=
  if negb (truthy result) then Ok true
  else
    let! status := Get result "status" in
    let! code := Get status "code" in
    if negb (strict_eq code (JNum (of_Z 0))) then Ok true
    else
      let! data := Get result "data" in
      Ok (negb (truthy data)).

(** [POST /api/create-khqr], from the start of the [try] block to
    [await QRCode.toDataURL]. *)
Definition create_khqr_begin (w : World) (body : JsValue)
  : Suspended CreateCont Response :=
  try_catch
    (let! amount0 := Get body "amount" in
     let! currency := Get body "currency" in
     let! amount := ToNumber (js_or amount0 (JNum (of_Z 0))) in
     if negb (truthy (JNum amount)) || num_le amount (of_Z 0)
     then Ok (Done invalid_amount)
     else if str_falsy BAKONG_ACCOUNT_ID
             || negb (includes_char BAKONG_ACCOUNT_ID "@")
     then Ok (Done invalid_account)
     else
       let! currencyCode :=
         call_toUpperCase (js_or currency (JStr DEFAULT_CURRENCY)) in
       let khqrCurrency := if String.eqb currencyCode "KHR" then khr else usd in
       let orderId := generateOrderId (new_Date w) (Math_random w) in
       let expirationTimestamp := (Date_now w + 10 * 60 * 1000)%Z in
       let optionalData :=
         {| od_currency := khqrCurrency;
            od_amount := amount;
            od_storeLabel := MERCHANT_NAME;
            od_merchantCategoryCode := "5999";
            od_billNumber := orderId;
            od_purposeOfTransaction := "Cafe order";
            od_expirationTimestamp := expirationTimestamp |} in
       let individualInfo :=
         {| arg_1 := BAKONG_ACCOUNT_ID;
            arg_2 := khqrCurrency;
            arg_3 := MERCHANT_NAME;
            arg_4 := MERCHANT_CITY;
            arg_5 := optionalData |} in
       let! result := generateIndividual w individualInfo in
       let! rejected := generate_rejected result in
       if rejected then Ok (Done generate_failed)
       else
         let! data := Get result "data" in
         let! qrString := Get data "qr" in
         let! md5 := Get data "md5" in
         Ok (Await {| c_orderId := orderId;
                      c_amount := amount;
                      c_currencyCode := currencyCode;
                      c_qrString := qrString;
                      c_md5 := md5 |}))
    (Done create_error).

(** The order object literal stored at [ORDERS[orderId]]. *)
Definition new_order (k : CreateCont) (createdAt : string) : Obj :=
  list_to_map
    [("orderId", JStr (c_orderId k));
     ("amount", JNum (c_amount k));
     ("currency", JStr (c_currencyCode k));
     ("qrString", c_qrString k);
     ("md5", c_md5 k);
     ("status", JStr "PENDING");
     ("createdAt", JStr createdAt)].

Definition created (k : CreateCont) (qrImage : string) : Response :=
  mkResponse 200
    [("ok", JBool true);
     ("orderId", JStr (c_orderId k));
     ("amount", JNum (c_amount k));
     ("currency", JStr (c_currencyCode k));
     ("qrString", c_qrString k);
     ("md5", c_md5 k);
     ("qrImage", JStr qrImage)].

(** [POST /api/create-khqr], resumed with the outcome of
    [QRCode.toDataURL]; [toISOString] is [new Date().toISOString()]. *)
Definition create_khqr_resume (k : CreateCont) (toDataURL : Completion string)
    (toISOString : string) (st : State) : Response * State :=
  match toDataURL with
  | Throw _ => (create_error, st)
  | Ok qrImage =>
      (created k qrImage, store_order st (c_orderId k) (new_order k toISOString))
  end.

Definition not_found : Response :=
  mkResponse 404 [("ok", JBool false); ("error", JStr "Order not found")].

Definition already_paid (h : list Obj) (order : loc) : Response :=
  mkResponse 200
    [("ok", JBool true);
     ("status", JStr "PAID");
     ("amount", get_prop h order "amount");
     ("currency", get_prop h order "currency")].

Definition token_not_set : Response :=
  mkResponse 200
    [("ok", JBool true);
     ("status", JStr "PENDING");
     ("note", JStr "BAKONG_TOKEN not set. Payment check is not active yet.")].

Definition check_error : Response :=
  mkResponse 500
    [("ok", JBool false); ("error", JStr "Server error while checking payment")].

Definition order_status (h : list Obj) (order : loc) : Response :=
  mkResponse 200
    [("ok", JBool true);
     ("status", get_prop h order "status");
     ("amount", get_prop h order "amount");
     ("currency", get_prop h order "currency")].

(** [GET /api/check-payment/:orderId] up to [await axios.post]. *)
Definition check_payment_begin (st : State) (orderId : string)
  : Suspended CheckCont Response :=
  match lookup_order st orderId with
  | None => Done not_found
  | Some order =>
      if strict_eq (get_prop (heap st) order "status") (JStr "PAID")
      then Done (already_paid (heap st) order)
      else if str_falsy BAKONG_TOKEN
              || String.eqb BAKONG_TOKEN "YOUR_BAKONG_API_TOKEN_HERE"
      then Done token_not_set
      else Await {| k_order := order;
                    k_md5 := get_prop (heap st) order "md5" |}
  end.

(** [data && data.responseCode === 0 && data.data], as a condition. *)
Definition settlement_matched (data : JsValue) : Completion bool :=
  if truthy data then
    let! responseCode := Get data "responseCode" in
    if strict_eq responseCode (JNum (of_Z 0)) then
      let! record := Get data "data" in
      Ok (truthy record)
    else Ok false
  else Ok false.

(** [paidCurrency === order.currency &&
     Math.abs(paidAmount - order.amount) < 0.0001]. *)
Definition amounts_agree (h : list Obj) (order : loc)
    (paidAmount : number) (paidCurrency : JsValue) : Completion bool :=
  if strict_eq paidCurrency (get_prop h order "currency") then
    let! amount := ToNumber (get_prop h order "amount") in
    Ok (num_lt (Math_abs (num_sub paidAmount amount)) (decimal 1 4))
  else Ok false.

(** The reconciliation block: the heap after [if (data && ...) { ... }]. *)
Definition reconcile (h : list Obj) (order : loc) (data : JsValue)
  : Completion (list Obj) :=
  let! matched := settlement_matched data in
  if matched then
    let! record := Get data "data" in
    let! amount0 := Get record "amount" in
    let! paidAmount := ToNumber amount0 in
    let! paidCurrency := Get record "currency" in
    let! agree := amounts_agree h order paidAmount paidCurrency in
    if agree then Ok (set_prop h order "status" (JStr "PAID")) else Ok h
  else Ok h.

(** [GET /api/check-payment/:orderId], resumed with the outcome of
    [axios.post]: the body [resp.data] of a 2xx response, or a rejection. *)
Definition check_payment_resume (k : CheckCont) (axios_post : Completion JsValue)
    (st : State) : Response * State :=
  try_catch
    (let! data := axios_post in
     let! h := reconcile (heap st) (k_order k) data in
     Ok (order_status h (k_order k), {| ORDERS := ORDERS st; heap := h |}))
    (check_error, st).

(** A status check run to completion; [authority] answers the request that
    carries the fingerprint.  The second component tells whether the
    settlement authority was contacted. *)
Definition check_payment (authority : JsValue -> Completion JsValue)
    (st : State) (orderId : string) : Response * bool * State :=
  match check_payment_begin st orderId with
  | Done r => (r, false, st)
  | Await k =>
      let '(r, st') := check_payment_resume k (authority (k_md5 k)) st in
      (r, true, st')
  end.

(** A list of status checks run one after the other. *)
Fixpoint check_all (calls : list ((JsValue -> Completion JsValue) * string))
    (st : State) : State :=
  match calls with
  | [] => st
  | (authority, orderId) :: rest =>
      check_all rest (check_payment authority st orderId).2
  end.

(** A creation run to completion. *)
Definition create_khqr (w : World) (body : JsValue)
    (toDataURL : Completion string) (toISOString : string) (st : State)
  : Response * State :=
  match create_khqr_begin w body with
  | Done r => (r, st)
  | Await k => create_khqr_resume k toDataURL toISOString st
  end.

(** The [status] member of a response body. *)
Definition response_status (r : Response) : option JsValue :=
  own_property (json r) "status".

(** ** The event loop *)

(** The process: the ledger and the handlers suspended at an [await]. *)
Record Process : Type := mkProcess {
  ledger : State;
  creating : list CreateCont;
  checking : list CheckCont
}.

Definition boot : Process :=
  {| ledger := init; creating := []; checking := [] |}.

(** One turn of the event loop: a request arrives and runs up to its first
    suspension, or a suspended handler resumes with the awaited result. *)
Inductive step : Process -> Process -> Prop :=
| step_create_refused p w body r :
    create_khqr_begin w body = Done r ->
    step p p
| step_create_suspend p w body k :
    create_khqr_begin w body = Await k ->
    step p {| ledger := ledger p;
              creating := k :: creating p;
              checking := checking p |}
| step_create_resume p k before after toDataURL toISOString :
    creating p = (before ++ k :: after)%list ->
    step p {| ledger := (create_khqr_resume k toDataURL toISOString (ledger p)).2;
              creating := (before ++ after)%list;
              checking := checking p |}
| step_check_answered p orderId r :
    check_payment_begin (ledger p) orderId = Done r ->
    step p p
| step_check_suspend p orderId k :
    check_payment_begin (ledger p) orderId = Await k ->
    step p {| ledger := ledger p;
              creating := creating p;
              checking := k :: checking p |}
| step_check_resume p k before after axios_post :
    checking p = (before ++ k :: after)%list ->
    step p {| ledger := (check_payment_resume k axios_post (ledger p)).2;
              creating := creating p;
              checking := (before ++ after)%list |}.

Inductive steps : Process -> Process -> Prop :=
| steps_refl p : steps p p
| steps_step p q r : steps p q -> step q r -> steps p r.

Definition reachable (p : Process) : Prop := steps boot p.

End Handlers.

End Server.

(* ================================================================== *)
(** * src/unnamed/part_002                                             *)
(* ================================================================== *)

(** The status check of part_002 can give [Object.prototype] a property:
    the check of the id [__proto__], answered with a matched record, writes
    [status] there.  Reads of an order's properties ([get_prop]) follow the
    prototype and see it.  Two other reads do not: [result.status] in the
    creation ([Get] reads own properties) and the lookup of the id [status]
    ([lookup_order] inherits the names [Object.prototype] starts with), so
    for these two the embedding is that of the runs before such a write. *)
Module Part002.

Record CheckCont : Type := mkCheckCont {
  k_order : loc;
  k_md5 : JsValue
}.

Section Handlers.
Context (env : ProcessEnv).

Definition BAKONG_TOKEN : string := env_or (env_BAKONG_TOKEN env) "".

Definition not_found : Response :=
  mkResponse 404 [("ok", JBool false); ("error", JStr "Order not found")].

Definition already_paid (h : list Obj) (order : loc) : Response :=
  mkResponse 200
    [("ok", JBool true);
     ("status", JStr "PAID");
     ("amount", get_prop h order "amount");
     ("currency", get_prop h order "currency")].

Definition token_not_set : Response :=
  mkResponse 200
    [("ok", JBool true);
     ("status", JStr "PENDING");
     ("note", JStr "BAKONG_TOKEN not set; live payment check disabled")].

Definition check_error : Response :=
  mkResponse 500 [("ok", JBool false); ("error", JStr "Server error")].

Definition order_status (h : list Obj) (order : loc) : Response :=
  mkResponse 200
    [("ok", JBool true);
     ("status", get_prop h order "status");
     ("amount", get_prop h order "amount");
     ("currency", get_prop h order "currency")].

(** [GET /api/check-payment/:orderId] up to [await axios.post]. *)
Definition check_payment_begin (st : State) (orderId : string)
  : Suspended CheckCont Response :=
  match lookup_order st orderId with
  | None => Done not_found
  | Some order =>
      if strict_eq (get_prop (heap st) order "status") (JStr "PAID")
      then Done (already_paid (heap st) order)
      else if str_falsy BAKONG_TOKEN
              || String.eqb BAKONG_TOKEN "YOUR_BAKONG_API_TOKEN_HERE"
      then Done token_not_set
      else Await {| k_order := order;
                    k_md5 := get_prop (heap st) order "md5" |}
  end.

(** [data && data.responseCode === 0 && data.data], as a condition. *)
Definition settlement_matched (data : JsValue) : Completion bool :=
  if truthy data then
    let! responseCode := Get data "responseCode" in
    if strict_eq responseCode (JNum (of_Z 0)) then
      let! record := Get data "data" in
      Ok (truthy record)
    else Ok false
  else Ok false.

(** The block after [const data = resp.data]: the source marks the place
    where amount and currency could be validated, and validates neither. *)
Definition reconcile (h : list Obj) (order : loc) (data : JsValue)
  : Completion (list Obj) :=
  let! matched := settlement_matched data in
  if matched then Ok (set_prop h order "status" (JStr "PAID")) else Ok h.

(** [GET /api/check-payment/:orderId], resumed with the outcome of
    [axios.post]. *)
Definition check_payment_resume (k : CheckCont) (axios_post : Completion JsValue)
    (st : State) : Response * State :=
  try_catch
    (let! data := axios_post in
     let! h := reconcile (heap st) (k_order k) data in
     Ok (order_status h (k_order k), {| ORDERS := ORDERS st; heap := h |}))
    (check_error, st).

(** A status check run to completion. *)
Definition check_payment (authority : JsValue -> Completion JsValue)
    (st : State) (orderId : string) : Response * bool * State :=
  match check_payment_begin st orderId with
  | Done r => (r, false, st)
  | Await k =>
      let '(r, st') := check_payment_resume k (authority (k_md5 k)) st in
      (r, true, st')
  end.

End Handlers.

(** The arguments of [new IndividualInfo] as part_002 and the serverless
    creation pass them: account, merchant name, merchant city and the
    [optionalData] literal, which has the fields of server.js. *)
Record IndividualInfo : Type := mkIndividualInfo {
  bakongAccountID : string;
  merchantName : string;
  merchantCity : string;
  optionalData : Server.OptionalData
}.

(** What one creation request observes of the outside.  [BakongKHQR_decode]
    is only called for the debug log. *)
Record World : Type := mkWorld {
  new_Date : DateParts;
  Math_random : number;
  Date_now : Z;
  generateIndividual : IndividualInfo -> Completion JsValue;
  BakongKHQR_decode : JsValue -> Completion JsValue
}.

(** A creation suspended at [await QRCode.toDataURL(qrString, ...)]. *)
Record CreateCont : Type := mkCreateCont {
  c_orderId : string;
  c_amount : number;
  c_currencyCode : string;
  c_md5 : JsValue
}.

Section Creation.
Context `{JsBuiltins} (env : ProcessEnv).

Definition BAKONG_ACCOUNT_ID : string := env_or (env_BAKONG_ACCOUNT_ID env) "".
Definition MERCHANT_NAME : string := env_or (env_MERCHANT_NAME env) "CVG Cafe".
Definition MERCHANT_CITY : string :=
  env_or (env_MERCHANT_CITY env) "Phnom Penh".
Definition DEFAULT_CURRENCY : string :=
  toUpperCase (env_or (env_CURRENCY env) "USD").

Definition invalid_amount : Response :=
  mkResponse 400
    [("ok", JBool false); ("error", JStr "Invalid amount (must be > 0)")].

Definition invalid_account : Response :=
  mkResponse 500
    [("ok", JBool false);
     ("error",
      JStr "BAKONG_ACCOUNT_ID is not set correctly (e.g. yourid@aclb) in env")].

(** The answer to a refused encoding, with
    [detail: result?.status?.message || null]. *)
Definition generate_failed (result : JsValue) : Response :=
  mkResponse 500
    [("ok", JBool false);
     ("error", JStr "Failed to generate KHQR");
     ("detail", js_or (GetOpt (GetOpt result "status") "message") JNull)].

Definition create_error : Response :=
  mkResponse 500 [("ok", JBool false); ("error", JStr "Server error")].

(** The debug block: [BakongKHQR.decode(qrString)] and its log, inside a
    [try] of their own whose [catch] only logs. *)
Definition debug_decode (w : World) (qrString : JsValue) : unit :=
  try_catch (let! decoded := BakongKHQR_decode w qrString in Ok tt) tt.

(** [POST /api/create-khqr] up to [await QRCode.toDataURL]. *)
Definition create_khqr_begin (w : World) (body : JsValue)
  : Suspended CreateCont Response :=
  try_catch
    (let! amount0 := Get body "amount" in
     let! currency := Get body "currency" in
     let! amount := ToNumber (js_or amount0 (JNum (of_Z 0))) in
     if negb (truthy (JNum amount)) || num_le amount (of_Z 0)
     then Ok (Done invalid_amount)
     else if str_falsy BAKONG_ACCOUNT_ID
             || negb (includes_char BAKONG_ACCOUNT_ID "@")
     then Ok (Done invalid_account)
     else
       let! currencyCode :=
         call_toUpperCase (js_or currency (JStr DEFAULT_CURRENCY)) in
       let khqrCurrency := if String.eqb currencyCode "KHR" then khr else usd in
       let orderId := generateOrderId (new_Date w) (Math_random w) in
       let expirationTimestamp := (Date_now w + 10 * 60 * 1000)%Z in
       let individualInfo :=
         {| bakongAccountID := BAKONG_ACCOUNT_ID;
            merchantName := MERCHANT_NAME;
            merchantCity := MERCHANT_CITY;
            optionalData :=
              {| Server.od_currency := khqrCurrency;
                 Server.od_amount := amount;
                 Server.od_storeLabel := MERCHANT_NAME;
                 Server.od_merchantCategoryCode := "5999";
                 Server.od_billNumber := orderId;
                 Server.od_purposeOfTransaction := "Cafe order";
                 Server.od_expirationTimestamp := expirationTimestamp |} |} in
       let! result := generateIndividual w individualInfo in
       let! rejected := Server.generate_rejected result in
       if rejected then Ok (Done (generate_failed result))
       else
         let! data := Get result "data" in
         let! qrString := Get data "qr" in
         let! md5 := Get data "md5" in
         let 'tt := debug_decode w qrString in
         Ok (Await {| c_orderId := orderId;
                      c_amount := amount;
                      c_currencyCode := currencyCode;
                      c_md5 := md5 |}))
    (Done create_error).

(** The order object literal stored at [ORDERS[orderId]]: part_002 does not
    keep the encoded payload. *)
Definition new_order (k : CreateCont) (createdAt : string) : Obj :=
  list_to_map
    [("orderId", JStr (c_orderId k));
     ("amount", JNum (c_amount k));
     ("currency", JStr (c_currencyCode k));
     ("md5", c_md5 k);
     ("status", JStr "PENDING");
     ("createdAt", JStr createdAt)].

(** The answer to a creation: neither the payload nor the fingerprint is
    returned, only the rendered image. *)
Definition created (k : CreateCont) (qrImage : string) : Response :=
  mkResponse 200
    [("ok", JBool true);
     ("orderId", JStr (c_orderId k));
     ("amount", JNum (c_amount k));
     ("currency", JStr (c_currencyCode k));
     ("qrImage", JStr qrImage)].

(** [POST /api/create-khqr], resumed with the outcome of
    [QRCode.toDataURL]. *)
Definition create_khqr_resume (k : CreateCont) (toDataURL : Completion string)
    (toISOString : string) (st : State) : Response * State :=
  match toDataURL with
  | Throw _ => (create_error, st)
  | Ok qrImage =>
      (created k qrImage, store_order st (c_orderId k) (new_order k toISOString))
  end.

(** A creation run to completion. *)
Definition create_khqr (w : World) (body : JsValue)
    (toDataURL : Completion string) (toISOString : string) (st : State)
  : Response * State :=
  match create_khqr_begin w body with
  | Done r => (r, st)
  | Await k => create_khqr_resume k toDataURL toISOString st
  end.

End Creation.

End Part002.

(* ================================================================== *)
(** * src/unnamed/part_003                                             *)
(* ================================================================== *)

Module Part003.

(** The options object passed to [KHQR.generate]; [tag] is always
    [TAG.INDIVIDUAL] and [countryCode] always [COUNTRY.KH]. *)
Record GenerateOptions : Type := mkGenerateOptions {
  accountID : option string;
  merchantName : string;
  merchantCity : string;
  currency : KhqrCurrency;
  amount : number;
  merchantCategoryCode : string;
  expirationTimestamp : Z;
  billNumber : string;
  purposeOfTransaction : string
}.

(** What one creation request observes of the outside; [md5_hex s] is
    [crypto.createHash("md5").update(s).digest("hex")]. *)
Record World : Type := mkWorld {
  new_Date : DateParts;
  Math_random : number;
  Date_now : Z;
  KHQR_generate : GenerateOptions -> Completion JsValue;
  md5_hex : string -> string
}.

(** A creation suspended at [await QRCode.toDataURL(khqrString)]. *)
Record CreateCont : Type := mkCreateCont {
  c_orderId : string;
  c_khqrAmount : number;
  c_cur : string;
  c_khqrString : string;
  c_md5 : string
}.

Record CheckCont : Type := mkCheckCont {
  k_order : loc;
  k_md5 : JsValue
}.

Section Handlers.
Context `{JsBuiltins} (env : ProcessEnv).

Definition BAKONG_TOKEN : option string := env_BAKONG_TOKEN env.
Definition BAKONG_ACCOUNT_ID : option string := env_BAKONG_ACCOUNT_ID env.
Definition MERCHANT_NAME : string := env_or (env_MERCHANT_NAME env) "My Cafe".
Definition MERCHANT_CITY : string :=
  env_or (env_MERCHANT_CITY env) "Phnom Penh".
Definition DEFAULT_CURRENCY : string :=
  toUpperCase (env_or (env_CURRENCY env) "USD").

(** [!s] for a variable that is a string or undefined. *)
Definition opt_falsy (s : option string) : bool :=
  match s with
  | Some s => str_falsy s
  | None => true
  end.

Definition invalid_amount : Response :=
  mkResponse 400 [("ok", JBool false); ("error", JStr "Invalid amount")].

Definition invalid_currency : Response :=
  mkResponse 400
    [("ok", JBool false); ("error", JStr "Currency must be USD or KHR")].

Definition invalid_account : Response :=
  mkResponse 500
    [("ok", JBool false);
     ("error",
      JStr "BAKONG_ACCOUNT_ID is not set correctly in .env (e.g. myname@aclb)")].

Definition generate_failed : Response :=
  mkResponse 500
    [("ok", JBool false);
     ("error",
      JStr "Failed to generate KHQR string (check ts-khqr version / result shape)")].

Definition create_error : Response :=
  mkResponse 500 [("ok", JBool false); ("error", JStr "Server error")].

(** [!amount || amount <= 0] on the value as the client sent it: the
    comparison converts its operand with ToNumber. *)
Definition amount_rejected (amount : JsValue) : Completion bool :=
  if negb (truthy amount) then Ok true
  else
    let! a := ToNumber amount in
    Ok (num_le a (of_Z 0)).

(** [["USD", "KHR"].includes(cur)]. *)
Definition supported (cur : string) : bool :=
  String.eqb cur "USD" || String.eqb cur "KHR".

(** [cur === "KHR" ? Math.round(amount) : Number(amount)]. *)
Definition khqrAmount_of (cur : string) (amount : JsValue) : Completion number :=
  if String.eqb cur "KHR" then
    let! a := ToNumber amount in Ok (Math_round a)
  else ToNumber amount.

(** [khqrResult?.data?.qr || khqrResult?.qr || khqrResult?.data || ""]. *)
Definition khqrString_of (khqrResult : JsValue) : JsValue :=
  js_or (GetOpt (GetOpt khqrResult "data") "qr")
    (js_or (GetOpt khqrResult "qr")
       (js_or (GetOpt khqrResult "data") (JStr ""))).

(** [POST /api/create-khqr] up to [await QRCode.toDataURL]. *)
Definition create_khqr_begin (w : World) (body : JsValue)
  : Suspended CreateCont Response :=
  try_catch
    (let! amount := Get body "amount" in
     let! currency := Get body "currency" in
     let! rejected := amount_rejected amount in
     if rejected then Ok (Done invalid_amount)
     else
       let! cur := call_toUpperCase (js_or currency (JStr DEFAULT_CURRENCY)) in
       if negb (supported cur) then Ok (Done invalid_currency)
       else if opt_falsy BAKONG_ACCOUNT_ID
               || negb (includes_char (default "" BAKONG_ACCOUNT_ID) "@")
       then Ok (Done invalid_account)
       else
         let orderId := generateOrderId (new_Date w) (Math_random w) in
         let! khqrAmount := khqrAmount_of cur amount in
         let expirationTimestamp := (Date_now w + 10 * 60 * 1000)%Z in
         let! khqrResult :=
           KHQR_generate w
             {| accountID := BAKONG_ACCOUNT_ID;
                merchantName := MERCHANT_NAME;
                merchantCity := MERCHANT_CITY;
                currency := if String.eqb cur "USD" then usd else khr;
                amount := khqrAmount;
                merchantCategoryCode := "5999";
                expirationTimestamp := expirationTimestamp;
                billNumber := orderId;
                purposeOfTransaction := "Cafe order" |} in
         let khqrString := khqrString_of khqrResult in
         if negb (truthy khqrString) then Ok (Done generate_failed)
         else
           match khqrString with
           | JStr s =>
               Ok (Await {| c_orderId := orderId;
                            c_khqrAmount := khqrAmount;
                            c_cur := cur;
                            c_khqrString := s;
                            c_md5 := md5_hex w s |})
           | _ => Throw "TypeError: the data argument must be of type string"
           end)
    (Done create_error).

(** The order object literal stored at [orders[orderId]]. *)
Definition new_order (k : CreateCont) : Obj :=
  list_to_map
    [("orderId", JStr (c_orderId k));
     ("amount", JNum (c_khqrAmount k));
     ("currency", JStr (c_cur k));
     ("khqrString", JStr (c_khqrString k));
     ("md5", JStr (c_md5 k));
     ("status", JStr "PENDING")].

Definition created (k : CreateCont) (qrPngDataUrl : string) : Response :=
  mkResponse 200
    [("ok", JBool true);
     ("orderId", JStr (c_orderId k));
     ("amount", JNum (c_khqrAmount k));
     ("currency", JStr (c_cur k));
     ("qrString", JStr (c_khqrString k));
     ("md5", JStr (c_md5 k));
     ("qrImage", JStr qrPngDataUrl)].

(** [POST /api/create-khqr], resumed with the outcome of
    [QRCode.toDataURL]. *)
Definition create_khqr_resume (k : CreateCont) (toDataURL : Completion string)
    (st : State) : Response * State :=
  match toDataURL with
  | Throw _ => (create_error, st)
  | Ok qrPngDataUrl =>
      (created k qrPngDataUrl, store_order st (c_orderId k) (new_order k))
  end.

Definition not_found : Response :=
  mkResponse 404 [("ok", JBool false); ("error", JStr "Order not found")].

Definition already_paid (h : list Obj) (order : loc) : Response :=
  mkResponse 200
    [("ok", JBool true);
     ("status", JStr "PAID");
     ("amount", get_prop h order "amount");
     ("currency", get_prop h order "currency")].

Definition token_not_set : Response :=
  mkResponse 200
    [("ok", JBool true);
     ("status", JStr "PENDING");
     ("note",
      JStr "BAKONG_TOKEN not set yet; backend is not checking real status.")].

Definition check_error : Response :=
  mkResponse 500 [("ok", JBool false); ("error", JStr "Check payment error")].

Definition order_status (h : list Obj) (order : loc) : Response :=
  mkResponse 200 [("ok", JBool true); ("status", get_prop h order "status")].

(** [GET /api/check-payment/:orderId] up to [await axios.post]. *)
Definition check_payment_begin (st : State) (orderId : string)
  : Suspended CheckCont Response :=
  match lookup_order st orderId with
  | None => Done not_found
  | Some order =>
      if strict_eq (get_prop (heap st) order "status") (JStr "PAID")
      then Done (already_paid (heap st) order)
      else if opt_falsy BAKONG_TOKEN
              || String.eqb (default "" BAKONG_TOKEN) "YOUR_BAKONG_API_TOKEN_HERE"
      then Done token_not_set
      else Await {| k_order := order;
                    k_md5 := get_prop (heap st) order "md5" |}
  end.

(** [data.responseCode === 0 && data.data], as a condition; [data] is not
    guarded here. *)
Definition settlement_matched (data : JsValue) : Completion bool :=
  let! responseCode := Get data "responseCode" in
  if strict_eq responseCode (JNum (of_Z 0)) then
    let! record := Get data "data" in
    Ok (truthy record)
  else Ok false.

(** [paidCurrency === order.currency &&
     Math.abs(paidAmount - order.amount) < 0.0001]. *)
Definition amounts_agree (h : list Obj) (order : loc)
    (paidAmount : number) (paidCurrency : JsValue) : Completion bool :=
  if strict_eq paidCurrency (get_prop h order "currency") then
    let! stored := ToNumber (get_prop h order "amount") in
    Ok (num_lt (Math_abs (num_sub paidAmount stored)) (decimal 1 4))
  else Ok false.

Definition reconcile (h : list Obj) (order : loc) (data : JsValue)
  : Completion (list Obj) :=
  let! matched := settlement_matched data in
  if matched then
    let! record := Get data "data" in
    let! amount0 := Get record "amount" in
    let! paidAmount := ToNumber amount0 in
    let! paidCurrency := Get record "currency" in
    let! agree := amounts_agree h order paidAmount paidCurrency in
    if agree then Ok (set_prop h order "status" (JStr "PAID")) else Ok h
  else Ok h.

(** [GET /api/check-payment/:orderId], resumed with the outcome of
    [axios.post]. *)
Definition check_payment_resume (k : CheckCont) (axios_post : Completion JsValue)
    (st : State) : Response * State :=
  try_catch
    (let! data := axios_post in
     let! h := reconcile (heap st) (k_order k) data in
     Ok (order_status h (k_order k), {| ORDERS := ORDERS st; heap := h |}))
    (check_error, st).

(** A status check run to completion. *)
Definition check_payment (authority : JsValue -> Completion JsValue)
    (st : State) (orderId : string) : Response * bool * State :=
  match check_payment_begin st orderId with
  | Done r => (r, false, st)
  | Await k =>
      let '(r, st') := check_payment_resume k (authority (k_md5 k)) st in
      (r, true, st')
  end.

(** A creation run to completion. *)
Definition create_khqr (w : World) (body : JsValue)
    (toDataURL : Completion string) (st : State) : Response * State :=
  match create_khqr_begin w body with
  | Done r => (r, st)
  | Await k => create_khqr_resume k toDataURL st
  end.

End Handlers.

End Part003.

(* ================================================================== *)
(** * The serverless handlers                                          *)
(* ================================================================== *)

(** [api/create-khqr.js] (src/unnamed/part_000) and [api/check-payment.js]
    (src/unnamed/part_001) export one function each, called with every
    request whatever its method.  They keep no store. *)
Module Serverless.

Record Request : Type := mkRequest {
  method : string;
  body : JsValue
}.

(** What the handler did to [res]: the headers it set, the status, and the
    JSON body, absent after [res.status(200).end()]. *)
Record Reply : Type := mkReply {
  headers : list (string * string);
  status : nat;
  payload : option (list (string * JsValue))
}.

(** The three [res.setHeader] calls that open both handlers. *)
Definition cors_headers : list (string * string) :=
  [("Access-Control-Allow-Origin", "*");
   ("Access-Control-Allow-Methods", "POST,OPTIONS");
   ("Access-Control-Allow-Headers", "Content-Type, Authorization")].

Definition reply (status : nat) (payload : option (list (string * JsValue)))
  : Reply :=
  {| headers := cors_headers; status := status; payload := payload |}.

Definition preflight : Reply := reply 200 None.

Definition method_not_allowed : Reply :=
  reply 405 (Some [("ok", JBool false); ("error", JStr "Method not allowed")]).

Definition server_error : Reply :=
  reply 500 (Some [("ok", JBool false); ("error", JStr "Server error")]).

(** ** api/create-khqr.js *)

(** A creation suspended at [await QRCode.toDataURL(qrString, ...)]. *)
Record CreateCont : Type := mkCreateCont {
  c_orderId : string;
  c_amount : number;
  c_currencyCode : string;
  c_md5 : JsValue
}.

(** A status check suspended at [await axios.post(..., { md5 }, ...)]. *)
Record CheckCont : Type := mkCheckCont {
  k_md5 : JsValue
}.

Section Handlers.
Context `{JsBuiltins} (env : ProcessEnv).

Definition BAKONG_ACCOUNT_ID : string := env_or (env_BAKONG_ACCOUNT_ID env) "".
Definition MERCHANT_NAME : string := env_or (env_MERCHANT_NAME env) "CVG Cafe".
Definition MERCHANT_CITY : string :=
  env_or (env_MERCHANT_CITY env) "Phnom Penh".
Definition DEFAULT_CURRENCY : string :=
  toUpperCase (env_or (env_CURRENCY env) "USD").
Definition BAKONG_TOKEN : string := env_or (env_BAKONG_TOKEN env) "".

Definition invalid_amount : Reply :=
  reply 400 (Some [("ok", JBool false); ("error", JStr "Invalid amount (> 0)")]).

Definition invalid_account : Reply :=
  reply 500
    (Some [("ok", JBool false);
           ("error",
            JStr "BAKONG_ACCOUNT_ID not set correctly (e.g. yourid@aclb)")]).

Definition generate_failed (result : JsValue) : Reply :=
  reply 500
    (Some [("ok", JBool false);
           ("error", JStr "Failed to generate KHQR");
           ("detail", js_or (GetOpt (GetOpt result "status") "message") JNull)]).

(** The exported function of [api/create-khqr.js] up to
    [await QRCode.toDataURL]. *)
Definition create_begin (w : Part002.World) (req : Request)
  : Suspended CreateCont Reply :=
  if String.eqb (method req) "OPTIONS" then Done preflight
  else if negb (String.eqb (method req) "POST") then Done method_not_allowed
  else
    try_catch
      (let body := js_or (body req) (JObj []) in
       let! amount0 := Get body "amount" in
       let! currency := Get body "currency" in
       let! amount := ToNumber (js_or amount0 (JNum (of_Z 0))) in
       if negb (truthy (JNum amount)) || num_le amount (of_Z 0)
       then Ok (Done invalid_amount)
       else if str_falsy BAKONG_ACCOUNT_ID
               || negb (includes_char BAKONG_ACCOUNT_ID "@")
       then Ok (Done invalid_account)
       else
         let! currencyCode :=
           call_toUpperCase (js_or currency (JStr DEFAULT_CURRENCY)) in
         let khqrCurrency :=
           if String.eqb currencyCode "KHR" then khr else usd in
         let orderId :=
           generateOrderId (Part002.new_Date w) (Part002.Math_random w) in
         let expirationTimestamp := (Part002.Date_now w + 10 * 60 * 1000)%Z in
         let individualInfo :=
           {| Part002.bakongAccountID := BAKONG_ACCOUNT_ID;
              Part002.merchantName := MERCHANT_NAME;
              Part002.merchantCity := MERCHANT_CITY;
              Part002.optionalData :=
                {| Server.od_currency := khqrCurrency;
                   Server.od_amount := amount;
                   Server.od_storeLabel := MERCHANT_NAME;
                   Server.od_merchantCategoryCode := "5999";
                   Server.od_billNumber := orderId;
                   Server.od_purposeOfTransaction := "Cafe order";
                   Server.od_expirationTimestamp := expirationTimestamp |} |} in
         let! result := Part002.generateIndividual w individualInfo in
         let! rejected := Server.generate_rejected result in
         if rejected then Ok (Done (generate_failed result))
         else
           let! data := Get result "data" in
           let! qrString := Get data "qr" in
           let! md5 := Get data "md5" in
           Ok (Await {| c_orderId := orderId;
                        c_amount := amount;
                        c_currencyCode := currencyCode;
                        c_md5 := md5 |}))
      (Done server_error).

(** The answer to a creation: the fingerprint is returned, since nothing is
    stored. *)
Definition created (k : CreateCont) (qrImage : string) : Reply :=
  reply 200
    (Some [("ok", JBool true);
           ("orderId", JStr (c_orderId k));
           ("amount", JNum (c_amount k));
           ("currency", JStr (c_currencyCode k));
           ("md5", c_md5 k);
           ("qrImage", JStr qrImage)]).

Definition create_resume (k : CreateCont) (toDataURL : Completion string)
  : Reply :=
  match toDataURL with
  | Throw _ => server_error
  | Ok qrImage => created k qrImage
  end.

(** ** api/check-payment.js *)

Definition missing_md5 : Reply :=
  reply 400 (Some [("ok", JBool false); ("error", JStr "Missing md5")]).

Definition token_not_set : Reply :=
  reply 200
    (Some [("ok", JBool true);
           ("status", JStr "PENDING");
           ("note", JStr "BAKONG_TOKEN not set; live payment check disabled")]).

(** The answer after the settlement authority replied:
    [{ ok: true, status: paid ? "PAID" : "PENDING", raw: undefined }]. *)
Definition checked (paid : bool) : Reply :=
  reply 200
    (Some [("ok", JBool true);
           ("status", JStr (if paid then "PAID" else "PENDING"));
           ("raw", JUndefined)]).

(** The exported function of [api/check-payment.js] up to
    [await axios.post]. *)
Definition check_begin (req : Request) : Suspended CheckCont Reply :=
  if String.eqb (method req) "OPTIONS" then Done preflight
  else if negb (String.eqb (method req) "POST") then Done method_not_allowed
  else
    try_catch
      (let! md5 := Get (js_or (body req) (JObj [])) "md5" in
       if negb (truthy md5) then Ok (Done missing_md5)
       else if str_falsy BAKONG_TOKEN then Ok (Done token_not_set)
       else Ok (Await {| k_md5 := md5 |}))
      (Done server_error).

(** Resumed with the outcome of [axios.post]:
    [paid = !!(data && data.responseCode === 0 && data.data)]. *)
Definition check_resume (axios_post : Completion JsValue) : Reply :=
  try_catch
    (let! data := axios_post in
     let! paid := Part002.settlement_matched data in
     Ok (checked paid))
    server_error.

End Handlers.

End Serverless.

(** How a status may change: not at all, or from PENDING to PAID. *)
Definition status_advances (before after : option JsValue) : Prop :=
  after = before
  \/ (before = Some (JStr "PENDING") /\ after = Some (JStr "PAID")).

(** The heap of server.js: the objects inherited from [Object.prototype]
    own none of the tracked properties, and every other object is an order
    whose status is PENDING or PAID. *)
Definition well_formed (st : State) : Prop :=
  (forall l, l < length Object_prototype_keys -> heap st !! l = Some ∅)
  /\ (forall l (o : Obj),
        length Object_prototype_keys <= l ->
        heap st !! l = Some o ->
        o !! "status" = Some (JStr "PENDING")
        \/ o !! "status" = Some (JStr "PAID")).

(** What one turn of the event loop may do to the heap: every object stays,
    with a status that has not changed or has advanced, and every new
    object is PENDING. *)
Definition heap_evolves (st st' : State) : Prop :=
  (forall l (o : Obj), heap st !! l = Some o ->
     exists o' : Obj, heap st' !! l = Some o'
                /\ status_advances (o !! "status") (o' !! "status"))
  /\ (forall l (o' : Obj), heap st !! l = None -> heap st' !! l = Some o' ->
        o' !! "status" = Some (JStr "PENDING")).

(** The effect on the ledger of one status check, in any of the three
    variants: a handler resumed with the outcome of its request to the
    settlement authority, or a check run from start to end. *)
Inductive status_check `{JsBuiltins} (env : ProcessEnv) (st : State)
  : State -> Prop :=
| server_resumed k axios_post :
    status_check env st (Server.check_payment_resume k axios_post st).2
| server_checked authority orderId :
    status_check env st (Server.check_payment env authority st orderId).2
| part002_resumed k axios_post :
    status_check env st (Part002.check_payment_resume k axios_post st).2
| part002_checked authority orderId :
    status_check env st (Part002.check_payment env authority st orderId).2
| part003_resumed k axios_post :
    status_check env st (Part003.check_payment_resume k axios_post st).2
| part003_checked authority orderId :
    status_check env st (Part003.check_payment env authority st orderId).2.

(** ** Notions used to state properties of the ledger and of order ids *)

(** An order object as server.js keeps it under [orderId]. *)
Definition order_of_id (orderId : string) (o : Obj) : Prop :=
  o !! "orderId" = Some (JStr orderId)
  /\ (exists amount,
        o !! "amount" = Some (JNum amount) /\ num_lt (of_Z 0) amount = true)
  /\ (exists currency, o !! "currency" = Some (JStr currency))
  /\ (o !! "status" = Some (JStr "PENDING") \/ o !! "status" = Some (JStr "PAID"))
  /\ is_Some (o !! "qrString")
  /\ is_Some (o !! "md5")
  /\ (exists createdAt, o !! "createdAt" = Some (JStr createdAt)).

(** Every entry of the store leads to an order kept under its own id, and
    no entry hides a name inherited from [Object.prototype]. *)
Definition ledger_consistent (st : State) : Prop :=
  forall orderId l,
    ORDERS st !! orderId = Some l ->
    (orderId ∉ Object_prototype_keys)
    /\ length Object_prototype_keys <= l
    /\ exists o : Obj, heap st !! l = Some o /\ order_of_id orderId o.

(** What the event loop knows of a creation it has suspended. *)
Definition creation_validated (k : Server.CreateCont) : Prop :=
  num_lt (of_Z 0) (Server.c_amount k) = true
  /\ (Server.c_orderId k ∉ Object_prototype_keys).

(** The accessors of a [Date] other than the year, within the ranges
    ECMAScript gives them. *)
Definition clock_in_range (now : DateParts) : Prop :=
  (0 <= getMonth now <= 11)%Z
  /\ (1 <= getDate now <= 31)%Z
  /\ (0 <= getHours now <= 23)%Z
  /\ (0 <= getMinutes now <= 59)%Z
  /\ (0 <= getSeconds now <= 59)%Z.

(** The number a string of decimal digits denotes. *)
Fixpoint digits_value_from (acc : Z) (s : string) : Z :=
  match s with
  | EmptyString => acc
  | String c rest =>
      digits_value_from (10 * acc + (Z.of_nat (nat_of_ascii c) - 48)) rest
  end.

Definition digits_value (s : string) : Z := digits_value_from 0 s.

(* ================================================================== *)
(** * Concrete runtime and inputs used in the examples                 *)
(* ================================================================== *)

Module Examples.

(** Upper-casing of the ASCII letters, on which every engine agrees. *)
Definition ascii_upper (a : ascii) : ascii :=
  let n := nat_of_ascii a in
  if (97 <=? n)%nat && (n <=? 122)%nat then ascii_of_nat (n - 32) else a.

Fixpoint ascii_toUpperCase (s : string) : string :=
  match s with
  | EmptyString => EmptyString
  | String a rest => String (ascii_upper a) (ascii_toUpperCase rest)
  end.

(** Number::toString on the integral values below 2^53. *)
Definition integral_toString (x : number) : string :=
  match x with
  | S754_finite s m e => pretty (floor_finite s m e)
  | S754_zero _ => "0"
  | S754_infinity false => "Infinity"
  | S754_infinity true => "-Infinity"
  | S754_nan => "NaN"
  end.

(** A runtime for the closed examples below.  Their inputs carry amounts as
    JSON numbers and currency codes in ASCII: the only strings they convert
    to a number are not numeric literals, whose Number value is NaN (the
    empty string gives +0), they print no fractional number, and they
    upper-case ASCII strings only.  On those inputs the three functions
    return what ECMAScript does. *)
Definition runtime : JsBuiltins :=
  {| StringToNumber := fun s => if String.eqb s "" then pos_zero else NaN;
     NumberToString := integral_toString;
     toUpperCase := ascii_toUpperCase |}.

Definition env_demo : ProcessEnv :=
  {| env_BAKONG_BASE_URL := None;
     env_BAKONG_TOKEN := None;
     env_BAKONG_ACCOUNT_ID := Some "cafe@aclb";
     env_MERCHANT_NAME := None;
     env_MERCHANT_CITY := None;
     env_CURRENCY := None |}.

Definition env_live : ProcessEnv :=
  {| env_BAKONG_BASE_URL := None;
     env_BAKONG_TOKEN := Some "secret-token";
     env_BAKONG_ACCOUNT_ID := Some "cafe@aclb";
     env_MERCHANT_NAME := None;
     env_MERCHANT_CITY := None;
     env_CURRENCY := None |}.

Definition env_unset : ProcessEnv :=
  {| env_BAKONG_BASE_URL := None;
     env_BAKONG_TOKEN := None;
     env_BAKONG_ACCOUNT_ID := None;
     env_MERCHANT_NAME := None;
     env_MERCHANT_CITY := None;
     env_CURRENCY := None |}.

(** 2 November 2026, 09:30:15 local time. *)
Definition clock : DateParts :=
  {| getFullYear := 2026; getMonth := 10; getDate := 2;
     getHours := 9; getMinutes := 30; getSeconds := 15 |}.

(** [Math.random()] returning 0.042. *)
Definition dice : number := decimal 42 3.

(** An encoder that accepts every request. *)
Definition khqr_ok : JsValue :=
  JObj [("status", JObj [("code", JNum (of_Z 0))]);
        ("data", JObj [("qr", JStr "00020101021229"); ("md5", JStr "9e107d9d")])].

Definition world : Server.World :=
  {| Server.new_Date := clock;
     Server.Math_random := dice;
     Server.Date_now := 1793586615000;
     Server.generateIndividual := fun _ => Ok khqr_ok |}.

(** An encoder that refuses a KHR amount with a fractional part. *)
Definition khqr_refused : JsValue :=
  JObj [("status", JObj [("code", JNum (of_Z 1)); ("message", JStr "Amount is invalid")]);
        ("data", JNull)].

Definition world_strict : Server.World :=
  {| Server.new_Date := clock;
     Server.Math_random := dice;
     Server.Date_now := 1793586615000;
     Server.generateIndividual := fun info =>
       match Server.od_currency (Server.arg_5 info) with
       | khr =>
           if is_integer (Server.od_amount (Server.arg_5 info))
           then Ok khqr_ok else Ok khqr_refused
       | usd => Ok khqr_ok
       end |}.

Definition world3 : Part003.World :=
  {| Part003.new_Date := clock;
     Part003.Math_random := dice;
     Part003.Date_now := 1793586615000;
     Part003.KHQR_generate := fun _ => Ok (JObj [("data", JObj [("qr", JStr "00020101021229")])]);
     Part003.md5_hex := fun _ => "9e107d9d" |}.

Definition request (amount : JsValue) (currency : JsValue) : JsValue :=
  JObj [("amount", amount); ("currency", currency)].

(** An order object as [server.js] stores it. *)
Definition order_of (orderId : string) (amount : number) (currency status : string)
  : Obj :=
  list_to_map
    [("orderId", JStr orderId);
     ("amount", JNum amount);
     ("currency", JStr currency);
     ("qrString", JStr "00020101021229");
     ("md5", JStr "9e107d9d");
     ("status", JStr status);
     ("createdAt", JStr "2026-11-02T02:30:15.000Z")].

Definition the_id : string := "CAFE-20261102093015-042".

(** A ledger holding one 5.00 USD order with the given status. *)
Definition ledger_with (status : string) : State :=
  store_order init the_id (order_of the_id (of_Z 5) "USD" status).

(** The settlement authority reporting a settled payment. *)
Definition settled (amount : number) (currency : string) : JsValue :=
  JObj [("responseCode", JNum (of_Z 0));
        ("data", JObj [("amount", JNum amount); ("currency", JStr currency)])].

(** The settlement authority reporting that nothing was paid. *)
Definition unsettled : JsValue :=
  JObj [("responseCode", JNum (of_Z 1)); ("data", JNull)].

Definition qr_image : string := "data:image/png;base64,iVBORw0KGgo=".
Definition created_at : string := "2026-11-02T02:30:15.000Z".

(** A run of server.js: an order of 5 USD is created, then a status check
    finds it settled. *)
Definition k_create : Server.CreateCont :=
  {| Server.c_orderId := the_id;
     Server.c_amount := of_Z 5;
     Server.c_currencyCode := "USD";
     Server.c_qrString := JStr "00020101021229";
     Server.c_md5 := JStr "9e107d9d" |}.

Definition k_check : Server.CheckCont :=
  {| Server.k_order := 12; Server.k_md5 := JStr "9e107d9d" |}.

Definition p_creating : Server.Process :=
  {| Server.ledger := init; Server.creating := [k_create]; Server.checking := [] |}.

Definition p_created : Server.Process :=
  {| Server.ledger :=
       (Server.create_khqr_resume k_create (Ok qr_image) created_at init).2;
     Server.creating := [];
     Server.checking := [] |}.

Definition p_checking : Server.Process :=
  {| Server.ledger := Server.ledger p_created;
     Server.creating := [];
     Server.checking := [k_check] |}.

Definition p_paid : Server.Process :=
  {| Server.ledger :=
       (@Server.check_payment_resume runtime k_check
          (Ok (settled (of_Z 5) "USD")) (Server.ledger p_created)).2;
     Server.creating := [];
     Server.checking := [] |}.

(** The outside as part_002 and the serverless creation see it. *)
Definition world2 : Part002.World :=
  {| Part002.new_Date := clock;
     Part002.Math_random := dice;
     Part002.Date_now := 1793586615000;
     Part002.generateIndividual := fun _ => Ok khqr_ok;
     Part002.BakongKHQR_decode := fun _ => Throw "unsupported" |}.

(** A POST request to a serverless handler. *)
Definition post (body : JsValue) : Serverless.Request :=
  {| Serverless.method := "POST"; Serverless.body := body |}.

(** A creation of part_003 for 4100.4 KHR, suspended. *)
Definition k_create3 : Part003.CreateCont :=
  {| Part003.c_orderId := the_id;
     Part003.c_khqrAmount := of_Z 4100;
     Part003.c_cur := "KHR";
     Part003.c_khqrString := "00020101021229";
     Part003.c_md5 := "9e107d9d" |}.

End Examples.

(* ================================================================== *)
(** * Properties                                                       *)
(* ================================================================== *)

(** ** Numbers *)

Section Numbers.
Open Scope Z_scope.

Lemma digits2_pos_size (p : positive) : digits2_pos p = Pos.size p.
Proof. induction p; simpl; congruence. Qed.

Lemma iter_xO_mul (p k : positive) :
  Zpos (Pos.iter xO p k) = Zpos p * 2 ^ Zpos k.
Proof.
  induction k as [| k IH] using Pos.peano_ind.
  - simpl. lia.
  - rewrite Pos.iter_succ, Pos2Z.inj_succ, Z.pow_succ_r by lia.
    rewrite Pos2Z.inj_xO, IH. lia.
Qed.

Lemma digits2_iter_xO (p k : positive) :
  Zpos (digits2_pos (Pos.iter xO p k)) = Zpos (digits2_pos p) + Zpos k.
Proof.
  induction k as [| k IH] using Pos.peano_ind.
  - simpl. lia.
  - rewrite Pos.iter_succ. simpl digits2_pos. lia.
Qed.

Lemma digits2_bound (p : positive) :
  Zpos p < 2 ^ 53 -> Zpos (digits2_pos p) <= 53.
Proof.
  intros Hp. rewrite digits2_pos_size.
  destruct (Z_le_gt_dec (Zpos (Pos.size p)) 53) as [Hle | Hgt]; [done |].
  pose proof (Pos.size_le p) as Hsize.
  assert (H54 : 2 ^ 54 <= 2 ^ Zpos (Pos.size p)) by (apply Z.pow_le_mono_r; lia).
  assert (Hpow : Zpos (2 ^ Pos.size p) = 2 ^ Zpos (Pos.size p))
    by apply Pos2Z.inj_pow.
  assert (Zpos (2 ^ Pos.size p) <= Zpos p~0)
    by (apply Pos2Z.pos_le_pos; exact Hsize).
  change (2 ^ 54) with (2 * 2 ^ 53) in H54. lia.
Qed.

(** An integer below 2^53 is a Number exactly: rounding only shifts the
    mantissa up to 53 digits. *)
Lemma binary_round_small (s : bool) (p : positive) :
  Zpos p < 2 ^ 53 ->
  is_integer (binary_round prec emax s p 0) = true.
Proof.
  intros Hp. pose proof (digits2_bound p Hp) as Hd.
  unfold binary_round, shl_align, fexp, emin, prec, emax.
  set (d := Zpos (digits2_pos p)) in *.
  assert (Hdpos : 0 < d) by (subst d; lia).
  replace (Z.max (d + 0 - 53) (3 - 1024 - 53)) with (d - 53) by lia.
  destruct (d - 53 - 0) as [| k | k] eqn:Ek; try lia.
  - unfold binary_round_aux, shr_fexp, fexp, emin, Zdigits2, shr_record_of_loc.
    fold d. replace (Z.max (d + 0 - 53) (3 - 1024 - 53) - 0) with 0 by lia.
    cbn [shr]. cbn [shr_m loc_of_shr_record round_nearest_even].
    unfold Zdigits2. fold d.
    replace (Z.max (d + 0 - 53) (3 - 1024 - 53) - 0) with 0 by lia.
    cbn. reflexivity.
  - assert (Hk : Zpos k = 53 - d) by lia.
    unfold binary_round_aux, shr_fexp, fexp, emin, Zdigits2, shr_record_of_loc.
    rewrite digits2_iter_xO. fold d.
    replace (Z.max (d + Zpos k + (d - 53) - 53) (3 - 1024 - 53) - (d - 53))
      with 0 by lia.
    cbn [shr]. cbn [shr_m loc_of_shr_record round_nearest_even].
    unfold Zdigits2. rewrite digits2_iter_xO. fold d.
    replace (Z.max (d + Zpos k + (d - 53) - 53) (3 - 1024 - 53) - (d - 53))
      with 0 by lia.
    cbn [shr shr_m].
    replace (d - 53 <=? 1024 - 53) with true by (symmetry; apply Z.leb_le; lia).
    cbn [is_integer]. rewrite iter_xO_mul.
    replace (- (d - 53)) with (Zpos k) by lia.
    rewrite Z.mod_mul by lia. apply orb_true_r.
Qed.

Lemma of_Z_is_integer (n : Z) : Z.abs n < 2 ^ 53 -> is_integer (of_Z n) = true.
Proof.
  intros Hn. destruct n as [| p | p]; [done | |];
    apply binary_round_small; lia.
Qed.

(** [Math.round] of a finite Number is an integer. *)
Lemma Math_round_is_integer (x : number) :
  valid_binary prec emax x = true ->
  is_finite x = true ->
  is_integer (Math_round x) = true.
Proof.
  destruct x as [s | s | | s m e]; try done.
  intros Hvalid _. unfold Math_round.
  destruct (0 <=? e) eqn:He; [by cbn; rewrite He |].
  apply Z.leb_gt in He.
  set (n := Z.shiftl _ _).
  destruct (n =? 0) eqn:Hn; [done |].
  apply of_Z_is_integer.
  cbn in Hvalid. apply andb_true_iff in Hvalid as [Hcanon _].
  unfold canonical_mantissa, fexp, emin, prec, emax in Hcanon.
  apply Z.eqb_eq in Hcanon.
  assert (Hd : Zpos (digits2_pos m) <= 53) by lia.
  assert (Hm : Zpos m < 2 ^ 53).
  { rewrite digits2_pos_size in Hd.
    pose proof (Pos.size_gt m) as Hgt.
    assert (Zpos m < Zpos (2 ^ Pos.size m))
      by (apply Pos2Z.pos_lt_pos; exact Hgt).
    rewrite Pos2Z.inj_pow in *.
    assert (2 ^ Zpos (Pos.size m) <= 2 ^ 53) by (apply Z.pow_le_mono_r; lia).
    lia. }
  subst n. rewrite Z.shiftl_div_pow2 by lia.
  replace (- (e - 1)) with (1 + - e) by lia.
  rewrite Z.pow_add_r by lia. change (2 ^ 1) with 2.
  assert (Hpow : 2 <= 2 ^ (- e)).
  { change 2 with (2 ^ 1) at 1. apply Z.pow_le_mono_r; lia. }
  set (P := 2 ^ (- e)) in *.
  set (a := cond_Zopp s (Zpos m)).
  assert (Ha : - 2 ^ 53 < a < 2 ^ 53) by (subst a; destruct s; cbn; lia).
  pose proof (Z.div_mod (2 * a + P) (2 * P) ltac:(lia)) as Hdiv.
  pose proof (Z.mod_pos_bound (2 * a + P) (2 * P) ltac:(lia)) as Hmod.
  set (q := (2 * a + P) / (2 * P)) in *.
  change (2 ^ 53) with 9007199254740992 in *.
  apply Z.abs_lt. split; nia.
Qed.

End Numbers.

(** ** The heap *)

Section HeapFacts.
Implicit Types (h : list Obj) (l : loc) (k : string) (v : JsValue) (o : Obj).

Lemma state_eta (st : State) : {| ORDERS := ORDERS st; heap := heap st |} = st.
Proof. by destruct st. Qed.

Lemma set_prop_length h l k v : length (set_prop h l k v) = length h.
Proof. unfold set_prop. apply length_alter. Qed.

Lemma set_prop_lookup h l k v :
  set_prop h l k v !! l = (fun o : Obj => <[k := v]> o) <$> h !! l.
Proof. unfold set_prop. apply list_lookup_alter_eq. Qed.

Lemma set_prop_lookup_ne h l l' k v :
  l <> l' -> set_prop h l k v !! l' = h !! l'.
Proof. intros Hne. unfold set_prop. by apply list_lookup_alter_ne. Qed.

Lemma set_prop_dangling h l k v : h !! l = None -> set_prop h l k v = h.
Proof.
  intros Hl. apply list_eq. intros i.
  destruct (decide (l = i)) as [<- | Hne].
  - by rewrite set_prop_lookup, Hl.
  - by apply set_prop_lookup_ne.
Qed.

(** Writing one property of one object leaves every other property of
    every object as it was. *)
Lemma set_prop_frame h l k v l' o :
  h !! l' = Some o ->
  exists o', set_prop h l k v !! l' = Some o'
             /\ forall k', k' <> k -> o' !! k' = o !! k'.
Proof.
  intros Hl'. destruct (decide (l = l')) as [<- | Hne].
  - exists (<[k := v]> o). split.
    + by rewrite set_prop_lookup, Hl'.
    + intros k' Hk. by apply lookup_insert_ne.
  - exists o. split; [| done]. by rewrite set_prop_lookup_ne.
Qed.

Lemma get_prop_own h l o k v :
  h !! l = Some o -> o !! k = Some v -> get_prop h l k = v.
Proof. intros Hl Hk. unfold get_prop. by rewrite Hl, Hk. Qed.

Lemma get_prop_set_same h l o k v :
  h !! l = Some o -> get_prop (set_prop h l k v) l k = v.
Proof.
  intros Hl. unfold get_prop.
  rewrite set_prop_lookup, Hl. simpl.
  by rewrite lookup_insert_eq.
Qed.

(** A value read through the prototype chain survives a write of the same
    value to any object. *)
Lemma get_prop_set_stable h l l' k v :
  v <> JUndefined ->
  get_prop h l' k = v -> get_prop (set_prop h l k v) l' k = v.
Proof.
  intros Hv. unfold get_prop.
  destruct (h !! l') as [o |] eqn:Hl'; [| congruence].
  destruct (decide (l = l')) as [<- | Hne].
  - intros _. rewrite set_prop_lookup, Hl'. simpl. by rewrite lookup_insert_eq.
  - rewrite set_prop_lookup_ne, Hl' by done.
    destruct (o !! k); [done |].
    destruct (h !! Object_prototype) as [p |] eqn:Hp; [| congruence].
    intros Hread.
    destruct (decide (l = Object_prototype)) as [-> | Hne0].
    + rewrite set_prop_lookup, Hp. simpl. by rewrite lookup_insert_eq.
    + by rewrite set_prop_lookup_ne, Hp.
Qed.

(** Allocating objects changes no value that is read from an existing
    object. *)
Lemma get_prop_app_stable h (h' : list Obj) l k v :
  v <> JUndefined ->
  get_prop h l k = v -> get_prop (h ++ h') l k = v.
Proof.
  intros Hv. unfold get_prop.
  destruct (h !! l) as [o |] eqn:Hl; [| congruence].
  rewrite (lookup_app_l_Some _ _ _ _ Hl).
  destruct (o !! k); [done |].
  destruct (h !! Object_prototype) as [p |] eqn:Hp; [| congruence].
  by rewrite (lookup_app_l_Some _ _ _ _ Hp).
Qed.

Lemma strict_eq_JStr v (s : string) :
  strict_eq v (JStr s) = true <-> v = JStr s.
Proof.
  split.
  - destruct v; simpl; try discriminate.
    intros E. apply String.eqb_eq in E. by subst.
  - intros ->. simpl. apply String.eqb_refl.
Qed.

Lemma index_of_None (k : string) (keys : list string) :
  index_of k keys = None <-> k ∉ keys.
Proof.
  induction keys as [| k' keys IH]; simpl.
  - split; [intros _; apply not_elem_of_nil | done].
  - destruct (String.eqb_spec k' k) as [-> | Hne].
    + split; [discriminate |]. intros Hn. exfalso. apply Hn. left.
    + rewrite fmap_None, IH, not_elem_of_cons.
      split; [intros Hk; split; [congruence | done] | by intros [_ Hk]].
Qed.

Lemma index_of_bound (k : string) (keys : list string) (i : nat) :
  index_of k keys = Some i -> i < length keys.
Proof.
  revert i. induction keys as [| k' keys IH]; simpl; intros i; [discriminate |].
  destruct (String.eqb k' k).
  - intros [= <-]. lia.
  - destruct (index_of k keys) as [j |]; simpl; [| discriminate].
    intros [= <-]. specialize (IH j eq_refl). lia.
Qed.

(** A difference with NaN is NaN, which is below no tolerance. *)
Lemma not_within_tolerance_of_NaN (x tolerance : number) :
  num_lt (Math_abs (num_sub x NaN)) tolerance = false.
Proof. by destruct x. Qed.

Lemma Get_defined (body : JsValue) (k k' : string) (v : JsValue) :
  Get body k = Ok v -> exists v', Get body k' = Ok v'.
Proof.
  destruct body; simpl; intros E; try discriminate; eauto.
Qed.

(** A generated order id starts with [CAFE-]: it is never [__proto__] nor
    any other name inherited from [Object.prototype], so storing an order
    always defines an own property of the store. *)
Lemma generateOrderId_not_inherited (now : DateParts) (random : number) :
  (generateOrderId now random ∉ Object_prototype_keys)
  /\ inherited (generateOrderId now random) = None.
Proof.
  assert (Hnot : generateOrderId now random ∉ Object_prototype_keys).
  { unfold generateOrderId, Object_prototype_keys. cbn [String.append].
    rewrite !not_elem_of_cons. repeat split; try discriminate.
    apply not_elem_of_nil. }
  split; [done |]. by apply index_of_None.
Qed.

End HeapFacts.

(** ** The status check of server.js *)

Section ServerCheck.
Context `{JsBuiltins} (env : ProcessEnv).
Implicit Types (st : State) (h : list Obj) (l : loc) (data : JsValue).

(** The reconciliation block either leaves the heap alone or marks the one
    order as paid, and the latter only when amount and currency agreed. *)
Lemma server_reconcile_cases h l data h' :
  Server.reconcile h l data = Ok h' ->
  h' = h
  \/ (h' = set_prop h l "status" (JStr "PAID")
      /\ exists paidAmount paidCurrency,
           Server.amounts_agree h l paidAmount paidCurrency = Ok true).
Proof.
  unfold Server.reconcile.
  destruct (Server.settlement_matched data) as [[|] | ?]; cbn [bind];
    [| intros [= <-]; by left | discriminate].
  destruct (Get data "data") as [record | ?]; cbn [bind]; [| discriminate].
  destruct (Get record "amount") as [amount0 | ?]; cbn [bind]; [| discriminate].
  destruct (ToNumber amount0) as [paidAmount | ?]; cbn [bind]; [| discriminate].
  destruct (Get record "currency") as [paidCurrency | ?]; cbn [bind];
    [| discriminate].
  destruct (Server.amounts_agree h l paidAmount paidCurrency)
    as [[|] | ?] eqn:Eagree; cbn [bind]; [| intros [= <-]; by left | discriminate].
  intros [= <-]. right. eauto.
Qed.

Lemma server_agree_needs_amount h l paidAmount paidCurrency :
  Server.amounts_agree h l paidAmount paidCurrency = Ok true ->
  ToNumber (get_prop h l "amount") <> Ok NaN.
Proof.
  unfold Server.amounts_agree.
  destruct (strict_eq paidCurrency (get_prop h l "currency")); [| discriminate].
  intros Hagree Hnan. rewrite Hnan in Hagree. cbn [bind] in Hagree.
  rewrite not_within_tolerance_of_NaN in Hagree. discriminate.
Qed.

Lemma server_check_resume_spec (k : Server.CheckCont) axios_post st :
  Server.check_payment_resume k axios_post st = (Server.check_error, st)
  \/ Server.check_payment_resume k axios_post st
     = (Server.order_status (heap st) (Server.k_order k), st)
  \/ (let h' := set_prop (heap st) (Server.k_order k) "status" (JStr "PAID") in
      Server.check_payment_resume k axios_post st
      = (Server.order_status h' (Server.k_order k),
         {| ORDERS := ORDERS st; heap := h' |})
      /\ exists paidAmount paidCurrency,
           Server.amounts_agree (heap st) (Server.k_order k)
             paidAmount paidCurrency = Ok true).
Proof.
  unfold Server.check_payment_resume.
  destruct axios_post as [data | ?]; cbn [bind try_catch]; [| by left].
  destruct (Server.reconcile (heap st) (Server.k_order k) data) as [h' | ?] eqn:E;
    cbn [bind try_catch]; [| by left].
  apply server_reconcile_cases in E as [-> | [-> Hagree]].
  - right; left. by rewrite state_eta.
  - right; right. by cbn.
Qed.

Lemma server_check_resume_cases (k : Server.CheckCont) axios_post st :
  let st' := (Server.check_payment_resume k axios_post st).2 in
  st' = st
  \/ (ORDERS st' = ORDERS st
      /\ heap st' = set_prop (heap st) (Server.k_order k) "status" (JStr "PAID")
      /\ exists paidAmount paidCurrency,
           Server.amounts_agree (heap st) (Server.k_order k)
             paidAmount paidCurrency = Ok true).
Proof.
  destruct (server_check_resume_spec k axios_post st) as [-> | [-> | [-> Hagree]]];
    cbn; auto.
Qed.

Lemma server_begin_await st orderId (k : Server.CheckCont) :
  Server.check_payment_begin env st orderId = Await k ->
  lookup_order st orderId = Some (Server.k_order k)
  /\ strict_eq (get_prop (heap st) (Server.k_order k) "status") (JStr "PAID") = false
  /\ Server.k_md5 k = get_prop (heap st) (Server.k_order k) "md5".
Proof.
  unfold Server.check_payment_begin.
  destruct (lookup_order st orderId) as [l |]; [| discriminate].
  destruct (strict_eq (get_prop (heap st) l "status") (JStr "PAID")) eqn:Epaid;
    [discriminate |].
  destruct (str_falsy (Server.BAKONG_TOKEN env)
            || String.eqb (Server.BAKONG_TOKEN env) "YOUR_BAKONG_API_TOKEN_HERE");
    [discriminate |].
  intros [= <-]. by cbn.
Qed.

Lemma server_check_payment_unfold authority st orderId :
  Server.check_payment env authority st orderId
  = match Server.check_payment_begin env st orderId with
    | Done r => (r, false, st)
    | Await k =>
        ((Server.check_payment_resume k (authority (Server.k_md5 k)) st).1, true,
         (Server.check_payment_resume k (authority (Server.k_md5 k)) st).2)
    end.
Proof.
  unfold Server.check_payment.
  destruct (Server.check_payment_begin env st orderId) as [r | k]; [done |].
  by destruct (Server.check_payment_resume k (authority (Server.k_md5 k)) st).
Qed.

Lemma server_paid_fast_path st orderId l authority :
  ORDERS st !! orderId = Some l ->
  get_prop (heap st) l "status" = JStr "PAID" ->
  Server.check_payment env authority st orderId
  = (Server.already_paid (heap st) l, false, st).
Proof.
  intros Hreg Hpaid.
  unfold Server.check_payment, Server.check_payment_begin, lookup_order.
  by rewrite Hreg, Hpaid.
Qed.

Lemma server_check_keeps_keys authority st orderId :
  ORDERS (Server.check_payment env authority st orderId).2 = ORDERS st.
Proof.
  rewrite server_check_payment_unfold.
  destruct (Server.check_payment_begin env st orderId) as [r | k]; [done |].
  cbn [snd].
  by destruct (server_check_resume_cases k (authority (Server.k_md5 k)) st)
    as [-> | (-> & _ & _)].
Qed.

(** A status check keeps the store's keys and every status that reads
    PAID. *)
Lemma server_check_keeps_paid authority st orderId l :
  get_prop (heap st) l "status" = JStr "PAID" ->
  ORDERS (Server.check_payment env authority st orderId).2 = ORDERS st
  /\ get_prop (heap (Server.check_payment env authority st orderId).2) l "status"
     = JStr "PAID".
Proof.
  intros Hpaid. rewrite server_check_payment_unfold.
  destruct (Server.check_payment_begin env st orderId) as [r | k]; [done |].
  cbn [snd].
  destruct (server_check_resume_cases k (authority (Server.k_md5 k)) st)
    as [-> | (-> & -> & _)]; [done |].
  split; [done |]. by apply get_prop_set_stable.
Qed.

Lemma server_check_all_keeps_paid calls st l :
  get_prop (heap st) l "status" = JStr "PAID" ->
  ORDERS (Server.check_all env calls st) = ORDERS st
  /\ get_prop (heap (Server.check_all env calls st)) l "status" = JStr "PAID".
Proof.
  revert st. induction calls as [| [authority orderId] calls IH]; intros st Hpaid.
  - done.
  - cbn [Server.check_all].
    destruct (server_check_keeps_paid authority st orderId l Hpaid) as [Hkeys Hpaid'].
    destruct (IH _ Hpaid') as [Hkeys' Hpaid''].
    split; [congruence | done].
Qed.

(** Asking twice, with the settlement authority answering the same way,
    gives the same response. *)
Lemma server_check_idempotent authority st orderId :
  (Server.check_payment env authority
     (Server.check_payment env authority st orderId).2 orderId).1.1
  = (Server.check_payment env authority st orderId).1.1.
Proof.
  rewrite (server_check_payment_unfold authority st orderId).
  destruct (Server.check_payment_begin env st orderId) as [r | k] eqn:Ebegin.
  - cbn [fst snd]. by rewrite server_check_payment_unfold, Ebegin.
  - cbn [fst snd].
    destruct (server_check_resume_spec k (authority (Server.k_md5 k)) st)
      as [E | [E | [E _]]]; rewrite E; cbn [fst snd].
    + by rewrite server_check_payment_unfold, Ebegin, E.
    + by rewrite server_check_payment_unfold, Ebegin, E.
    + destruct (heap st !! Server.k_order k) as [o |] eqn:Hobj.
      * apply server_begin_await in Ebegin as (Hl & _ & _).
        rewrite server_check_payment_unfold.
        unfold Server.check_payment_begin, lookup_order in *. cbn [ORDERS heap].
        rewrite Hl, (get_prop_set_same _ _ o) by done.
        cbn [strict_eq]. rewrite String.eqb_refl. cbn [fst].
        unfold Server.already_paid, Server.order_status.
        by rewrite (get_prop_set_same _ _ o).
      * rewrite set_prop_dangling in * by done. rewrite state_eta in *.
        by rewrite server_check_payment_unfold, Ebegin, E.
Qed.

Lemma server_observed_paid_is_stored authority st orderId l :
  ORDERS st !! orderId = Some l ->
  Server.response_status (Server.check_payment env authority st orderId).1.1
    = Some (JStr "PAID") ->
  get_prop (heap (Server.check_payment env authority st orderId).2) l "status"
    = JStr "PAID".
Proof.
  intros Hreg. rewrite server_check_payment_unfold.
  destruct (Server.check_payment_begin env st orderId) as [r | k] eqn:Ebegin.
  - cbn [fst snd]. revert Ebegin.
    unfold Server.check_payment_begin, lookup_order. rewrite Hreg.
    destruct (strict_eq (get_prop (heap st) l "status") (JStr "PAID")) eqn:Epaid.
    + intros _ _. by apply strict_eq_JStr.
    + destruct (_ || _); [| discriminate]. by intros [= <-].
  - apply server_begin_await in Ebegin as (Hl & _ & _).
    unfold lookup_order in Hl. rewrite Hreg in Hl. injection Hl as ->.
    destruct (server_check_resume_spec k (authority (Server.k_md5 k)) st)
      as [E | [E | [E _]]]; rewrite E; cbn [fst snd heap]; try done.
    + unfold Server.response_status. cbn. by intros [= ->].
    + unfold Server.response_status. cbn. by intros [= ->].
Qed.


(** No turn of the event loop takes PAID away from an order. *)
Lemma server_step_keeps_paid p q l :
  Server.step env p q ->
  get_prop (heap (Server.ledger p)) l "status" = JStr "PAID" ->
  get_prop (heap (Server.ledger q)) l "status" = JStr "PAID".
Proof.
  intros Hstep Hpaid.
  destruct Hstep as [p ? ? ? _ | p ? ? k _ | p k ? ? toDataURL toISOString _
                     | p ? ? _ | p ? k _ | p k ? ? axios_post _];
    cbn [Server.ledger]; try done.
  - destruct toDataURL as [qrImage | ?]; cbn [Server.create_khqr_resume snd];
      [| done].
    cbn [store_order heap]. by apply get_prop_app_stable.
  - destruct (server_check_resume_cases k axios_post (Server.ledger p))
      as [-> | (_ & -> & _)]; [done |].
    by apply get_prop_set_stable.
Qed.

Lemma server_steps_keep_paid p q l :
  Server.steps env p q ->
  get_prop (heap (Server.ledger p)) l "status" = JStr "PAID" ->
  get_prop (heap (Server.ledger q)) l "status" = JStr "PAID".
Proof.
  induction 1 as [p | p q r Hsteps IH Hstep]; intros Hpaid; [done |].
  eapply server_step_keeps_paid; eauto.
Qed.

(** X5: a status check answers 404 exactly when [ORDERS[orderId]] is undefined,
    that is when the id is neither registered nor the name of a property
    inherited from [Object.prototype]. *)
Lemma server_not_found_iff st orderId :
  Server.check_payment_begin env st orderId = Done Server.not_found
  <-> ORDERS st !! orderId = None /\ orderId ∉ Object_prototype_keys.
Proof.
  rewrite <- index_of_None. fold (inherited orderId).
  unfold Server.check_payment_begin, lookup_order.
  destruct (ORDERS st !! orderId) as [l |].
  - split; [| by intros [? _]].
    destruct (strict_eq _ _); [discriminate |].
    destruct (_ || _); discriminate.
  - destruct (inherited orderId) as [l |]; [| done].
    split; [| by intros [_ ?]].
    destruct (strict_eq _ _); [discriminate |].
    destruct (_ || _); discriminate.
Qed.

(** C2 as amended: for a registered order whose stored status is PAID the
    status check of server.js answers PAID with the order's amount and
    currency and does not contact the settlement authority; two checks in a
    row against the same authority give the same response; and once a check
    has answered PAID, every later check of that id answers PAID without
    contacting the authority as long as the id still leads to the same
    order: after any number of status checks, and after any turns of the
    event loop that leave the order registered under its id.  (A later
    creation that draws the same id replaces the entry with a new PENDING
    order.) *)
Theorem server_paid_is_answered_locally st orderId l :
  ORDERS st !! orderId = Some l ->
  (get_prop (heap st) l "status" = JStr "PAID" ->
   forall authority,
     Server.check_payment env authority st orderId
     = (Server.already_paid (heap st) l, false, st))
  /\ (forall authority,
        (Server.check_payment env authority
           (Server.check_payment env authority st orderId).2 orderId).1.1
        = (Server.check_payment env authority st orderId).1.1)
  /\ (forall authority,
        Server.response_status (Server.check_payment env authority st orderId).1.1
          = Some (JStr "PAID") ->
        (forall calls authority',
           let st' :=
             Server.check_all env calls
               (Server.check_payment env authority st orderId).2 in
           Server.check_payment env authority' st' orderId
           = (Server.already_paid (heap st') l, false, st'))
        /\ (forall p q authority',
              Server.ledger p = (Server.check_payment env authority st orderId).2 ->
              Server.steps env p q ->
              ORDERS (Server.ledger q) !! orderId = Some l ->
              Server.check_payment env authority' (Server.ledger q) orderId
              = (Server.already_paid (heap (Server.ledger q)) l, false,
                 Server.ledger q))).
Proof.
  intros Hreg. split; [| split].
  - intros Hpaid authority. by apply server_paid_fast_path.
  - intros authority. apply server_check_idempotent.
  - intros authority Hseen.
    pose proof (server_observed_paid_is_stored authority st orderId l Hreg Hseen)
      as Hpaid.
    pose proof (server_check_keeps_keys authority st orderId) as Hreg'.
    split.
    + intros calls authority' st'.
      destruct (server_check_all_keeps_paid calls _ l Hpaid) as [Hkeys Hpaid'].
      apply server_paid_fast_path; [| done].
      subst st'. by rewrite Hkeys, Hreg'.
    + intros p q authority' Hp Hsteps Hstill.
      apply server_paid_fast_path; [done |].
      eapply server_steps_keep_paid; [exact Hsteps |]. by rewrite Hp.
Qed.

End ServerCheck.

(** ** The status checks of the two other variants *)

Section OtherChecks.
Context `{JsBuiltins} (env : ProcessEnv).
Implicit Types (st : State) (h : list Obj) (l : loc) (data : JsValue).

Lemma part002_reconcile_cases h l data h' :
  Part002.reconcile h l data = Ok h' ->
  h' = h \/ h' = set_prop h l "status" (JStr "PAID").
Proof.
  unfold Part002.reconcile.
  destruct (Part002.settlement_matched data) as [[|] | ?]; cbn [bind];
    [| | discriminate]; intros [= <-]; auto.
Qed.

Lemma part002_check_resume_cases (k : Part002.CheckCont) axios_post st :
  let st' := (Part002.check_payment_resume k axios_post st).2 in
  st' = st
  \/ (ORDERS st' = ORDERS st
      /\ heap st' = set_prop (heap st) (Part002.k_order k) "status" (JStr "PAID")).
Proof.
  unfold Part002.check_payment_resume.
  destruct axios_post as [data | ?]; cbn [bind try_catch snd]; [| by left].
  destruct (Part002.reconcile (heap st) (Part002.k_order k) data) as [h' | ?] eqn:E;
    cbn [bind try_catch snd]; [| by left].
  apply part002_reconcile_cases in E as [-> | ->].
  - left. apply state_eta.
  - right. by cbn.
Qed.

Lemma part002_check_payment_state authority st orderId :
  (Part002.check_payment env authority st orderId).2 = st
  \/ exists k axios_post,
       (Part002.check_payment env authority st orderId).2
       = (Part002.check_payment_resume k axios_post st).2.
Proof.
  unfold Part002.check_payment.
  destruct (Part002.check_payment_begin env st orderId) as [r | k]; [by left |].
  right. exists k, (authority (Part002.k_md5 k)).
  by destruct (Part002.check_payment_resume k (authority (Part002.k_md5 k)) st).
Qed.

Lemma part003_reconcile_cases h l data h' :
  Part003.reconcile h l data = Ok h' ->
  h' = h
  \/ (h' = set_prop h l "status" (JStr "PAID")
      /\ exists paidAmount paidCurrency,
           Part003.amounts_agree h l paidAmount paidCurrency = Ok true).
Proof.
  unfold Part003.reconcile.
  destruct (Part003.settlement_matched data) as [[|] | ?]; cbn [bind];
    [| intros [= <-]; by left | discriminate].
  destruct (Get data "data") as [record | ?]; cbn [bind]; [| discriminate].
  destruct (Get record "amount") as [amount0 | ?]; cbn [bind]; [| discriminate].
  destruct (ToNumber amount0) as [paidAmount | ?]; cbn [bind]; [| discriminate].
  destruct (Get record "currency") as [paidCurrency | ?]; cbn [bind];
    [| discriminate].
  destruct (Part003.amounts_agree h l paidAmount paidCurrency)
    as [[|] | ?] eqn:Eagree; cbn [bind]; [| intros [= <-]; by left | discriminate].
  intros [= <-]. right. eauto.
Qed.

Lemma part003_check_resume_cases (k : Part003.CheckCont) axios_post st :
  let st' := (Part003.check_payment_resume k axios_post st).2 in
  st' = st
  \/ (ORDERS st' = ORDERS st
      /\ heap st' = set_prop (heap st) (Part003.k_order k) "status" (JStr "PAID")).
Proof.
  unfold Part003.check_payment_resume.
  destruct axios_post as [data | ?]; cbn [bind try_catch snd]; [| by left].
  destruct (Part003.reconcile (heap st) (Part003.k_order k) data) as [h' | ?] eqn:E;
    cbn [bind try_catch snd]; [| by left].
  apply part003_reconcile_cases in E as [-> | [-> _]].
  - left. apply state_eta.
  - right. by cbn.
Qed.

Lemma part003_check_payment_state authority st orderId :
  (Part003.check_payment env authority st orderId).2 = st
  \/ exists k axios_post,
       (Part003.check_payment env authority st orderId).2
       = (Part003.check_payment_resume k axios_post st).2.
Proof.
  unfold Part003.check_payment.
  destruct (Part003.check_payment_begin env st orderId) as [r | k]; [by left |].
  right. exists k, (authority (Part003.k_md5 k)).
  by destruct (Part003.check_payment_resume k (authority (Part003.k_md5 k)) st).
Qed.

Lemma server_check_payment_state authority st orderId :
  (Server.check_payment env authority st orderId).2 = st
  \/ exists k axios_post,
       (Server.check_payment env authority st orderId).2
       = (Server.check_payment_resume k axios_post st).2.
Proof.
  rewrite server_check_payment_unfold.
  destruct (Server.check_payment_begin env st orderId) as [r | k]; [by left |].
  right. by exists k, (authority (Server.k_md5 k)).
Qed.

(** All a status check ever does to the ledger is to write the [status]
    property of one object. *)
Lemma status_check_effect st st' :
  status_check env st st' ->
  st' = st
  \/ exists l, ORDERS st' = ORDERS st
               /\ heap st' = set_prop (heap st) l "status" (JStr "PAID").
Proof.
  intros [k r | authority orderId | k r | authority orderId
          | k r | authority orderId].
  - destruct (server_check_resume_cases k r st) as [-> | (? & ? & _)]; eauto.
  - destruct (server_check_payment_state authority st orderId)
      as [-> | (k & r & ->)]; [by left |].
    destruct (server_check_resume_cases k r st) as [-> | (? & ? & _)]; eauto.
  - destruct (part002_check_resume_cases k r st) as [-> | (? & ?)]; eauto.
  - destruct (part002_check_payment_state authority st orderId)
      as [-> | (k & r & ->)]; [by left |].
    destruct (part002_check_resume_cases k r st) as [-> | (? & ?)]; eauto.
  - destruct (part003_check_resume_cases k r st) as [-> | (? & ?)]; eauto.
  - destruct (part003_check_payment_state authority st orderId)
      as [-> | (k & r & ->)]; [by left |].
    destruct (part003_check_resume_cases k r st) as [-> | (? & ?)]; eauto.
Qed.

(** C10: a status check, whatever the settlement authority returns, leaves a
    registered order registered under the same id and changes no property
    of it other than [status]: [orderId], [amount], [currency], [md5], the
    encoded payload ([qrString], or [khqrString] in part_003) and
    [createdAt] are as before. *)
Theorem status_check_changes_status_only st st' orderId l (o : Obj) :
  status_check env st st' ->
  ORDERS st !! orderId = Some l ->
  heap st !! l = Some o ->
  ORDERS st' !! orderId = Some l
  /\ exists o' : Obj,
       heap st' !! l = Some o'
       /\ o' !! "orderId" = o !! "orderId"
       /\ o' !! "amount" = o !! "amount"
       /\ o' !! "currency" = o !! "currency"
       /\ o' !! "md5" = o !! "md5"
       /\ o' !! "qrString" = o !! "qrString"
       /\ o' !! "khqrString" = o !! "khqrString"
       /\ o' !! "createdAt" = o !! "createdAt"
       /\ forall k, k <> "status" -> o' !! k = o !! k.
Proof.
  intros Hcheck Hreg Hobj.
  destruct (status_check_effect st st' Hcheck) as [-> | (l' & Hkeys & Hheap)].
  - split; [done |]. exists o. by repeat split.
  - rewrite Hkeys, Hheap. split; [done |].
    destruct (set_prop_frame (heap st) l' "status" (JStr "PAID") l o Hobj)
      as (o' & Ho' & Hframe).
    exists o'. split; [done |].
    repeat split; try (apply Hframe; discriminate); done.
Qed.

End OtherChecks.

(** ** Reconciliation *)

Section Reconciliation.
Context `{JsBuiltins} (env : ProcessEnv).
Implicit Types (st : State) (h : list Obj) (l : loc) (data : JsValue).

(** X6: in server.js a pending order whose check resumes with a matched
    settlement record becomes PAID exactly when the returned currency is the
    stored one and the returned amount is within 0.0001 of the stored one. *)
Lemma server_paid_iff_amounts_agree
    st (k : Server.CheckCont) (o : Obj)
    (data record amount0 paidCurrency : JsValue)
    (paidAmount stored : number) (cur : string) :
  heap st !! Server.k_order k = Some o ->
  o !! "status" = Some (JStr "PENDING") ->
  o !! "currency" = Some (JStr cur) ->
  o !! "amount" = Some (JNum stored) ->
  Server.settlement_matched data = Ok true ->
  Get data "data" = Ok record ->
  Get record "amount" = Ok amount0 ->
  ToNumber amount0 = Ok paidAmount ->
  Get record "currency" = Ok paidCurrency ->
  let st' := (Server.check_payment_resume k (Ok data) st).2 in
  get_prop (heap st') (Server.k_order k) "status" = JStr "PAID"
  <-> paidCurrency = JStr cur
      /\ num_lt (Math_abs (num_sub paidAmount stored)) (decimal 1 4) = true.
Proof.
  intros Hl Hst Hcur Hamt Hm Hrec Ha Hn Hc.
  unfold Server.check_payment_resume, Server.reconcile.
  cbn [bind]. rewrite Hm. cbn [bind]. rewrite Hrec. cbn [bind].
  rewrite Ha. cbn [bind]. rewrite Hn. cbn [bind]. rewrite Hc. cbn [bind].
  unfold Server.amounts_agree.
  rewrite (get_prop_own _ _ o "currency" _ Hl Hcur).
  rewrite (get_prop_own _ _ o "amount" _ Hl Hamt).
  destruct (strict_eq paidCurrency (JStr cur)) eqn:Ecur.
  - cbn [ToNumber bind].
    destruct (num_lt (Math_abs (num_sub paidAmount stored)) (decimal 1 4)) eqn:Elt;
      cbn [bind try_catch snd heap].
    + rewrite (get_prop_set_same _ _ o _ _ Hl).
      apply strict_eq_JStr in Ecur. tauto.
    + rewrite (get_prop_own _ _ o "status" _ Hl Hst).
      split; [discriminate | intros [_ ?]; discriminate].
  - cbn [bind try_catch snd heap].
    rewrite (get_prop_own _ _ o "status" _ Hl Hst).
    split; [discriminate |].
    intros [E _]. apply strict_eq_JStr in E. congruence.
Qed.

(** X24: in part_002 a matched settlement record marks the order PAID
    whatever amount and currency it reports. *)
Lemma part002_matched_is_paid st (k : Part002.CheckCont) (o : Obj) data :
  heap st !! Part002.k_order k = Some o ->
  Part002.settlement_matched data = Ok true ->
  get_prop (heap (Part002.check_payment_resume k (Ok data) st).2)
    (Part002.k_order k) "status" = JStr "PAID".
Proof.
  intros Hl Hm.
  unfold Part002.check_payment_resume, Part002.reconcile.
  cbn [bind]. rewrite Hm. cbn [bind try_catch snd heap].
  by eapply get_prop_set_same.
Qed.

End Reconciliation.

(** server.js, a pending 5.00 USD order: 5.0001 USD settles it, 5.01 USD and
    5.00 KHR do not. *)
Example server_tolerance :
  let st := Examples.ledger_with "PENDING" in
  let k := {| Server.k_order := 12; Server.k_md5 := JStr "9e107d9d" |} in
  let after paid :=
    get_prop (heap (@Server.check_payment_resume Examples.runtime k (Ok paid) st).2)
      12 "status" in
  @Server.check_payment_begin Examples.env_live st Examples.the_id = Await k
  /\ after (Examples.settled (decimal 50001 4) "USD") = JStr "PAID"
  /\ after (Examples.settled (decimal 501 2) "USD") = JStr "PENDING"
  /\ after (Examples.settled (of_Z 5) "KHR") = JStr "PENDING".
Proof. vm_compute. repeat split. Qed.

(** C1 (part_002): the status check of part_002 marks a pending 5.00 USD
    order PAID when the settlement authority reports 5.01 USD, and also when
    it reports 9 KHR; on the same inputs the check of server.js leaves the
    order PENDING. *)
Theorem part002_paid_without_comparison :
  let st := Examples.ledger_with "PENDING" in
  let k2 := {| Part002.k_order := 12; Part002.k_md5 := JStr "9e107d9d" |} in
  let k := {| Server.k_order := 12; Server.k_md5 := JStr "9e107d9d" |} in
  let part002 paid :=
    get_prop (heap (Part002.check_payment_resume k2 (Ok paid) st).2) 12 "status" in
  let server paid :=
    get_prop (heap (@Server.check_payment_resume Examples.runtime k (Ok paid) st).2)
      12 "status" in
  Part002.check_payment_begin Examples.env_live st Examples.the_id = Await k2
  /\ get_prop (heap st) 12 "amount" = JNum (of_Z 5)
  /\ get_prop (heap st) 12 "currency" = JStr "USD"
  /\ get_prop (heap st) 12 "status" = JStr "PENDING"
  /\ part002 (Examples.settled (decimal 501 2) "USD") = JStr "PAID"
  /\ part002 (Examples.settled (of_Z 9) "KHR") = JStr "PAID"
  /\ server (Examples.settled (decimal 501 2) "USD") = JStr "PENDING"
  /\ server (Examples.settled (of_Z 9) "KHR") = JStr "PENDING".
Proof. vm_compute. repeat split. Qed.

(** C7 (server.js): with an empty store, the status check of the id
    [constructor], which was never registered, is not answered 404: the
    lookup finds the property inherited from [Object.prototype].  Without a
    token the answer is 200 PENDING; with a token the settlement authority
    is contacted and the answer is 200 with an undefined status. *)
Theorem server_inherited_name_is_found :
  ORDERS init !! "constructor" = None
  /\ @Server.check_payment_begin Examples.env_demo init "constructor"
     = Done Server.token_not_set
  /\ code Server.token_not_set = 200
  /\ @Server.check_payment Examples.runtime Examples.env_live
       (fun _ => Ok Examples.unsettled) init "constructor"
     = (mkResponse 200
          [("ok", JBool true); ("status", JUndefined);
           ("amount", JUndefined); ("currency", JUndefined)],
        true, init).
Proof. vm_compute. repeat split. Qed.

(** ** Order creation in server.js *)

Section ServerCreate.
Context `{JsBuiltins} (env : ProcessEnv).
Implicit Types (st : State) (w : Server.World) (body : JsValue).

Lemma server_amount_rejected (amount : number) :
  num_le amount (of_Z 0) = true \/ is_nan amount = true ->
  negb (truthy (JNum amount)) || num_le amount (of_Z 0) = true.
Proof.
  intros [E | E].
  - rewrite E. apply orb_true_r.
  - simpl. by rewrite E.
Qed.

(** C4: when the amount of a creation request, coerced by
    [Number(amount || 0)], is at most zero or is NaN, server.js answers
    400 "Invalid amount (must be > 0)" and the ledger is unchanged. *)
Theorem server_invalid_amount_is_rejected
    w body (amount0 : JsValue) (amount : number)
    (toDataURL : Completion string) (toISOString : string) st :
  Get body "amount" = Ok amount0 ->
  ToNumber (js_or amount0 (JNum (of_Z 0))) = Ok amount ->
  num_le amount (of_Z 0) = true \/ is_nan amount = true ->
  Server.create_khqr env w body toDataURL toISOString st
    = (Server.invalid_amount, st)
  /\ error_response Server.invalid_amount 400
  /\ is_4xx Server.invalid_amount = true.
Proof.
  intros Hget Hnum Hbad.
  destruct (Get_defined body "amount" "currency" amount0 Hget) as [currency Hcur].
  split; [| split; [| done]].
  - unfold Server.create_khqr, Server.create_khqr_begin.
    rewrite Hget, Hcur. cbn [bind].
    rewrite Hnum. cbn [bind].
    by rewrite (server_amount_rejected amount Hbad).
  - repeat split. by eexists.
Qed.

(** server.js neither validates the currency nor rounds the amount: a
    suspended creation carries the coerced amount and the upper-cased
    currency as they came. *)
Lemma server_create_passes_input_through
    w body (amount0 currency : JsValue) (k : Server.CreateCont) :
  Get body "amount" = Ok amount0 ->
  Get body "currency" = Ok currency ->
  Server.create_khqr_begin env w body = Await k ->
  ToNumber (js_or amount0 (JNum (of_Z 0))) = Ok (Server.c_amount k)
  /\ call_toUpperCase (js_or currency (JStr (Server.DEFAULT_CURRENCY env)))
     = Ok (Server.c_currencyCode k).
Proof.
  intros Hget Hcur. unfold Server.create_khqr_begin.
  rewrite Hget, Hcur. cbn [bind].
  destruct (ToNumber (js_or amount0 (JNum (of_Z 0)))) as [amount | ?];
    cbn [bind try_catch]; [| discriminate].
  destruct (negb (truthy (JNum amount)) || num_le amount (of_Z 0));
    cbn [try_catch]; [discriminate |].
  destruct (str_falsy (Server.BAKONG_ACCOUNT_ID env)
            || negb (includes_char (Server.BAKONG_ACCOUNT_ID env) "@"));
    cbn [try_catch]; [discriminate |].
  destruct (call_toUpperCase (js_or currency (JStr (Server.DEFAULT_CURRENCY env))))
    as [currencyCode | ?]; cbn [bind try_catch]; [| discriminate].
  destruct (Server.generateIndividual w _) as [result | ?];
    cbn [bind try_catch]; [| discriminate].
  destruct (Server.generate_rejected result) as [[|] | ?];
    cbn [bind try_catch]; [discriminate | | discriminate].
  destruct (Get result "data") as [data | ?]; cbn [bind try_catch];
    [| discriminate].
  destruct (Get data "qr") as [qr | ?]; cbn [bind try_catch]; [| discriminate].
  destruct (Get data "md5") as [md5 | ?]; cbn [bind try_catch]; [| discriminate].
  by intros [= <-].
Qed.

(** C8 as amended: registration in server.js never refuses an id.  Once
    the QR image is rendered the creation answers 200, the store maps the
    order's id to a newly allocated PENDING order whether or not the id was
    present, the entries under other ids are unchanged, and so is every
    object that existed before. *)
Theorem server_registration_always_stores
    (k : Server.CreateCont) (qrImage toISOString : string) st :
  let result := Server.create_khqr_resume k (Ok qrImage) toISOString st in
  result.1 = Server.created k qrImage
  /\ code result.1 = 200
  /\ own_property (json result.1) "ok" = Some (JBool true)
  /\ ORDERS result.2 !! Server.c_orderId k = Some (length (heap st))
  /\ heap result.2 !! length (heap st) = Some (Server.new_order k toISOString)
  /\ Server.new_order k toISOString !! "status" = Some (JStr "PENDING")
  /\ (forall orderId,
        orderId <> Server.c_orderId k ->
        ORDERS result.2 !! orderId = ORDERS st !! orderId)
  /\ (forall l (o : Obj), heap st !! l = Some o -> heap result.2 !! l = Some o).
Proof.
  cbn. repeat split.
  - apply lookup_insert_eq.
  - by rewrite lookup_app_r, Nat.sub_diag.
  - intros orderId Hne. by apply lookup_insert_ne.
  - intros l o Hl. by apply lookup_app_l_Some.
Qed.

End ServerCreate.

Section ServerEncoder.
Context `{JsBuiltins} (env : ProcessEnv).

(** The amount server.js hands to the KHQR encoder is the coerced amount,
    unrounded, and it is the amount of the order that gets stored. *)
Lemma server_encodes_coerced_amount
    (w : Server.World) (body : JsValue) (k : Server.CreateCont) :
  Server.create_khqr_begin env w body = Await k ->
  exists info result,
    Server.generateIndividual w info = Ok result
    /\ Server.od_amount (Server.arg_5 info) = Server.c_amount k
    /\ Server.od_billNumber (Server.arg_5 info) = Server.c_orderId k.
Proof.
  unfold Server.create_khqr_begin.
  destruct (Get body "amount") as [amount0 | ?]; cbn [bind try_catch];
    [| discriminate].
  destruct (Get body "currency") as [currency | ?]; cbn [bind try_catch];
    [| discriminate].
  destruct (ToNumber (js_or amount0 (JNum (of_Z 0)))) as [amount | ?];
    cbn [bind try_catch]; [| discriminate].
  destruct (negb (truthy (JNum amount)) || num_le amount (of_Z 0));
    cbn [try_catch]; [discriminate |].
  destruct (str_falsy (Server.BAKONG_ACCOUNT_ID env)
            || negb (includes_char (Server.BAKONG_ACCOUNT_ID env) "@"));
    cbn [try_catch]; [discriminate |].
  destruct (call_toUpperCase (js_or currency (JStr (Server.DEFAULT_CURRENCY env))))
    as [currencyCode | ?]; cbn [bind try_catch]; [| discriminate].
  destruct (Server.generateIndividual w _) as [result | ?] eqn:Egen;
    cbn [bind try_catch]; [| discriminate].
  destruct (Server.generate_rejected result) as [[|] | ?];
    cbn [bind try_catch]; [discriminate | | discriminate].
  destruct (Get result "data") as [data | ?]; cbn [bind try_catch];
    [| discriminate].
  destruct (Get data "qr") as [qr | ?]; cbn [bind try_catch]; [| discriminate].
  destruct (Get data "md5") as [md5 | ?]; cbn [bind try_catch]; [| discriminate].
  intros [= <-]. eexists _, result. split; [exact Egen |]. by cbn.
Qed.

End ServerEncoder.

(** ** Order creation in part_003 *)

Section Part003Create.
Context `{JsBuiltins} (env : ProcessEnv).
Implicit Types (st : State) (w : Part003.World) (body : JsValue).

(** What a creation of part_003 has established when it reaches the
    rendering of the QR image. *)
Lemma part003_create_await
    w body (amount currency : JsValue) (k : Part003.CreateCont) :
  Get body "amount" = Ok amount ->
  Get body "currency" = Ok currency ->
  Part003.create_khqr_begin env w body = Await k ->
  Part003.amount_rejected amount = Ok false
  /\ call_toUpperCase (js_or currency (JStr (Part003.DEFAULT_CURRENCY env)))
     = Ok (Part003.c_cur k)
  /\ Part003.supported (Part003.c_cur k) = true
  /\ Part003.khqrAmount_of (Part003.c_cur k) amount = Ok (Part003.c_khqrAmount k)
  /\ exists options result,
       Part003.KHQR_generate w options = Ok result
       /\ Part003.amount options = Part003.c_khqrAmount k.
Proof.
  intros Hget Hcur. unfold Part003.create_khqr_begin.
  rewrite Hget, Hcur. cbn [bind].
  destruct (Part003.amount_rejected amount) as [[|] | ?];
    cbn [bind try_catch]; [discriminate | | discriminate].
  destruct (call_toUpperCase (js_or currency (JStr (Part003.DEFAULT_CURRENCY env))))
    as [cur | ?]; cbn [bind try_catch]; [| discriminate].
  destruct (Part003.supported cur) eqn:Esup; cbn [negb try_catch];
    [| discriminate].
  destruct (Part003.opt_falsy (Part003.BAKONG_ACCOUNT_ID env)
            || negb (includes_char (default "" (Part003.BAKONG_ACCOUNT_ID env)) "@"));
    cbn [try_catch]; [discriminate |].
  destruct (Part003.khqrAmount_of cur amount) as [khqrAmount | ?] eqn:Eamount;
    cbn [bind try_catch]; [| discriminate].
  destruct (Part003.KHQR_generate w _) as [khqrResult | ?] eqn:Egen;
    cbn [bind try_catch]; [| discriminate].
  destruct (negb (truthy (Part003.khqrString_of khqrResult)));
    cbn [try_catch]; [discriminate |].
  destruct (Part003.khqrString_of khqrResult); cbn [try_catch]; try discriminate.
  intros [= <-]. cbn. do 4 (split; [done |]).
  eexists _, khqrResult. split; [exact Egen | done].
Qed.

(** part_003 refuses a currency outside USD and KHR with 400 and stores
    nothing. *)
Lemma part003_unsupported_currency_is_rejected
    w body (amount currency : JsValue) (cur : string)
    (toDataURL : Completion string) st :
  Get body "amount" = Ok amount ->
  Get body "currency" = Ok currency ->
  Part003.amount_rejected amount = Ok false ->
  call_toUpperCase (js_or currency (JStr (Part003.DEFAULT_CURRENCY env))) = Ok cur ->
  Part003.supported cur = false ->
  Part003.create_khqr env w body toDataURL st = (Part003.invalid_currency, st).
Proof.
  intros Hget Hcur Hamt Hup Hsup.
  unfold Part003.create_khqr, Part003.create_khqr_begin.
  rewrite Hget, Hcur. cbn [bind]. rewrite Hamt. cbn [bind].
  rewrite Hup. cbn [bind]. by rewrite Hsup.
Qed.

(** An order of part_003 is in USD or KHR, and a KHR order stores and
    encodes [Math.round] of the amount. *)
Lemma part003_created_order_shape
    w body (amount currency : JsValue) (k : Part003.CreateCont) :
  Get body "amount" = Ok amount ->
  Get body "currency" = Ok currency ->
  Part003.create_khqr_begin env w body = Await k ->
  (Part003.c_cur k = "USD" \/ Part003.c_cur k = "KHR")
  /\ (Part003.c_cur k = "KHR" ->
      exists a, ToNumber amount = Ok a /\ Part003.c_khqrAmount k = Math_round a).
Proof.
  intros Hget Hcur Hbegin.
  destruct (part003_create_await w body amount currency k Hget Hcur Hbegin)
    as (_ & _ & Hsup & Hamount & _).
  split.
  - unfold Part003.supported in Hsup. apply orb_true_iff in Hsup as [E | E];
      apply String.eqb_eq in E; auto.
  - intros Hkhr. rewrite Hkhr in Hamount.
    unfold Part003.khqrAmount_of in Hamount. cbn [String.eqb Ascii.eqb Bool.eqb] in Hamount.
    destruct (ToNumber amount) as [a | ?]; cbn [bind] in Hamount; [| discriminate].
    exists a. split; [done | congruence].
Qed.

(** X12: a KHR order of part_003 created from a finite amount stores and
    encodes an integer, [Math.round] of the amount. *)
Lemma part003_khr_amount_is_integer
    w body (amount currency : JsValue) (a : number) (k : Part003.CreateCont) :
  Get body "amount" = Ok amount ->
  Get body "currency" = Ok currency ->
  Part003.create_khqr_begin env w body = Await k ->
  Part003.c_cur k = "KHR" ->
  ToNumber amount = Ok a ->
  valid_binary prec emax a = true ->
  is_finite a = true ->
  Part003.c_khqrAmount k = Math_round a
  /\ is_integer (Part003.c_khqrAmount k) = true.
Proof.
  intros Hget Hcur Hbegin Hkhr Hnum Hvalid Hfinite.
  destruct (part003_created_order_shape w body amount currency k Hget Hcur Hbegin)
    as [_ Hround].
  destruct (Hround Hkhr) as (a' & Hnum' & ->).
  assert (a' = a) as -> by congruence.
  split; [done |]. by apply Math_round_is_integer.
Qed.

End Part003Create.

(** ** The event loop of server.js *)

Section EventLoop.
Context `{JsBuiltins} (env : ProcessEnv).
Implicit Types (st : State) (p q r : Server.Process) (l : loc) (o : Obj).

Lemma status_advances_refl (s : option JsValue) : status_advances s s.
Proof. by left. Qed.

Lemma status_advances_trans (a b c : option JsValue) :
  status_advances a b -> status_advances b c -> status_advances a c.
Proof.
  intros [-> | [-> ->]] [-> | [E ->]]; try (by left); by right.
Qed.

Lemma init_well_formed : well_formed init.
Proof.
  split.
  - intros l Hl. by apply lookup_replicate_2.
  - intros l o Hl Hobj. apply lookup_replicate in Hobj as [_ Hlt]. lia.
Qed.

Lemma heap_evolves_refl st : heap_evolves st st.
Proof.
  split.
  - intros l o Hl. exists o. split; [done | apply status_advances_refl].
  - intros l o' Hnone Hsome. congruence.
Qed.

Lemma server_create_resume_evolves (k : Server.CreateCont) toDataURL toISOString st :
  well_formed st ->
  let st' := (Server.create_khqr_resume k toDataURL toISOString st).2 in
  well_formed st' /\ heap_evolves st st'.
Proof.
  intros [Hbuiltin Horders].
  destruct toDataURL as [qrImage | ?]; cbn [Server.create_khqr_resume snd];
    [| split; [done | apply heap_evolves_refl]].
  assert (Hnew : forall l o, (heap st ++ [Server.new_order k toISOString]) !! l = Some o ->
                   heap st !! l = Some o
                   \/ (heap st !! l = None /\ o = Server.new_order k toISOString)).
  { intros l o Hl. apply lookup_app_Some in Hl as [Hl | [Hge Hl]]; [by left |].
    right. split; [by apply lookup_ge_None |].
    apply list_lookup_singleton_Some in Hl as [_ ->]. done. }
  assert (Hlen : length Object_prototype_keys <= length (heap st)).
  { destruct (le_lt_dec (length Object_prototype_keys) (length (heap st)))
      as [Hle | Hlt]; [done |].
    specialize (Hbuiltin (length (heap st)) Hlt).
    apply lookup_lt_Some in Hbuiltin. lia. }
  split; [split |].
  - intros l Hl. cbn [heap store_order]. apply lookup_app_l_Some. by apply Hbuiltin.
  - intros l o Hl Hobj. cbn [heap store_order] in Hobj.
    apply Hnew in Hobj as [Hold | [_ ->]]; [by eapply Horders |].
    left. by vm_compute.
  - split.
    + intros l o Hl. exists o. split; [| apply status_advances_refl].
      cbn [heap store_order]. by apply lookup_app_l_Some.
    + intros l o' Hnone Hsome. cbn [heap store_order] in Hsome.
      apply Hnew in Hsome as [Hold | [_ ->]]; [congruence |]. by vm_compute.
Qed.

(** An object inherited from [Object.prototype] has no [amount], so the
    comparison of amounts fails on it and its status is never written. *)
Lemma server_builtin_never_agrees st l paidAmount paidCurrency :
  well_formed st ->
  l < length Object_prototype_keys ->
  Server.amounts_agree (heap st) l paidAmount paidCurrency <> Ok true.
Proof.
  intros [Hbuiltin _] Hl Hagree.
  apply server_agree_needs_amount in Hagree. apply Hagree.
  unfold get_prop. rewrite (Hbuiltin l Hl), lookup_empty.
  rewrite (Hbuiltin Object_prototype) by (unfold Object_prototype; cbn; lia).
  by rewrite lookup_empty.
Qed.

Lemma server_check_resume_evolves (k : Server.CheckCont) axios_post st :
  well_formed st ->
  let st' := (Server.check_payment_resume k axios_post st).2 in
  well_formed st' /\ heap_evolves st st'.
Proof.
  intros Hwf st'.
  destruct (server_check_resume_cases k axios_post st)
    as [E | (_ & Hheap & paidAmount & paidCurrency & Hagree)].
  { fold st' in E. rewrite E. split; [done | apply heap_evolves_refl]. }
  fold st' in Hheap.
  set (l0 := Server.k_order k) in *.
  destruct (heap st !! l0) as [o0 |] eqn:Hl0.
  2:{ rewrite set_prop_dangling in Hheap by done.
      split; [split | split]; rewrite ?Hheap; try apply Hwf.
      - intros l o Hl. exists o. split; [done | apply status_advances_refl].
      - intros l o' Hnone Hsome. congruence. }
  destruct (le_lt_dec (length Object_prototype_keys) l0) as [Horder | Hbuiltin].
  2:{ by destruct (server_builtin_never_agrees st l0 paidAmount paidCurrency). }
  destruct Hwf as [Hbuiltins Horders].
  pose proof (Horders l0 o0 Horder Hl0) as Hstatus0.
  split; [split | split]; rewrite Hheap.
  - intros l Hl. rewrite set_prop_lookup_ne by lia. by apply Hbuiltins.
  - intros l o Hl Hobj. destruct (decide (l0 = l)) as [<- | Hne].
    + rewrite set_prop_lookup, Hl0 in Hobj. injection Hobj as <-.
      right. apply lookup_insert_eq.
    + rewrite set_prop_lookup_ne in Hobj by done. by eapply Horders.
  - intros l o Hobj. destruct (decide (l0 = l)) as [<- | Hne].
    + rewrite set_prop_lookup, Hl0. eexists. split; [done |].
      assert (o = o0) as -> by congruence.
      rewrite lookup_insert_eq.
      destruct Hstatus0 as [-> | ->]; [by right | by left].
    + rewrite set_prop_lookup_ne by done. exists o.
      split; [done | apply status_advances_refl].
  - intros l o' Hnone Hsome. destruct (decide (l0 = l)) as [<- | Hne].
    + congruence.
    + rewrite set_prop_lookup_ne in Hsome by done. congruence.
Qed.

Lemma server_step_evolves p q :
  Server.step env p q ->
  well_formed (Server.ledger p) ->
  well_formed (Server.ledger q)
  /\ heap_evolves (Server.ledger p) (Server.ledger q).
Proof.
  intros Hstep Hwf.
  destruct Hstep; cbn [Server.ledger];
    try (split; [done | apply heap_evolves_refl]).
  - by apply server_create_resume_evolves.
  - by apply server_check_resume_evolves.
Qed.

Lemma server_steps_well_formed p q :
  Server.steps env p q ->
  well_formed (Server.ledger p) ->
  well_formed (Server.ledger q)
  /\ (forall l o, heap (Server.ledger p) !! l = Some o ->
        exists o', heap (Server.ledger q) !! l = Some o'
                   /\ status_advances (o !! "status") (o' !! "status")).
Proof.
  induction 1 as [p | p q r Hsteps IH Hstep]; intros Hwf.
  - split; [done |]. intros l o Hl. exists o.
    split; [done | apply status_advances_refl].
  - destruct (IH Hwf) as [Hwfq Hpq].
    destruct (server_step_evolves q r Hstep Hwfq) as [Hwfr [Hqr _]].
    split; [done |]. intros l o Hl.
    destruct (Hpq l o Hl) as (o2 & Hl2 & Hadv2).
    destruct (Hqr l o2 Hl2) as (o3 & Hl3 & Hadv3).
    exists o3. split; [done |]. by eapply status_advances_trans.
Qed.

(** A turn of the event loop never shrinks the heap and never removes an
    entry of the store; an entry either keeps its order or, when a creation
    draws an id that is already present, is given the order just created. *)
Lemma server_step_entries p q :
  Server.step env p q ->
  length (heap (Server.ledger p)) <= length (heap (Server.ledger q))
  /\ forall orderId l,
       ORDERS (Server.ledger p) !! orderId = Some l ->
       exists l',
         ORDERS (Server.ledger q) !! orderId = Some l'
         /\ (l' = l \/ length (heap (Server.ledger p)) <= l').
Proof.
  intros Hstep.
  destruct Hstep as [p ? ? ? _ | p ? ? k _ | p k ? ? toDataURL toISOString _
                     | p ? ? _ | p ? k _ | p k ? ? axios_post _];
    cbn [Server.ledger]; try (split; [done | by eauto]).
  - destruct toDataURL as [qrImage | ?]; cbn [Server.create_khqr_resume snd];
      [| split; [done | by eauto]].
    cbn [store_order heap ORDERS]. split; [rewrite length_app; lia |].
    intros orderId l Hl.
    destruct (decide (Server.c_orderId k = orderId)) as [<- | Hne].
    + exists (length (heap (Server.ledger p))).
      split; [apply lookup_insert_eq | by right].
    + exists l. split; [by rewrite lookup_insert_ne | by left].
  - destruct (server_check_resume_cases k axios_post (Server.ledger p))
      as [-> | (-> & -> & _)]; [split; [done | by eauto] |].
    split; [by rewrite set_prop_length | by eauto].
Qed.

Lemma server_steps_entries p q :
  Server.steps env p q ->
  length (heap (Server.ledger p)) <= length (heap (Server.ledger q))
  /\ forall orderId l,
       ORDERS (Server.ledger p) !! orderId = Some l ->
       exists l',
         ORDERS (Server.ledger q) !! orderId = Some l'
         /\ (l' = l \/ length (heap (Server.ledger p)) <= l').
Proof.
  induction 1 as [p | p q r Hsteps [Hlen IH] Hstep].
  - split; [done | by eauto].
  - destruct (server_step_entries q r Hstep) as [Hlen' Hentries].
    split; [lia |]. intros orderId l Hl.
    destruct (IH orderId l Hl) as (l2 & Hl2 & Hfrom).
    destruct (Hentries orderId l2 Hl2) as (l3 & Hl3 & Hfrom').
    exists l3. split; [done |]. lia.
Qed.

(** C3 as amended: in every process reachable by server.js, an order object
    is PENDING when it is created; whatever turns of the event loop follow
    (creations, status checks, their resumptions, in any interleaving), the
    object stays in the heap and its status is the one it had or has moved
    from PENDING to PAID; in particular a PAID order object stays PAID.  The
    store never drops an entry, but the status read through an order id is
    monotonic only while the id leads to the same object: the order under
    an id is the same object or, when a later creation drew the same id, an
    order created since, which is PENDING. *)
Theorem server_status_is_monotonic p q :
  Server.reachable env p ->
  Server.steps env p q ->
  (forall r l o',
     Server.step env q r ->
     heap (Server.ledger q) !! l = None ->
     heap (Server.ledger r) !! l = Some o' ->
     o' !! "status" = Some (JStr "PENDING"))
  /\ (forall l o,
        heap (Server.ledger p) !! l = Some o ->
        exists o',
          heap (Server.ledger q) !! l = Some o'
          /\ status_advances (o !! "status") (o' !! "status")
          /\ (o !! "status" = Some (JStr "PAID") ->
              o' !! "status" = Some (JStr "PAID")))
  /\ (forall orderId l,
        ORDERS (Server.ledger p) !! orderId = Some l ->
        exists l',
          ORDERS (Server.ledger q) !! orderId = Some l'
          /\ (l' = l \/ length (heap (Server.ledger p)) <= l')).
Proof.
  intros Hreach Hsteps.
  destruct (server_steps_well_formed _ _ Hreach init_well_formed) as [Hwfp _].
  destruct (server_steps_well_formed _ _ Hsteps Hwfp) as [Hwfq Hpq].
  split; [| split].
  - intros r l o' Hstep Hnone Hsome.
    destruct (server_step_evolves q r Hstep Hwfq) as [_ [_ Hnew]].
    by eapply Hnew.
  - intros l o Hl. destruct (Hpq l o Hl) as (o' & Hl' & Hadv).
    exists o'. split; [done |]. split; [done |].
    intros Hpaid. destruct Hadv as [-> | [E _]]; congruence.
  - apply (server_steps_entries p q Hsteps).
Qed.

End EventLoop.

(** ** Validation failures and their status codes *)

Section Validation.
Context `{JsBuiltins} (env : ProcessEnv).

(** C9 as amended: of the validation failures of order creation, an invalid
    amount (server.js and part_003) and an unsupported currency (part_003)
    are answered 400, and a missing or malformed merchant account is
    answered 500; each answer carries [ok: false] and a non-empty [error]
    message. *)
Theorem validation_failures_and_their_status
    (w : Server.World) (w3 : Part003.World) (body amount0 currency : JsValue) :
  Get body "amount" = Ok amount0 ->
  Get body "currency" = Ok currency ->
  (forall amount,
     ToNumber (js_or amount0 (JNum (of_Z 0))) = Ok amount ->
     (negb (truthy (JNum amount)) || num_le amount (of_Z 0) = true ->
      Server.create_khqr_begin env w body = Done Server.invalid_amount)
     /\ (negb (truthy (JNum amount)) || num_le amount (of_Z 0) = false ->
         str_falsy (Server.BAKONG_ACCOUNT_ID env)
         || negb (includes_char (Server.BAKONG_ACCOUNT_ID env) "@") = true ->
         Server.create_khqr_begin env w body = Done Server.invalid_account))
  /\ (Part003.amount_rejected amount0 = Ok true ->
      Part003.create_khqr_begin env w3 body = Done Part003.invalid_amount)
  /\ (forall cur,
        Part003.amount_rejected amount0 = Ok false ->
        call_toUpperCase (js_or currency (JStr (Part003.DEFAULT_CURRENCY env)))
          = Ok cur ->
        (Part003.supported cur = false ->
         Part003.create_khqr_begin env w3 body = Done Part003.invalid_currency)
        /\ (Part003.supported cur = true ->
            Part003.opt_falsy (Part003.BAKONG_ACCOUNT_ID env)
            || negb (includes_char (default "" (Part003.BAKONG_ACCOUNT_ID env)) "@")
               = true ->
            Part003.create_khqr_begin env w3 body = Done Part003.invalid_account))
  /\ error_response Server.invalid_amount 400
  /\ error_response Part003.invalid_amount 400
  /\ error_response Part003.invalid_currency 400
  /\ error_response Server.invalid_account 500
  /\ error_response Part003.invalid_account 500.
Proof.
  intros Hget Hcur.
  split; [| split; [| split; [| repeat split; try done; by eexists]]].
  - intros amount Hnum. split.
    + intros Hbad. unfold Server.create_khqr_begin.
      rewrite Hget, Hcur. cbn [bind]. rewrite Hnum. cbn [bind]. by rewrite Hbad.
    + intros Hgood Haccount. unfold Server.create_khqr_begin.
      rewrite Hget, Hcur. cbn [bind]. rewrite Hnum. cbn [bind].
      by rewrite Hgood, Haccount.
  - intros Hbad. unfold Part003.create_khqr_begin.
    rewrite Hget, Hcur. cbn [bind]. by rewrite Hbad.
  - intros cur Hgood Hup. split.
    + intros Hsup. unfold Part003.create_khqr_begin.
      rewrite Hget, Hcur. cbn [bind]. rewrite Hgood. cbn [bind].
      rewrite Hup. cbn [bind]. by rewrite Hsup.
    + intros Hsup Haccount. unfold Part003.create_khqr_begin.
      rewrite Hget, Hcur. cbn [bind]. rewrite Hgood. cbn [bind].
      rewrite Hup. cbn [bind]. by rewrite Hsup, Haccount.
Qed.

End Validation.

(** ** Closed examples *)

(** C5 (server.js): a request for 5 EUR is accepted by server.js, which
    answers 200 and stores a PENDING order whose currency is "EUR"; part_003
    answers the same request 400 "Currency must be USD or KHR" and stores
    nothing. *)
Theorem server_accepts_unsupported_currency :
  let body := Examples.request (JNum (of_Z 5)) (JStr "EUR") in
  let result :=
    @Server.create_khqr Examples.runtime Examples.env_demo Examples.world body
      (Ok Examples.qr_image) Examples.created_at init in
  code result.1 = 200
  /\ own_property (json result.1) "ok" = Some (JBool true)
  /\ own_property (json result.1) "currency" = Some (JStr "EUR")
  /\ ORDERS result.2 !! Examples.the_id = Some 12
  /\ get_prop (heap result.2) 12 "currency" = JStr "EUR"
  /\ get_prop (heap result.2) 12 "status" = JStr "PENDING"
  /\ @Part003.create_khqr Examples.runtime Examples.env_demo Examples.world3 body
       (Ok Examples.qr_image) init
     = (Part003.invalid_currency, init).
Proof. vm_compute. repeat split. Qed.

(** C6 (server.js): a request for 10.7 KHR reaches the encoder of
    server.js with the amount 10.7.  When the encoder accepts it, server.js
    answers 200 and stores and returns the amount 10.7, not 11; when the
    encoder refuses fractional KHR amounts, server.js answers 500 and
    stores nothing.  part_003 stores 11 for the same request. *)
Theorem server_keeps_fractional_khr_amount :
  let body := Examples.request (JNum (decimal 107 1)) (JStr "KHR") in
  let result :=
    @Server.create_khqr Examples.runtime Examples.env_demo Examples.world body
      (Ok Examples.qr_image) Examples.created_at init in
  let refused :=
    @Server.create_khqr Examples.runtime Examples.env_demo Examples.world_strict
      body (Ok Examples.qr_image) Examples.created_at init in
  let result3 :=
    @Part003.create_khqr Examples.runtime Examples.env_demo Examples.world3 body
      (Ok Examples.qr_image) init in
  code result.1 = 200
  /\ own_property (json result.1) "amount" = Some (JNum (decimal 107 1))
  /\ get_prop (heap result.2) 12 "currency" = JStr "KHR"
  /\ get_prop (heap result.2) 12 "amount" = JNum (decimal 107 1)
  /\ is_integer (decimal 107 1) = false
  /\ Math_round (decimal 107 1) = of_Z 11
  /\ refused = (Server.generate_failed, init)
  /\ code Server.generate_failed = 500
  /\ get_prop (heap result3.2) 12 "amount" = JNum (of_Z 11).
Proof. vm_compute. repeat split. Qed.

(** C8, as stated, fails: an order is created, paid, and then a second
    creation in the same second draws the same random suffix.  The second
    creation is answered 200 under the same id, and the store's entry for
    that id, which was the PAID order of 5 USD, is now a PENDING order of
    7 USD. *)
Lemma server_duplicate_id_replaces_entry :
  let first :=
    @Server.create_khqr Examples.runtime Examples.env_live Examples.world
      (Examples.request (JNum (of_Z 5)) (JStr "USD"))
      (Ok Examples.qr_image) Examples.created_at init in
  let paid :=
    @Server.check_payment Examples.runtime Examples.env_live
      (fun _ => Ok (Examples.settled (of_Z 5) "USD")) first.2 Examples.the_id in
  let second :=
    @Server.create_khqr Examples.runtime Examples.env_live Examples.world
      (Examples.request (JNum (of_Z 7)) (JStr "USD"))
      (Ok Examples.qr_image) Examples.created_at paid.2 in
  own_property (json first.1) "orderId" = Some (JStr Examples.the_id)
  /\ ORDERS paid.2 !! Examples.the_id = Some 12
  /\ get_prop (heap paid.2) 12 "status" = JStr "PAID"
  /\ code second.1 = 200
  /\ own_property (json second.1) "ok" = Some (JBool true)
  /\ own_property (json second.1) "orderId" = Some (JStr Examples.the_id)
  /\ ORDERS second.2 !! Examples.the_id = Some 13
  /\ get_prop (heap second.2) 13 "amount" = JNum (of_Z 7)
  /\ get_prop (heap second.2) 13 "status" = JStr "PENDING".
Proof. vm_compute. repeat split. Qed.

(** C9, as stated, fails: with no merchant account configured, a valid
    request is answered 500, not 4xx, in server.js and in part_003. *)
Lemma misconfigured_merchant_is_answered_500 :
  let body := Examples.request (JNum (of_Z 5)) (JStr "USD") in
  @Server.create_khqr_begin Examples.runtime Examples.env_unset Examples.world body
    = Done Server.invalid_account
  /\ @Part003.create_khqr_begin Examples.runtime Examples.env_unset Examples.world3
       body = Done Part003.invalid_account
  /\ is_4xx Server.invalid_account = false
  /\ is_5xx Server.invalid_account = true
  /\ is_4xx Part003.invalid_account = false
  /\ is_5xx Part003.invalid_account = true.
Proof. vm_compute. repeat split. Qed.

(** C2, as stated, fails: a check answers PAID, then a creation in the same
    second draws the same random suffix and its order replaces the entry of
    the id; the next check of that id contacts the settlement authority and
    is answered PENDING. *)
Lemma server_paid_observed_then_pending :
  let first :=
    @Server.create_khqr Examples.runtime Examples.env_live Examples.world
      (Examples.request (JNum (of_Z 5)) (JStr "USD"))
      (Ok Examples.qr_image) Examples.created_at init in
  let paid :=
    @Server.check_payment Examples.runtime Examples.env_live
      (fun _ => Ok (Examples.settled (of_Z 5) "USD")) first.2 Examples.the_id in
  let second :=
    @Server.create_khqr Examples.runtime Examples.env_live Examples.world
      (Examples.request (JNum (of_Z 7)) (JStr "USD"))
      (Ok Examples.qr_image) Examples.created_at paid.2 in
  let later :=
    @Server.check_payment Examples.runtime Examples.env_live
      (fun _ => Ok Examples.unsettled) second.2 Examples.the_id in
  own_property (json first.1) "orderId" = Some (JStr Examples.the_id)
  /\ Server.response_status paid.1.1 = Some (JStr "PAID")
  /\ code second.1 = 200
  /\ own_property (json second.1) "orderId" = Some (JStr Examples.the_id)
  /\ code later.1.1 = 200
  /\ Server.response_status later.1.1 = Some (JStr "PENDING")
  /\ later.1.2 = true.
Proof. vm_compute. repeat split. Qed.

(** C3, as stated, fails for the status the ledger holds under an order id:
    in a reachable process the id leads to a PAID order; two turns of the
    event loop later (a creation that draws the same id suspends and
    resumes) the same id leads to a PENDING order. *)
Lemma server_status_of_id_reverts :
  let k :=
    {| Server.c_orderId := Examples.the_id;
       Server.c_amount := of_Z 7;
       Server.c_currencyCode := "USD";
       Server.c_qrString := JStr "00020101021229";
       Server.c_md5 := JStr "9e107d9d" |} in
  let p := Examples.p_paid in
  let q :=
    {| Server.ledger :=
         (Server.create_khqr_resume k (Ok Examples.qr_image) Examples.created_at
            (Server.ledger p)).2;
       Server.creating := [];
       Server.checking := [] |} in
  @Server.reachable Examples.runtime Examples.env_live p
  /\ @Server.steps Examples.runtime Examples.env_live p q
  /\ ORDERS (Server.ledger p) !! Examples.the_id = Some 12
  /\ get_prop (heap (Server.ledger p)) 12 "status" = JStr "PAID"
  /\ ORDERS (Server.ledger q) !! Examples.the_id = Some 13
  /\ get_prop (heap (Server.ledger q)) 13 "status" = JStr "PENDING".
Proof.
  intros k p q.
  split; [| split; [| vm_compute; repeat split]].
  - apply (@Server.steps_step Examples.runtime _ Server.boot Examples.p_checking).
    + apply (@Server.steps_step Examples.runtime _ Server.boot Examples.p_created).
      * apply (@Server.steps_step Examples.runtime _ Server.boot Examples.p_creating).
        -- apply (@Server.steps_step Examples.runtime _ Server.boot Server.boot);
             [apply Server.steps_refl |].
           apply (@Server.step_create_suspend Examples.runtime Examples.env_live
                    Server.boot Examples.world
                    (Examples.request (JNum (of_Z 5)) (JStr "USD"))
                    Examples.k_create).
           vm_compute; reflexivity.
        -- exact (@Server.step_create_resume Examples.runtime Examples.env_live
                    Examples.p_creating Examples.k_create [] []
                    (Ok Examples.qr_image) Examples.created_at eq_refl).
      * apply (@Server.step_check_suspend Examples.runtime Examples.env_live
                 Examples.p_created Examples.the_id Examples.k_check).
        vm_compute; reflexivity.
    + exact (@Server.step_check_resume Examples.runtime Examples.env_live
               Examples.p_checking Examples.k_check [] []
               (Ok (Examples.settled (of_Z 5) "USD")) eq_refl).
  - apply (@Server.steps_step Examples.runtime _ p
             {| Server.ledger := Server.ledger p;
                Server.creating := [k];
                Server.checking := [] |}).
    + apply (@Server.steps_step Examples.runtime _ p p);
        [apply Server.steps_refl |].
      apply (@Server.step_create_suspend Examples.runtime Examples.env_live
               p Examples.world
               (Examples.request (JNum (of_Z 7)) (JStr "USD")) k).
      vm_compute; reflexivity.
    + exact (@Server.step_create_resume Examples.runtime Examples.env_live
               {| Server.ledger := Server.ledger p;
                  Server.creating := [k];
                  Server.checking := [] |}
               k [] [] (Ok Examples.qr_image) Examples.created_at eq_refl).
Qed.

(** The scenario of the specification on server.js: an order of 1.50 USD
    is created PENDING; without a token the check answers PENDING with a
    note and stays local; with a token and a matching settlement the check
    answers PAID; the next check answers PAID without contacting the
    settlement authority, which would now fail. *)
Example server_scenario :
  let created :=
    @Server.create_khqr Examples.runtime Examples.env_live Examples.world
      (Examples.request (JNum (decimal 150 2)) JUndefined)
      (Ok Examples.qr_image) Examples.created_at init in
  let offline :=
    @Server.check_payment Examples.runtime Examples.env_demo
      (fun _ => Throw "ECONNREFUSED") created.2 Examples.the_id in
  let settled :=
    @Server.check_payment Examples.runtime Examples.env_live
      (fun _ => Ok (Examples.settled (decimal 150 2) "USD"))
      created.2 Examples.the_id in
  let again :=
    @Server.check_payment Examples.runtime Examples.env_live
      (fun _ => Throw "ECONNREFUSED") settled.2 Examples.the_id in
  own_property (json created.1) "orderId" = Some (JStr "CAFE-20261102093015-042")
  /\ get_prop (heap created.2) 12 "status" = JStr "PENDING"
  /\ offline.1 = (Server.token_not_set, false)
  /\ Server.response_status settled.1.1 = Some (JStr "PAID")
  /\ settled.1.2 = true
  /\ Server.response_status again.1.1 = Some (JStr "PAID")
  /\ again.1.2 = false.
Proof. vm_compute. repeat split. Qed.

(** Coercion itself can fail: [Number] throws on a parsed object with an
    own [toString], and a body that is [null] cannot be destructured.  The
    catch block of server.js answers 500 and nothing is stored. *)
Example server_coercion_can_throw :
  let run body :=
    @Server.create_khqr Examples.runtime Examples.env_demo Examples.world body
      (Ok Examples.qr_image) Examples.created_at init in
  run (Examples.request (JObj [("toString", JNum (of_Z 1))]) (JStr "USD"))
    = (Server.create_error, init)
  /\ run JNull = (Server.create_error, init)
  /\ run (Examples.request (JObj []) (JStr "USD")) = (Server.invalid_amount, init)
  /\ run (Examples.request (JStr "") (JStr "USD")) = (Server.invalid_amount, init)
  /\ code Server.create_error = 500.
Proof. vm_compute. repeat split. Qed.

(** part_003 compares the amount as the client sent it: a string that is
    not a number passes [!amount || amount <= 0], and the order is stored
    with the amount NaN. *)
Example part003_accepts_non_numeric_amount :
  let result :=
    @Part003.create_khqr Examples.runtime Examples.env_demo Examples.world3
      (Examples.request (JStr "abc") (JStr "USD")) (Ok Examples.qr_image) init in
  code result.1 = 200
  /\ get_prop (heap result.2) 12 "amount" = JNum NaN.
Proof. vm_compute. repeat split. Qed.

(** ** The theorems at concrete inputs *)

Lemma server_invalid_amount_is_rejected_witness :
  let body := Examples.request (JNum (of_Z (-3))) (JStr "USD") in
  Get body "amount" = Ok (JNum (of_Z (-3)))
  /\ @ToNumber Examples.runtime (js_or (JNum (of_Z (-3))) (JNum (of_Z 0)))
     = Ok (of_Z (-3))
  /\ num_le (of_Z (-3)) (of_Z 0) = true
  /\ @Server.create_khqr Examples.runtime Examples.env_demo Examples.world body
       (Ok Examples.qr_image) Examples.created_at init
     = (Server.invalid_amount, init).
Proof.
  intros body.
  assert (Hget : Get body "amount" = Ok (JNum (of_Z (-3))))
    by (vm_compute; reflexivity).
  assert (Hnum : @ToNumber Examples.runtime (js_or (JNum (of_Z (-3))) (JNum (of_Z 0)))
                 = Ok (of_Z (-3))) by (vm_compute; reflexivity).
  assert (Hle : num_le (of_Z (-3)) (of_Z 0) = true) by (vm_compute; reflexivity).
  split; [assumption |]. split; [assumption |]. split; [assumption |].
  exact (proj1 (@server_invalid_amount_is_rejected Examples.runtime
                  Examples.env_demo Examples.world body _ _
                  (Ok Examples.qr_image) Examples.created_at init
                  Hget Hnum (or_introl Hle))).
Defined.

Lemma server_paid_is_answered_locally_witness :
  let st := Examples.ledger_with "PAID" in
  let authority := fun _ : JsValue => Ok Examples.unsettled in
  ORDERS st !! Examples.the_id = Some 12
  /\ get_prop (heap st) 12 "status" = JStr "PAID"
  /\ @Server.check_payment Examples.runtime Examples.env_live authority st
       Examples.the_id
     = (Server.already_paid (heap st) 12, false, st).
Proof.
  intros st authority.
  assert (Hreg : ORDERS st !! Examples.the_id = Some 12)
    by (vm_compute; reflexivity).
  assert (Hpaid : get_prop (heap st) 12 "status" = JStr "PAID")
    by (vm_compute; reflexivity).
  split; [assumption |]. split; [assumption |].
  exact (proj1 (@server_paid_is_answered_locally Examples.runtime
                  Examples.env_live st Examples.the_id 12 Hreg) Hpaid authority).
Defined.

Lemma status_check_changes_status_only_witness :
  let st := Examples.ledger_with "PENDING" in
  let o := Examples.order_of Examples.the_id (of_Z 5) "USD" "PENDING" in
  let st' :=
    (@Server.check_payment_resume Examples.runtime Examples.k_check
       (Ok (Examples.settled (of_Z 5) "USD")) st).2 in
  ORDERS st !! Examples.the_id = Some 12
  /\ heap st !! 12 = Some o
  /\ ORDERS st' !! Examples.the_id = Some 12
  /\ exists o' : Obj,
       heap st' !! 12 = Some o'
       /\ o' !! "orderId" = o !! "orderId"
       /\ o' !! "amount" = o !! "amount"
       /\ o' !! "currency" = o !! "currency"
       /\ o' !! "md5" = o !! "md5"
       /\ o' !! "qrString" = o !! "qrString"
       /\ o' !! "khqrString" = o !! "khqrString"
       /\ o' !! "createdAt" = o !! "createdAt"
       /\ forall k, k <> "status" -> o' !! k = o !! k.
Proof.
  intros st o st'.
  assert (Hreg : ORDERS st !! Examples.the_id = Some 12)
    by (vm_compute; reflexivity).
  assert (Hobj : heap st !! 12 = Some o) by (vm_compute; reflexivity).
  split; [assumption |]. split; [assumption |].
  exact (@status_check_changes_status_only Examples.runtime Examples.env_live
           st st' Examples.the_id 12 o
           (server_resumed Examples.env_live st Examples.k_check
              (Ok (Examples.settled (of_Z 5) "USD")))
           Hreg Hobj).
Defined.

Lemma validation_failures_and_their_status_witness :
  let body := Examples.request (JNum (of_Z 5)) (JStr "EUR") in
  Get body "amount" = Ok (JNum (of_Z 5))
  /\ Get body "currency" = Ok (JStr "EUR")
  /\ @Server.create_khqr_begin Examples.runtime Examples.env_unset Examples.world
       body = Done Server.invalid_account
  /\ @Part003.create_khqr_begin Examples.runtime Examples.env_unset Examples.world3
       body = Done Part003.invalid_currency
  /\ error_response Server.invalid_account 500
  /\ error_response Part003.invalid_currency 400.
Proof.
  intros body.
  assert (Hget : Get body "amount" = Ok (JNum (of_Z 5)))
    by (vm_compute; reflexivity).
  assert (Hcur : Get body "currency" = Ok (JStr "EUR"))
    by (vm_compute; reflexivity).
  destruct (@validation_failures_and_their_status Examples.runtime
              Examples.env_unset Examples.world Examples.world3 body _ _ Hget Hcur)
    as (Hserver & _ & Hpart003 & _ & _ & Hcurrency400 & Haccount500 & _).
  split; [assumption |]. split; [assumption |].
  split; [| split; [| split; assumption]].
  - apply (Hserver (of_Z 5)); vm_compute; reflexivity.
  - apply (Hpart003 "EUR"); vm_compute; reflexivity.
Defined.

Lemma server_status_is_monotonic_witness :
  @Server.reachable Examples.runtime Examples.env_live Examples.p_created
  /\ @Server.steps Examples.runtime Examples.env_live Examples.p_created Examples.p_paid
  /\ forall l (o : Obj),
       heap (Server.ledger Examples.p_created) !! l = Some o ->
       exists o' : Obj,
         heap (Server.ledger Examples.p_paid) !! l = Some o'
         /\ status_advances (o !! "status") (o' !! "status")
         /\ (o !! "status" = Some (JStr "PAID") ->
             o' !! "status" = Some (JStr "PAID")).
Proof.
  assert (Hreach : @Server.reachable Examples.runtime Examples.env_live Examples.p_created).
  { apply (@Server.steps_step Examples.runtime _ Server.boot Examples.p_creating).
    - apply (@Server.steps_step Examples.runtime _ Server.boot Server.boot);
        [apply Server.steps_refl |].
      apply (@Server.step_create_suspend Examples.runtime Examples.env_live Server.boot
               Examples.world (Examples.request (JNum (of_Z 5)) (JStr "USD"))
               Examples.k_create).
      vm_compute; reflexivity.
    - exact (@Server.step_create_resume Examples.runtime Examples.env_live Examples.p_creating
               Examples.k_create [] [] (Ok Examples.qr_image)
               Examples.created_at eq_refl). }
  assert (Hsteps : @Server.steps Examples.runtime Examples.env_live Examples.p_created Examples.p_paid).
  { apply (@Server.steps_step Examples.runtime _ Examples.p_created Examples.p_checking).
    - apply (@Server.steps_step Examples.runtime _ Examples.p_created Examples.p_created);
        [apply Server.steps_refl |].
      apply (@Server.step_check_suspend Examples.runtime Examples.env_live Examples.p_created
               Examples.the_id Examples.k_check).
      vm_compute; reflexivity.
    - exact (@Server.step_check_resume Examples.runtime Examples.env_live Examples.p_checking
               Examples.k_check [] []
               (Ok (Examples.settled (of_Z 5) "USD")) eq_refl). }
  split; [assumption |]. split; [assumption |].
  exact (proj1 (proj2 (@server_status_is_monotonic Examples.runtime
                         Examples.env_live Examples.p_created Examples.p_paid
                         Hreach Hsteps))).
Defined.

(* ================================================================== *)
(** * Further properties of the handlers                               *)
(* ================================================================== *)

(** ** Creation in server.js *)

(** The amount check [!amount || amount <= 0] refuses exactly the Numbers
    that are not above zero; NaN is one of them. *)
Lemma amount_check_is_positivity (a : number) :
  negb (truthy (JNum a)) || num_le a (of_Z 0) = negb (num_lt (of_Z 0) a).
Proof. by destruct a as [[|] | [|] | | [|] m e]. Qed.

Lemma get_prop_new (h : list Obj) (o : Obj) (k : string) (v : JsValue) :
  o !! k = Some v -> get_prop (h ++ [o]) (length h) k = v.
Proof.
  intros Hk. unfold get_prop.
  by rewrite (list_lookup_middle h [] o (length h) eq_refl), Hk.
Qed.

Section ServerCreation.
Context `{JsBuiltins} (env : ProcessEnv).
Implicit Types (st : State) (w : Server.World) (body : JsValue).

(** What a creation of server.js has established when it reaches the
    rendering of the QR image. *)
Lemma server_create_await w body (k : Server.CreateCont) :
  Server.create_khqr_begin env w body = Await k ->
  exists amount0 currency info result data,
    Get body "amount" = Ok amount0
    /\ Get body "currency" = Ok currency
    /\ ToNumber (js_or amount0 (JNum (of_Z 0))) = Ok (Server.c_amount k)
    /\ num_lt (of_Z 0) (Server.c_amount k) = true
    /\ includes_char (Server.BAKONG_ACCOUNT_ID env) "@" = true
    /\ call_toUpperCase (js_or currency (JStr (Server.DEFAULT_CURRENCY env)))
       = Ok (Server.c_currencyCode k)
    /\ Server.c_orderId k = generateOrderId (Server.new_Date w) (Server.Math_random w)
    /\ Server.generateIndividual w info = Ok result
    /\ Server.od_amount (Server.arg_5 info) = Server.c_amount k
    /\ Server.od_billNumber (Server.arg_5 info) = Server.c_orderId k
    /\ Server.od_currency (Server.arg_5 info)
       = (if String.eqb (Server.c_currencyCode k) "KHR" then khr else usd)
    /\ Server.od_expirationTimestamp (Server.arg_5 info)
       = (Server.Date_now w + 10 * 60 * 1000)%Z
    /\ Server.generate_rejected result = Ok false
    /\ Get result "data" = Ok data
    /\ Get data "qr" = Ok (Server.c_qrString k)
    /\ Get data "md5" = Ok (Server.c_md5 k).
Proof.
  unfold Server.create_khqr_begin.
  destruct (Get body "amount") as [amount0 | ?] eqn:Eamount0;
    cbn [bind try_catch]; [| discriminate].
  destruct (Get body "currency") as [currency | ?] eqn:Ecurrency;
    cbn [bind try_catch]; [| discriminate].
  destruct (ToNumber (js_or amount0 (JNum (of_Z 0)))) as [amount | ?] eqn:Enum;
    cbn [bind try_catch]; [| discriminate].
  rewrite amount_check_is_positivity.
  destruct (num_lt (of_Z 0) amount) eqn:Hpos; cbn [negb try_catch];
    [| discriminate].
  destruct (str_falsy (Server.BAKONG_ACCOUNT_ID env)
            || negb (includes_char (Server.BAKONG_ACCOUNT_ID env) "@")) eqn:Hacc;
    cbn [try_catch]; [discriminate |].
  apply orb_false_iff in Hacc as [_ Hacc]. apply negb_false_iff in Hacc.
  destruct (call_toUpperCase (js_or currency (JStr (Server.DEFAULT_CURRENCY env))))
    as [currencyCode | ?] eqn:Eupper; cbn [bind try_catch]; [| discriminate].
  destruct (Server.generateIndividual w _) as [result | ?] eqn:Egen;
    cbn [bind try_catch]; [| discriminate].
  destruct (Server.generate_rejected result) as [[|] | ?] eqn:Erej;
    cbn [bind try_catch]; [discriminate | | discriminate].
  destruct (Get result "data") as [data | ?] eqn:Edata; cbn [bind try_catch];
    [| discriminate].
  destruct (Get data "qr") as [qr | ?] eqn:Eqr; cbn [bind try_catch];
    [| discriminate].
  destruct (Get data "md5") as [md5 | ?] eqn:Emd5; cbn [bind try_catch];
    [| discriminate].
  intros [= <-].
  cbn [Server.c_amount Server.c_currencyCode Server.c_orderId Server.c_qrString
       Server.c_md5].
  eexists amount0, currency, _, result, data.
  do 7 (split; [done |]).
  split; [exact Egen |].
  cbn [Server.arg_5 Server.od_amount Server.od_billNumber Server.od_currency
       Server.od_expirationTimestamp].
  by repeat (split; [done |]).
Qed.

(** Every way a creation of server.js ends before the QR image is rendered
    is an error answer. *)
Lemma server_create_done w body r :
  Server.create_khqr_begin env w body = Done r ->
  r = Server.invalid_amount \/ r = Server.invalid_account
  \/ r = Server.generate_failed \/ r = Server.create_error.
Proof.
  unfold Server.create_khqr_begin.
  destruct (Get body "amount") as [amount0 | ?]; cbn [bind try_catch];
    [| intros [= <-]; tauto].
  destruct (Get body "currency") as [currency | ?]; cbn [bind try_catch];
    [| intros [= <-]; tauto].
  destruct (ToNumber _) as [amount | ?]; cbn [bind try_catch];
    [| intros [= <-]; tauto].
  destruct (_ || _); cbn [try_catch]; [intros [= <-]; tauto |].
  destruct (_ || _); cbn [try_catch]; [intros [= <-]; tauto |].
  destruct (call_toUpperCase _) as [currencyCode | ?]; cbn [bind try_catch];
    [| intros [= <-]; tauto].
  destruct (Server.generateIndividual w _) as [result | ?];
    cbn [bind try_catch]; [| intros [= <-]; tauto].
  destruct (Server.generate_rejected result) as [[|] | ?];
    cbn [bind try_catch]; [intros [= <-]; tauto | | intros [= <-]; tauto].
  destruct (Get result "data") as [data | ?]; cbn [bind try_catch];
    [| intros [= <-]; tauto].
  destruct (Get data "qr") as [qr | ?]; cbn [bind try_catch];
    [| intros [= <-]; tauto].
  destruct (Get data "md5") as [md5 | ?]; cbn [bind try_catch];
    [discriminate | intros [= <-]; tauto].
Qed.

(** X1: a creation of server.js either answers 200, and then exactly one
    order was stored, or answers 400 or 500 with [ok: false], and then the
    ledger is as it was: an encoder that throws or refuses, a QR image that
    cannot be rendered, or any exception leaves no trace in the store. *)
Theorem server_create_stores_iff_created
    w body (toDataURL : Completion string) (toISOString : string) st :
  let result := Server.create_khqr env w body toDataURL toISOString st in
  (exists k qrImage,
     Server.create_khqr_begin env w body = Await k
     /\ toDataURL = Ok qrImage
     /\ result.1 = Server.created k qrImage
     /\ code result.1 = 200
     /\ result.2 = store_order st (Server.c_orderId k)
                     (Server.new_order k toISOString))
  \/ ((code result.1 = 400 \/ code result.1 = 500)
      /\ own_property (json result.1) "ok" = Some (JBool false)
      /\ result.2 = st).
Proof.
  cbn zeta. unfold Server.create_khqr.
  destruct (Server.create_khqr_begin env w body) as [r | k] eqn:Ebegin.
  - right. cbn [fst snd].
    destruct (server_create_done w body r Ebegin) as [-> | [-> | [-> | ->]]];
      cbn; tauto.
  - destruct toDataURL as [qrImage | ?]; cbn [Server.create_khqr_resume fst snd].
    + left. by exists k, qrImage.
    + right. cbn. tauto.
Qed.

(** X2: server.js accepts the amount of a request exactly when
    [Number(amount || 0)] is above zero; every other Number, NaN included,
    is answered 400.  (+Infinity is above zero and is accepted.) *)
Theorem server_amount_accepted_iff_positive
    w body (amount0 : JsValue) (amount : number) :
  Get body "amount" = Ok amount0 ->
  ToNumber (js_or amount0 (JNum (of_Z 0))) = Ok amount ->
  (Server.create_khqr_begin env w body = Done Server.invalid_amount
   <-> num_lt (of_Z 0) amount = false).
Proof.
  intros Hget Hnum.
  destruct (Get_defined body "amount" "currency" amount0 Hget) as [currency Hcur].
  split.
  - intros Hbegin. destruct (num_lt (of_Z 0) amount) eqn:Hpos; [| done].
    exfalso. revert Hbegin. unfold Server.create_khqr_begin.
    rewrite Hget, Hcur. cbn [bind]. rewrite Hnum. cbn [bind].
    rewrite amount_check_is_positivity, Hpos. cbn [negb].
    destruct (_ || _); cbn [try_catch]; [discriminate |].
    destruct (call_toUpperCase _) as [currencyCode | ?]; cbn [bind try_catch];
      [| discriminate].
    destruct (Server.generateIndividual w _) as [result | ?];
      cbn [bind try_catch]; [| discriminate].
    destruct (Server.generate_rejected result) as [[|] | ?];
      cbn [bind try_catch]; [discriminate | | discriminate].
    destruct (Get result "data") as [data | ?]; cbn [bind try_catch];
      [| discriminate].
    destruct (Get data "qr") as [qr | ?]; cbn [bind try_catch]; [| discriminate].
    destruct (Get data "md5") as [md5 | ?]; cbn [bind try_catch]; discriminate.
  - intros Hneg. unfold Server.create_khqr_begin.
    rewrite Hget, Hcur. cbn [bind]. rewrite Hnum. cbn [bind].
    by rewrite amount_check_is_positivity, Hneg.
Qed.

(** X3: the order that a creation of server.js stores is the one its answer
    describes: the answer's [orderId], [amount], [currency], [qrString] and
    [md5] are the properties of the new entry, which is PENDING; the amount
    is above zero, the id is the generated one, and payload and fingerprint
    are the encoder's [data.qr] and [data.md5] for that amount and id. *)
Theorem server_created_order_mirrors_answer
    w body (k : Server.CreateCont) (qrImage toISOString : string) st :
  Server.create_khqr_begin env w body = Await k ->
  let result := Server.create_khqr_resume k (Ok qrImage) toISOString st in
  let l := length (heap st) in
  ORDERS result.2 !! Server.c_orderId k = Some l
  /\ own_property (json result.1) "orderId"
     = Some (get_prop (heap result.2) l "orderId")
  /\ own_property (json result.1) "amount"
     = Some (get_prop (heap result.2) l "amount")
  /\ own_property (json result.1) "currency"
     = Some (get_prop (heap result.2) l "currency")
  /\ own_property (json result.1) "qrString"
     = Some (get_prop (heap result.2) l "qrString")
  /\ own_property (json result.1) "md5" = Some (get_prop (heap result.2) l "md5")
  /\ get_prop (heap result.2) l "status" = JStr "PENDING"
  /\ get_prop (heap result.2) l "createdAt" = JStr toISOString
  /\ get_prop (heap result.2) l "orderId"
     = JStr (generateOrderId (Server.new_Date w) (Server.Math_random w))
  /\ (exists amount,
        get_prop (heap result.2) l "amount" = JNum amount
        /\ num_lt (of_Z 0) amount = true)
  /\ (exists info encoded data,
        Server.generateIndividual w info = Ok encoded
        /\ JNum (Server.od_amount (Server.arg_5 info))
           = get_prop (heap result.2) l "amount"
        /\ JStr (Server.od_billNumber (Server.arg_5 info))
           = get_prop (heap result.2) l "orderId"
        /\ Get encoded "data" = Ok data
        /\ Get data "qr" = Ok (get_prop (heap result.2) l "qrString")
        /\ Get data "md5" = Ok (get_prop (heap result.2) l "md5")).
Proof.
  intros Hbegin result l.
  destruct (server_create_await w body k Hbegin)
    as (amount0 & currency & info & encoded & data & _ & _ & _ & Hpos & _ & _
        & Hid & Hgen & Hamount & Hbill & _ & _ & _ & Hdata & Hqr & Hmd5).
  assert (Hprop : forall key v,
            Server.new_order k toISOString !! key = Some v ->
            get_prop (heap result.2) l key = v).
  { intros key v Hkey. subst result l. cbn [Server.create_khqr_resume snd].
    cbn [store_order heap]. by apply get_prop_new. }
  rewrite (Hprop "orderId" (JStr (Server.c_orderId k))) by (vm_compute; reflexivity).
  rewrite (Hprop "amount" (JNum (Server.c_amount k))) by (vm_compute; reflexivity).
  rewrite (Hprop "currency" (JStr (Server.c_currencyCode k)))
    by (vm_compute; reflexivity).
  rewrite (Hprop "qrString" (Server.c_qrString k)) by (vm_compute; reflexivity).
  rewrite (Hprop "md5" (Server.c_md5 k)) by (vm_compute; reflexivity).
  rewrite (Hprop "status" (JStr "PENDING")) by (vm_compute; reflexivity).
  rewrite (Hprop "createdAt" (JStr toISOString)) by (vm_compute; reflexivity).
  split; [apply lookup_insert_eq |].
  do 7 (split; [done |]).
  split; [by rewrite Hid |].
  split; [by exists (Server.c_amount k) |].
  exists info, encoded, data. rewrite Hamount, Hbill. by repeat split.
Qed.

(** X4: an order that server.js has just stored is found by the status
    check under the id the answer returned: the check is never answered
    404; without a token it is answered PENDING locally, and with a token it
    asks the settlement authority about the fingerprint [md5] of the
    answer. *)
Theorem server_created_order_is_found
    w body (k : Server.CreateCont) (qrImage toISOString : string) st :
  Server.create_khqr_begin env w body = Await k ->
  let result := Server.create_khqr_resume k (Ok qrImage) toISOString st in
  own_property (json result.1) "orderId" = Some (JStr (Server.c_orderId k))
  /\ own_property (json result.1) "md5" = Some (Server.c_md5 k)
  /\ Server.check_payment_begin env result.2 (Server.c_orderId k)
     = (if str_falsy (Server.BAKONG_TOKEN env)
           || String.eqb (Server.BAKONG_TOKEN env) "YOUR_BAKONG_API_TOKEN_HERE"
        then Done Server.token_not_set
        else Await {| Server.k_order := length (heap st);
                      Server.k_md5 := Server.c_md5 k |}).
Proof.
  intros _. cbn zeta. cbn [Server.create_khqr_resume fst snd].
  split; [done |]. split; [done |].
  unfold Server.check_payment_begin, lookup_order.
  cbn [store_order ORDERS heap]. rewrite lookup_insert_eq.
  rewrite (get_prop_new _ _ "status" (JStr "PENDING")) by (vm_compute; reflexivity).
  rewrite (get_prop_new _ _ "md5" (Server.c_md5 k)) by (vm_compute; reflexivity).
  done.
Qed.

End ServerCreation.

(** ** Status checks in server.js *)

Lemma set_prop_same (h : list Obj) (l : loc) (o : Obj) (k : string) (v : JsValue) :
  h !! l = Some o -> o !! k = Some v -> set_prop h l k v = h.
Proof.
  intros Hl Hk. apply list_eq. intros i.
  destruct (decide (l = i)) as [<- | Hne].
  - rewrite set_prop_lookup, Hl. cbn. by rewrite insert_id.
  - by apply set_prop_lookup_ne.
Qed.

Section ServerChecking.
Context `{JsBuiltins} (env : ProcessEnv).
Implicit Types (st : State) (h : list Obj) (l : loc) (data : JsValue).

(** What the reconciliation block of server.js has verified when it writes
    the status. *)
Lemma server_reconcile_verified h l data h' :
  Server.reconcile h l data = Ok h' ->
  h' = h
  \/ (h' = set_prop h l "status" (JStr "PAID")
      /\ Server.settlement_matched data = Ok true
      /\ exists record amount0 paidAmount paidCurrency stored,
           Get data "data" = Ok record
           /\ Get record "amount" = Ok amount0
           /\ ToNumber amount0 = Ok paidAmount
           /\ Get record "currency" = Ok paidCurrency
           /\ strict_eq paidCurrency (get_prop h l "currency") = true
           /\ ToNumber (get_prop h l "amount") = Ok stored
           /\ num_lt (Math_abs (num_sub paidAmount stored)) (decimal 1 4) = true).
Proof.
  unfold Server.reconcile.
  destruct (Server.settlement_matched data) as [[|] | ?]; cbn [bind];
    [| intros [= <-]; left; reflexivity | discriminate].
  destruct (Get data "data") as [record | ?] eqn:Erecord; cbn [bind];
    [| discriminate].
  destruct (Get record "amount") as [amount0 | ?] eqn:Eamount0; cbn [bind];
    [| discriminate].
  destruct (ToNumber amount0) as [paidAmount | ?] eqn:Epaid; cbn [bind];
    [| discriminate].
  destruct (Get record "currency") as [paidCurrency | ?] eqn:Ecurrency;
    cbn [bind]; [| discriminate].
  unfold Server.amounts_agree.
  destruct (strict_eq paidCurrency (get_prop h l "currency")) eqn:Ecur;
    cbn [bind]; [| intros [= <-]; by left].
  destruct (ToNumber (get_prop h l "amount")) as [stored | ?] eqn:Estored;
    cbn [bind]; [| discriminate].
  destruct (num_lt (Math_abs (num_sub paidAmount stored)) (decimal 1 4)) eqn:Elt;
    [| intros [= <-]; by left].
  intros [= <-]. right. split; [done |]. split; [done |].
  by exists record, amount0, paidAmount, paidCurrency, stored.
Qed.

(** X7: server.js answers PAID only with a reason: the order was already
    stored as PAID, or the settlement authority, asked about the order's
    fingerprint, returned a matched record whose currency is the stored one
    and whose amount is within 0.0001 of the stored one. *)
Theorem server_paid_answer_is_justified
    (authority : JsValue -> Completion JsValue) st orderId :
  Server.response_status (Server.check_payment env authority st orderId).1.1
    = Some (JStr "PAID") ->
  exists l,
    lookup_order st orderId = Some l
    /\ (get_prop (heap st) l "status" = JStr "PAID"
        \/ ((Server.check_payment env authority st orderId).1.2 = true
            /\ exists data record amount0 paidAmount paidCurrency stored,
                 authority (get_prop (heap st) l "md5") = Ok data
                 /\ Server.settlement_matched data = Ok true
                 /\ Get data "data" = Ok record
                 /\ Get record "amount" = Ok amount0
                 /\ ToNumber amount0 = Ok paidAmount
                 /\ Get record "currency" = Ok paidCurrency
                 /\ strict_eq paidCurrency (get_prop (heap st) l "currency") = true
                 /\ ToNumber (get_prop (heap st) l "amount") = Ok stored
                 /\ num_lt (Math_abs (num_sub paidAmount stored)) (decimal 1 4)
                    = true)).
Proof.
  rewrite server_check_payment_unfold.
  unfold Server.check_payment_begin.
  destruct (lookup_order st orderId) as [l |]; [| discriminate].
  destruct (strict_eq (get_prop (heap st) l "status") (JStr "PAID")) eqn:Epaid.
  { intros _. exists l. split; [done |]. left. by apply strict_eq_JStr. }
  destruct (_ || _); [discriminate |].
  cbn [fst snd Server.k_md5 Server.k_order].
  unfold Server.check_payment_resume. cbn [Server.k_order].
  destruct (authority (get_prop (heap st) l "md5")) as [data | ?] eqn:Eanswer;
    cbn [bind try_catch fst]; [| discriminate].
  destruct (Server.reconcile (heap st) l data) as [h' | ?] eqn:Erec;
    cbn [bind try_catch fst]; [| discriminate].
  apply server_reconcile_verified in Erec
    as [-> | (-> & Hmatched & record & amount0 & paidAmount & paidCurrency
              & stored & Hfacts)].
  - unfold Server.response_status. cbn. intros [= Hstatus].
    apply strict_eq_JStr in Hstatus. congruence.
  - intros _. exists l. split; [done |]. right. split; [done |].
    exists data, record, amount0, paidAmount, paidCurrency, stored.
    by split; [| split].
Qed.

(** X8: a status check of server.js changes the ledger in one case only:
    the settlement authority was contacted and the answer is 200 PAID; what
    changes then is the [status] of the order looked up.  An answer 404 or
    500, a PENDING answer and an answer given without contacting the
    authority leave the ledger as it was. *)
Theorem server_check_changes_ledger_only_when_paid
    (authority : JsValue -> Completion JsValue) st orderId :
  let result := Server.check_payment env authority st orderId in
  result.2 = st
  \/ (result.1.2 = true
      /\ code result.1.1 = 200
      /\ Server.response_status result.1.1 = Some (JStr "PAID")
      /\ ORDERS result.2 = ORDERS st
      /\ exists l,
           lookup_order st orderId = Some l
           /\ heap result.2 = set_prop (heap st) l "status" (JStr "PAID")).
Proof.
  cbn zeta. rewrite server_check_payment_unfold.
  destruct (Server.check_payment_begin env st orderId) as [r | k] eqn:Ebegin;
    [by left |].
  apply server_begin_await in Ebegin as (Hl & _ & _).
  cbn [fst snd].
  destruct (server_check_resume_spec k (authority (Server.k_md5 k)) st)
    as [E | [E | [E _]]]; rewrite E; cbn [fst snd]; [by left | by left |].
  destruct (heap st !! Server.k_order k) as [o |] eqn:Hobj.
  - right. split; [done |]. split; [done |].
    split; [| split; [done | by exists (Server.k_order k)]].
    unfold Server.response_status. cbn.
    by rewrite (get_prop_set_same _ _ o).
  - left. rewrite set_prop_dangling by done. apply state_eta.
Qed.

(** X9: a check that was suspended while its order was PENDING and resumes
    after another check has settled the order is harmless: whatever the
    settlement authority answers, the ledger stays as it is, and the answer
    is PAID or, when the request or the reconciliation fails, 500. *)
Theorem server_late_answer_is_harmless
    (k : Server.CheckCont) (o : Obj) (axios_post : Completion JsValue) st :
  heap st !! Server.k_order k = Some o ->
  o !! "status" = Some (JStr "PAID") ->
  let result := Server.check_payment_resume k axios_post st in
  result.2 = st
  /\ (result.1 = Server.check_error
      \/ (code result.1 = 200
          /\ Server.response_status result.1 = Some (JStr "PAID"))).
Proof.
  intros Hobj Hpaid. cbn zeta.
  destruct (server_check_resume_spec k axios_post st) as [E | [E | [E _]]];
    rewrite E; cbn [fst snd].
  - split; [done | by left].
  - split; [done |]. right. split; [done |].
    unfold Server.response_status. cbn.
    by rewrite (get_prop_own _ _ o "status" (JStr "PAID")).
  - rewrite (set_prop_same _ _ o) by done. split; [apply state_eta |].
    right. split; [done |].
    unfold Server.response_status. cbn.
    by rewrite (get_prop_own _ _ o "status" (JStr "PAID")).
Qed.

End ServerChecking.

(** ** The ledger of server.js over any run *)

Section ServerLedger.
Context `{JsBuiltins} (env : ProcessEnv).
Implicit Types (st : State) (p q : Server.Process) (l : loc) (o : Obj).

Lemma server_new_order_of_id (k : Server.CreateCont) (toISOString : string) :
  creation_validated k ->
  order_of_id (Server.c_orderId k) (Server.new_order k toISOString).
Proof.
  intros [Hpos _]. unfold order_of_id.
  split; [by vm_compute |].
  split; [exists (Server.c_amount k); split; [by vm_compute | done] |].
  split; [exists (Server.c_currencyCode k); by vm_compute |].
  split; [left; by vm_compute |].
  split; [exists (Server.c_qrString k); by vm_compute |].
  split; [exists (Server.c_md5 k); by vm_compute |].
  exists toISOString. by vm_compute.
Qed.

Lemma order_of_id_status (orderId : string) (o o' : Obj) :
  order_of_id orderId o ->
  (forall k, k <> "status" -> o' !! k = o !! k) ->
  o' !! "status" = Some (JStr "PENDING") \/ o' !! "status" = Some (JStr "PAID") ->
  order_of_id orderId o'.
Proof.
  intros (Hid & Hamount & Hcur & _ & Hqr & Hmd5 & Hat) Hframe Hstatus.
  unfold order_of_id.
  rewrite (Hframe "orderId"), (Hframe "amount"), (Hframe "currency"),
    (Hframe "qrString"), (Hframe "md5"), (Hframe "createdAt") by discriminate.
  tauto.
Qed.

Lemma server_create_resume_consistent
    (k : Server.CreateCont) toDataURL toISOString st :
  well_formed st -> ledger_consistent st -> creation_validated k ->
  ledger_consistent (Server.create_khqr_resume k toDataURL toISOString st).2.
Proof.
  intros [Hbuiltin _] Hcons Hk.
  destruct toDataURL as [qrImage | ?]; cbn [Server.create_khqr_resume snd];
    [| done].
  assert (Hlen : length Object_prototype_keys <= length (heap st)).
  { destruct (le_lt_dec (length Object_prototype_keys) (length (heap st)))
      as [Hle | Hlt]; [done |].
    specialize (Hbuiltin (length (heap st)) Hlt).
    apply lookup_lt_Some in Hbuiltin. lia. }
  intros orderId l. cbn [store_order ORDERS heap].
  destruct (decide (Server.c_orderId k = orderId)) as [<- | Hne].
  - rewrite lookup_insert_eq. intros [= <-].
    split; [apply Hk |]. split; [done |].
    exists (Server.new_order k toISOString).
    split; [by apply list_lookup_middle |].
    by apply server_new_order_of_id.
  - rewrite lookup_insert_ne by done. intros Hl.
    destruct (Hcons orderId l Hl) as (Hown & Hle & o & Hobj & Horder).
    split; [done |]. split; [done |]. exists o.
    split; [by apply lookup_app_l_Some | done].
Qed.

Lemma server_check_resume_consistent (k : Server.CheckCont) axios_post st :
  ledger_consistent st ->
  ledger_consistent (Server.check_payment_resume k axios_post st).2.
Proof.
  intros Hcons.
  destruct (server_check_resume_cases k axios_post st)
    as [-> | (Hkeys & Hheap & _)]; [done |].
  intros orderId l. rewrite Hkeys, Hheap. intros Hl.
  destruct (Hcons orderId l Hl) as (Hown & Hle & o & Hobj & Horder).
  split; [done |]. split; [done |].
  destruct (decide (Server.k_order k = l)) as [<- | Hne].
  - exists (<["status" := JStr "PAID"]> o).
    split; [by rewrite set_prop_lookup, Hobj |].
    apply (order_of_id_status orderId o); [done | |].
    + intros key Hkey. by apply lookup_insert_ne.
    + right. apply lookup_insert_eq.
  - exists o. split; [by rewrite set_prop_lookup_ne | done].
Qed.

Lemma server_await_validated (w : Server.World) (body : JsValue)
    (k : Server.CreateCont) :
  Server.create_khqr_begin env w body = Await k -> creation_validated k.
Proof.
  intros Hbegin.
  destruct (server_create_await env w body k Hbegin)
    as (? & ? & ? & ? & ? & _ & _ & _ & Hpos & _ & _ & Hid & _).
  split; [done |]. rewrite Hid. apply generateOrderId_not_inherited.
Qed.

Lemma server_step_consistent p q :
  Server.step env p q ->
  well_formed (Server.ledger p) ->
  ledger_consistent (Server.ledger p) /\ Forall creation_validated (Server.creating p) ->
  ledger_consistent (Server.ledger q) /\ Forall creation_validated (Server.creating q).
Proof.
  intros Hstep Hwf [Hcons Hall].
  destruct Hstep as [p ? ? ? _ | p w body k Hbegin
                     | p k before after toDataURL toISOString Hk
                     | p ? ? _ | p ? k _ | p k before after axios_post _];
    cbn [Server.ledger Server.creating]; try done.
  - split; [done |]. apply Forall_cons. split; [| done].
    by eapply server_await_validated.
  - rewrite Hk in Hall. apply Forall_app in Hall as [Hbefore Hrest].
    apply Forall_cons in Hrest as [Hgood Hafter].
    split; [by apply server_create_resume_consistent |].
    apply Forall_app. by split.
  - split; [by apply server_check_resume_consistent | done].
Qed.

Lemma server_steps_consistent p q :
  Server.steps env p q ->
  well_formed (Server.ledger p) ->
  ledger_consistent (Server.ledger p) /\ Forall creation_validated (Server.creating p) ->
  well_formed (Server.ledger q)
  /\ ledger_consistent (Server.ledger q) /\ Forall creation_validated (Server.creating q).
Proof.
  induction 1 as [p | p q r Hsteps IH Hstep]; intros Hwf Hinv; [done |].
  destruct (IH Hwf Hinv) as [Hwfq Hinvq].
  split; [by apply (server_step_evolves env q r) |].
  by apply (server_step_consistent q r).
Qed.

(** X10: in every process that server.js can reach, whatever requests and
    answers arrive and however their handlers interleave, each entry of the
    store leads to an order object kept under its own id, with an amount
    above zero, a currency string, the status PENDING or PAID, the encoded
    payload, the fingerprint and the creation time; no entry hides a name
    inherited from [Object.prototype]; and the objects inherited from
    [Object.prototype] have been given no property. *)
Theorem server_reachable_ledger_is_consistent p :
  Server.reachable env p ->
  ledger_consistent (Server.ledger p)
  /\ (forall l, l < length Object_prototype_keys ->
        heap (Server.ledger p) !! l = Some ∅).
Proof.
  intros Hreach.
  destruct (server_steps_consistent _ _ Hreach init_well_formed)
    as ([Hbuiltin _] & Hcons & _).
  - split; [| apply Forall_nil_2]. intros orderId l Hl.
    cbn in Hl. by rewrite lookup_empty in Hl.
  - done.
Qed.

End ServerLedger.

(** ** Order ids *)

Lemma string_length_append (a b : string) :
  String.length (a +:+ b) = String.length a + String.length b.
Proof. induction a as [| c a IH]; simpl; [done | by rewrite IH]. Qed.

Lemma string_append_inj (a a' b b' : string) :
  String.length a = String.length a' ->
  a +:+ b = a' +:+ b' -> a = a' /\ b = b'.
Proof.
  revert a'. induction a as [| c a IH]; intros [| c' a']; simpl; try done.
  intros [= Hlen] [= -> Happ]. destruct (IH a' Hlen Happ) as [-> ->]. done.
Qed.

(** A padded field can be read back. *)
Lemma padded_field_2 (z : Z) :
  (0 <= z <= 99)%Z ->
  String.length (padStart 2 "0" (pretty z)) = 2
  /\ digits_value (padStart 2 "0" (pretty z)) = z.
Proof.
  intros Hz.
  assert (Hall : forallb
            (fun z => (String.length (padStart 2 "0" (pretty z)) =? 2)%nat
                      && (digits_value (padStart 2 "0" (pretty z)) =? z)%Z)
            (seqZ 0 100) = true) by (vm_compute; reflexivity).
  rewrite forallb_forall in Hall. specialize (Hall z).
  rewrite <- list_elem_of_In, elem_of_seqZ in Hall.
  apply andb_true_iff in Hall as [Hlen Hval]; [| lia].
  apply Nat.eqb_eq in Hlen. apply Z.eqb_eq in Hval. done.
Qed.

Lemma padded_field_3 (z : Z) :
  (0 <= z <= 999)%Z ->
  String.length (padStart 3 "0" (pretty z)) = 3
  /\ digits_value (padStart 3 "0" (pretty z)) = z.
Proof.
  intros Hz.
  assert (Hall : forallb
            (fun z => (String.length (padStart 3 "0" (pretty z)) =? 3)%nat
                      && (digits_value (padStart 3 "0" (pretty z)) =? z)%Z)
            (seqZ 0 1000) = true) by (vm_compute; reflexivity).
  rewrite forallb_forall in Hall. specialize (Hall z).
  rewrite <- list_elem_of_In, elem_of_seqZ in Hall.
  apply andb_true_iff in Hall as [Hlen Hval]; [| lia].
  apply Nat.eqb_eq in Hlen. apply Z.eqb_eq in Hval. done.
Qed.

(** X11: two generated order ids are equal exactly when they were drawn in
    the same second of the same day and [Math.floor(Math.random() * 1000)]
    gave the same number from 0 to 999: within one second there are at most
    a thousand distinct ids, and ids of different seconds never collide. *)
Theorem generateOrderId_collides_iff
    (now now' : DateParts) (random random' : number) (n n' : Z) :
  clock_in_range now -> clock_in_range now' ->
  Math_floor_toString (num_mul random (of_Z 1000)) = pretty n ->
  (0 <= n <= 999)%Z ->
  Math_floor_toString (num_mul random' (of_Z 1000)) = pretty n' ->
  (0 <= n' <= 999)%Z ->
  generateOrderId now random = generateOrderId now' random'
  <-> now = now' /\ n = n'.
Proof.
  intros (Hm & Hd & Hhh & Hmm & Hss) (Hm' & Hd' & Hhh' & Hmm' & Hss')
    Hn Hrange Hn' Hrange'.
  split; [| intros [-> ->]; unfold generateOrderId; by rewrite Hn, Hn'].
  unfold generateOrderId. rewrite Hn, Hn'.
  destruct (padded_field_2 (getMonth now + 1)) as [Lm Vm]; [lia |].
  destruct (padded_field_2 (getMonth now' + 1)) as [Lm' Vm']; [lia |].
  destruct (padded_field_2 (getDate now)) as [Ld Vd]; [lia |].
  destruct (padded_field_2 (getDate now')) as [Ld' Vd']; [lia |].
  destruct (padded_field_2 (getHours now)) as [Lhh Vhh]; [lia |].
  destruct (padded_field_2 (getHours now')) as [Lhh' Vhh']; [lia |].
  destruct (padded_field_2 (getMinutes now)) as [Lmm Vmm]; [lia |].
  destruct (padded_field_2 (getMinutes now')) as [Lmm' Vmm']; [lia |].
  destruct (padded_field_2 (getSeconds now)) as [Lss Vss]; [lia |].
  destruct (padded_field_2 (getSeconds now')) as [Lss' Vss']; [lia |].
  destruct (padded_field_3 n) as [Ln Vn]; [lia |].
  destruct (padded_field_3 n') as [Ln' Vn']; [lia |].
  revert Lm Vm Lm' Vm' Ld Vd Ld' Vd' Lhh Vhh Lhh' Vhh' Lmm Vmm Lmm' Vmm'
    Lss Vss Lss' Vss' Ln Vn Ln' Vn'.
  generalize (padStart 2 "0" (pretty (getMonth now + 1)%Z)).
  generalize (padStart 2 "0" (pretty (getMonth now' + 1)%Z)).
  generalize (padStart 2 "0" (pretty (getDate now))).
  generalize (padStart 2 "0" (pretty (getDate now'))).
  generalize (padStart 2 "0" (pretty (getHours now))).
  generalize (padStart 2 "0" (pretty (getHours now'))).
  generalize (padStart 2 "0" (pretty (getMinutes now))).
  generalize (padStart 2 "0" (pretty (getMinutes now'))).
  generalize (padStart 2 "0" (pretty (getSeconds now))).
  generalize (padStart 2 "0" (pretty (getSeconds now'))).
  generalize (padStart 3 "0" (pretty n)).
  generalize (padStart 3 "0" (pretty n')).
  intros r' r ss' ss mm' mm hh' hh d' d m' m.
  intros Lm Vm Lm' Vm' Ld Vd Ld' Vd' Lhh Vhh Lhh' Vhh' Lmm Vmm Lmm' Vmm'
    Lss Vss Lss' Vss' Ln Vn Ln' Vn' Heq.
  apply (string_append_inj "CAFE-" "CAFE-") in Heq as [_ Heq]; [| done].
  assert (Hlen : String.length (pretty (getFullYear now))
                 = String.length (pretty (getFullYear now'))).
  { apply (f_equal String.length) in Heq.
    rewrite !string_length_append in Heq. simpl in Heq. lia. }
  apply string_append_inj in Heq as [Hy Heq]; [| done].
  apply string_append_inj in Heq as [Em Heq]; [| congruence].
  apply string_append_inj in Heq as [Ed Heq]; [| congruence].
  apply string_append_inj in Heq as [Ehh Heq]; [| congruence].
  apply string_append_inj in Heq as [Emm Heq]; [| congruence].
  apply string_append_inj in Heq as [Ess Heq]; [| congruence].
  apply (string_append_inj "-" "-") in Heq as [_ Er]; [| done].
  apply (inj pretty) in Hy.
  split; [| congruence].
  destruct now as [y1 mo1 d1 h1 mi1 s1], now' as [y2 mo2 d2 h2 mi2 s2].
  cbn in *.
  assert (mo1 + 1 = mo2 + 1)%Z by congruence.
  f_equal; try congruence; lia.
Qed.

(** ** Creation in part_003 *)

Section Part003Creation.
Context `{JsBuiltins} (env : ProcessEnv).
Implicit Types (st : State) (w : Part003.World) (body : JsValue).

(** Everything a creation of part_003 has checked and computed when it
    reaches the rendering of the QR image. *)
Lemma part003_create_validated w body (k : Part003.CreateCont) :
  Part003.create_khqr_begin env w body = Await k ->
  exists amount currency options khqrResult,
    Get body "amount" = Ok amount
    /\ Get body "currency" = Ok currency
    /\ Part003.amount_rejected amount = Ok false
    /\ call_toUpperCase (js_or currency (JStr (Part003.DEFAULT_CURRENCY env)))
       = Ok (Part003.c_cur k)
    /\ Part003.supported (Part003.c_cur k) = true
    /\ includes_char (default "" (Part003.BAKONG_ACCOUNT_ID env)) "@" = true
    /\ Part003.c_orderId k
       = generateOrderId (Part003.new_Date w) (Part003.Math_random w)
    /\ Part003.khqrAmount_of (Part003.c_cur k) amount = Ok (Part003.c_khqrAmount k)
    /\ Part003.KHQR_generate w options = Ok khqrResult
    /\ Part003.amount options = Part003.c_khqrAmount k
    /\ Part003.billNumber options = Part003.c_orderId k
    /\ Part003.currency options
       = (if String.eqb (Part003.c_cur k) "USD" then usd else khr)
    /\ Part003.khqrString_of khqrResult = JStr (Part003.c_khqrString k)
    /\ Part003.c_khqrString k <> ""
    /\ Part003.c_md5 k = Part003.md5_hex w (Part003.c_khqrString k).
Proof.
  unfold Part003.create_khqr_begin.
  destruct (Get body "amount") as [amount | ?] eqn:Eamount;
    cbn [bind try_catch]; [| discriminate].
  destruct (Get body "currency") as [currency | ?] eqn:Ecurrency;
    cbn [bind try_catch]; [| discriminate].
  destruct (Part003.amount_rejected amount) as [[|] | ?] eqn:Erejected;
    cbn [bind try_catch]; [discriminate | | discriminate].
  destruct (call_toUpperCase (js_or currency (JStr (Part003.DEFAULT_CURRENCY env))))
    as [cur | ?] eqn:Eupper; cbn [bind try_catch]; [| discriminate].
  destruct (Part003.supported cur) eqn:Esup; cbn [negb try_catch];
    [| discriminate].
  destruct (Part003.opt_falsy (Part003.BAKONG_ACCOUNT_ID env)
            || negb (includes_char (default "" (Part003.BAKONG_ACCOUNT_ID env)) "@"))
    eqn:Eaccount; cbn [try_catch]; [discriminate |].
  apply orb_false_iff in Eaccount as [_ Eaccount].
  apply negb_false_iff in Eaccount.
  destruct (Part003.khqrAmount_of cur amount) as [khqrAmount | ?] eqn:Ekhqr;
    cbn [bind try_catch]; [| discriminate].
  destruct (Part003.KHQR_generate w _) as [khqrResult | ?] eqn:Egen;
    cbn [bind try_catch]; [| discriminate].
  destruct (truthy (Part003.khqrString_of khqrResult)) eqn:Etruthy;
    cbn [negb try_catch]; [| discriminate].
  destruct (Part003.khqrString_of khqrResult) as [| | | | s | |] eqn:Estring;
    cbn [try_catch]; try discriminate.
  intros [= <-].
  cbn [Part003.c_cur Part003.c_orderId Part003.c_khqrAmount
       Part003.c_khqrString Part003.c_md5].
  eexists amount, currency, _, khqrResult.
  do 8 (split; [done |]).
  split; [exact Egen |].
  cbn [Part003.amount Part003.billNumber Part003.currency].
  do 4 (split; [done |]).
  split; [| done].
  intros ->. discriminate.
Qed.

Lemma part003_create_done w body r :
  Part003.create_khqr_begin env w body = Done r ->
  r = Part003.invalid_amount \/ r = Part003.invalid_currency
  \/ r = Part003.invalid_account \/ r = Part003.generate_failed
  \/ r = Part003.create_error.
Proof.
  unfold Part003.create_khqr_begin.
  destruct (Get body "amount") as [amount | ?]; cbn [bind try_catch];
    [| intros [= <-]; tauto].
  destruct (Get body "currency") as [currency | ?]; cbn [bind try_catch];
    [| intros [= <-]; tauto].
  destruct (Part003.amount_rejected amount) as [[|] | ?]; cbn [bind try_catch];
    [intros [= <-]; tauto | | intros [= <-]; tauto].
  destruct (call_toUpperCase _) as [cur | ?]; cbn [bind try_catch];
    [| intros [= <-]; tauto].
  destruct (negb (Part003.supported cur)); cbn [try_catch];
    [intros [= <-]; tauto |].
  destruct (_ || _); cbn [try_catch]; [intros [= <-]; tauto |].
  destruct (Part003.khqrAmount_of cur amount) as [khqrAmount | ?];
    cbn [bind try_catch]; [| intros [= <-]; tauto].
  destruct (Part003.KHQR_generate w _) as [khqrResult | ?];
    cbn [bind try_catch]; [| intros [= <-]; tauto].
  destruct (negb (truthy (Part003.khqrString_of khqrResult)));
    cbn [try_catch]; [intros [= <-]; tauto |].
  destruct (Part003.khqrString_of khqrResult); cbn [try_catch];
    try (intros [= <-]; tauto); discriminate.
Qed.

(** X13: a creation of part_003 either answers 200, and then exactly one
    order was stored, or answers 400 or 500 with [ok: false], and then the
    ledger is as it was. *)
Theorem part003_create_stores_iff_created
    w body (toDataURL : Completion string) st :
  let result := Part003.create_khqr env w body toDataURL st in
  (exists k qrPngDataUrl,
     Part003.create_khqr_begin env w body = Await k
     /\ toDataURL = Ok qrPngDataUrl
     /\ result.1 = Part003.created k qrPngDataUrl
     /\ code result.1 = 200
     /\ result.2 = store_order st (Part003.c_orderId k) (Part003.new_order k))
  \/ ((code result.1 = 400 \/ code result.1 = 500)
      /\ own_property (json result.1) "ok" = Some (JBool false)
      /\ result.2 = st).
Proof.
  cbn zeta. unfold Part003.create_khqr.
  destruct (Part003.create_khqr_begin env w body) as [r | k] eqn:Ebegin.
  - right. cbn [fst snd].
    destruct (part003_create_done w body r Ebegin)
      as [-> | [-> | [-> | [-> | ->]]]]; cbn; tauto.
  - destruct toDataURL as [qrPngDataUrl | ?];
      cbn [Part003.create_khqr_resume fst snd].
    + left. by exists k, qrPngDataUrl.
    + right. cbn. tauto.
Qed.

(** X14: the order that part_003 stores has been validated: its currency
    is USD or KHR, its payload is a non-empty string, its fingerprint is the
    MD5 digest of that payload, and its amount is the one handed to the
    encoder; the answer returns the same payload and fingerprint. *)
Theorem part003_stored_order_is_validated
    w body (k : Part003.CreateCont) (qrPngDataUrl : string) st :
  Part003.create_khqr_begin env w body = Await k ->
  let result := Part003.create_khqr_resume k (Ok qrPngDataUrl) st in
  let l := length (heap st) in
  exists (cur khqrString : string) (khqrAmount : number),
    ORDERS result.2 !! Part003.c_orderId k = Some l
    /\ get_prop (heap result.2) l "currency" = JStr cur
    /\ (cur = "USD" \/ cur = "KHR")
    /\ get_prop (heap result.2) l "khqrString" = JStr khqrString
    /\ khqrString <> ""
    /\ get_prop (heap result.2) l "md5" = JStr (Part003.md5_hex w khqrString)
    /\ get_prop (heap result.2) l "amount" = JNum khqrAmount
    /\ get_prop (heap result.2) l "status" = JStr "PENDING"
    /\ own_property (json result.1) "qrString" = Some (JStr khqrString)
    /\ own_property (json result.1) "md5"
       = Some (JStr (Part003.md5_hex w khqrString))
    /\ exists options khqrResult,
         Part003.KHQR_generate w options = Ok khqrResult
         /\ Part003.amount options = khqrAmount
         /\ Part003.currency options = (if String.eqb cur "USD" then usd else khr).
Proof.
  intros Hbegin result l.
  destruct (part003_create_validated w body k Hbegin)
    as (amount & currency & options & khqrResult & _ & _ & _ & _ & Hsup & _ & _
        & _ & Hgen & Hamount & _ & Hcurrency & _ & Hnonempty & Hmd5).
  assert (Hprop : forall key v,
            Part003.new_order k !! key = Some v ->
            get_prop (heap result.2) l key = v).
  { intros key v Hkey. subst result l. cbn [Part003.create_khqr_resume snd].
    cbn [store_order heap]. by apply get_prop_new. }
  exists (Part003.c_cur k), (Part003.c_khqrString k), (Part003.c_khqrAmount k).
  rewrite (Hprop "currency" (JStr (Part003.c_cur k))) by (vm_compute; reflexivity).
  rewrite (Hprop "khqrString" (JStr (Part003.c_khqrString k)))
    by (vm_compute; reflexivity).
  rewrite (Hprop "md5" (JStr (Part003.c_md5 k))) by (vm_compute; reflexivity).
  rewrite (Hprop "amount" (JNum (Part003.c_khqrAmount k)))
    by (vm_compute; reflexivity).
  rewrite (Hprop "status" (JStr "PENDING")) by (vm_compute; reflexivity).
  split; [apply lookup_insert_eq |].
  split; [done |].
  split.
  { unfold Part003.supported in Hsup. apply orb_true_iff in Hsup as [E | E];
      apply String.eqb_eq in E; auto. }
  split; [done |]. split; [done |].
  split; [by rewrite Hmd5 |].
  split; [done |]. split; [done |].
  split; [done |].
  split; [cbn; by rewrite Hmd5 |].
  by exists options, khqrResult.
Qed.

End Part003Creation.

(** ** An empty answer of the settlement authority *)

Section EmptyAnswer.
Context `{JsBuiltins} (env : ProcessEnv).

(** X15: when the request to the settlement authority succeeds with a falsy
    body, server.js and part_002 answer 200 with the stored status and
    leave the ledger alone.  part_003 reads [data.responseCode] unguarded:
    it does the same for the falsy primitives but answers 500 when the body
    is [null] or [undefined].  In no case does the ledger change. *)
Theorem empty_settlement_answer
    (data : JsValue) (k : Server.CheckCont) (k2 : Part002.CheckCont)
    (k3 : Part003.CheckCont) (st : State) :
  truthy data = false ->
  Server.check_payment_resume k (Ok data) st
    = (Server.order_status (heap st) (Server.k_order k), st)
  /\ Part002.check_payment_resume k2 (Ok data) st
     = (Part002.order_status (heap st) (Part002.k_order k2), st)
  /\ Part003.check_payment_resume k3 (Ok data) st
     = (match data with
        | JNull | JUndefined => Part003.check_error
        | _ => Part003.order_status (heap st) (Part003.k_order k3)
        end, st).
Proof.
  intros Hfalsy.
  unfold Server.check_payment_resume, Server.reconcile, Server.settlement_matched,
    Part002.check_payment_resume, Part002.reconcile, Part002.settlement_matched,
    Part003.check_payment_resume, Part003.reconcile, Part003.settlement_matched.
  cbn [bind]. rewrite Hfalsy. cbn [bind try_catch]. rewrite state_eta.
  split; [done |]. split; [done |].
  by destruct data as [| | b | x | s | items | props]; try discriminate;
    cbn [Get bind try_catch strict_eq]; rewrite ?state_eta.
Qed.

End EmptyAnswer.

(** ** Creation in part_002 *)

Section Part002Creation.
Context `{JsBuiltins} (env : ProcessEnv).
Implicit Types (st : State) (w : Part002.World) (body : JsValue).

Lemma part002_create_done w body r :
  Part002.create_khqr_begin env w body = Done r ->
  r = Part002.invalid_amount \/ r = Part002.invalid_account
  \/ (exists result, r = Part002.generate_failed result)
  \/ r = Part002.create_error.
Proof.
  unfold Part002.create_khqr_begin.
  destruct (Get body "amount") as [amount0 | ?]; cbn [bind try_catch];
    [| intros [= <-]; tauto].
  destruct (Get body "currency") as [currency | ?]; cbn [bind try_catch];
    [| intros [= <-]; tauto].
  destruct (ToNumber _) as [amount | ?]; cbn [bind try_catch];
    [| intros [= <-]; tauto].
  destruct (_ || _); cbn [try_catch]; [intros [= <-]; tauto |].
  destruct (_ || _); cbn [try_catch]; [intros [= <-]; tauto |].
  destruct (call_toUpperCase _) as [currencyCode | ?]; cbn [bind try_catch];
    [| intros [= <-]; tauto].
  destruct (Part002.generateIndividual w _) as [result | ?];
    cbn [bind try_catch]; [| intros [= <-]; tauto].
  destruct (Server.generate_rejected result) as [[|] | ?];
    cbn [bind try_catch]; [intros [= <-]; eauto | | intros [= <-]; tauto].
  destruct (Get result "data") as [data | ?]; cbn [bind try_catch];
    [| intros [= <-]; tauto].
  destruct (Get data "qr") as [qr | ?]; cbn [bind try_catch];
    [| intros [= <-]; tauto].
  destruct (Get data "md5") as [md5 | ?]; cbn [bind try_catch];
    [| intros [= <-]; tauto].
  by destruct (Part002.debug_decode w qr).
Qed.

(** X16: a creation of part_002 either answers 200, and then exactly one
    order was stored, or answers 400 or 500 with [ok: false], and then the
    ledger is as it was.  The answer to a successful creation carries
    neither the encoded payload nor the fingerprint: the fingerprint is kept
    in the stored order only. *)
Theorem part002_create_stores_iff_created
    w body (toDataURL : Completion string) (toISOString : string) st :
  let result := Part002.create_khqr env w body toDataURL toISOString st in
  (exists k qrImage,
     Part002.create_khqr_begin env w body = Await k
     /\ toDataURL = Ok qrImage
     /\ code result.1 = 200
     /\ own_property (json result.1) "qrImage" = Some (JStr qrImage)
     /\ own_property (json result.1) "md5" = None
     /\ own_property (json result.1) "qrString" = None
     /\ result.2 = store_order st (Part002.c_orderId k)
                     (Part002.new_order k toISOString)
     /\ get_prop (heap result.2) (length (heap st)) "md5" = Part002.c_md5 k)
  \/ ((code result.1 = 400 \/ code result.1 = 500)
      /\ own_property (json result.1) "ok" = Some (JBool false)
      /\ result.2 = st).
Proof.
  cbn zeta. unfold Part002.create_khqr.
  destruct (Part002.create_khqr_begin env w body) as [r | k] eqn:Ebegin.
  - right. cbn [fst snd].
    destruct (part002_create_done w body r Ebegin)
      as [-> | [-> | [[result ->] | ->]]]; cbn; tauto.
  - destruct toDataURL as [qrImage | ?];
      cbn [Part002.create_khqr_resume fst snd].
    + left. exists k, qrImage. do 6 (split; [done |]). split; [done |].
      cbn [store_order heap]. apply get_prop_new. by vm_compute.
    + right. cbn. tauto.
Qed.

End Part002Creation.

(** ** Names inherited from [Object.prototype] in part_002 *)

Section Part002Inherited.
Context (env : ProcessEnv).

(** X18: in part_002 one status check of the id [__proto__] that the
    settlement authority answers with a matched record writes [status] on
    [Object.prototype] itself; from then on the status check of every name
    inherited from [Object.prototype] that is not an order id is answered
    PAID, without contacting the authority. *)
Theorem part002_inherited_names_become_paid
    (st : State) (data : JsValue) (orderId : string)
    (authority : JsValue -> Completion JsValue) :
  well_formed st ->
  ORDERS st !! "__proto__" = None ->
  str_falsy (Part002.BAKONG_TOKEN env)
  || String.eqb (Part002.BAKONG_TOKEN env) "YOUR_BAKONG_API_TOKEN_HERE" = false ->
  Part002.settlement_matched data = Ok true ->
  orderId ∈ Object_prototype_keys ->
  ORDERS st !! orderId = None ->
  let st' := (Part002.check_payment env (fun _ => Ok data) st "__proto__").2 in
  heap st' = set_prop (heap st) Object_prototype "status" (JStr "PAID")
  /\ exists l,
       Part002.check_payment env authority st' orderId
       = (Part002.already_paid (heap st') l, false, st').
Proof.
  intros [Hbuiltin _] Hproto Htoken Hmatched Hname Hfree.
  assert (Hfirst : (Part002.check_payment env (fun _ => Ok data) st "__proto__").2
                   = {| ORDERS := ORDERS st;
                        heap := set_prop (heap st) Object_prototype "status"
                                  (JStr "PAID") |}).
  { unfold Part002.check_payment, Part002.check_payment_begin, lookup_order.
    rewrite Hproto. cbn [inherited index_of Object_prototype_keys String.eqb
                         Ascii.eqb Bool.eqb].
    assert (Hstatus : get_prop (heap st) 0 "status" = JUndefined).
    { unfold get_prop. rewrite (Hbuiltin 0) by (unfold Object_prototype_keys; cbn; lia).
      rewrite lookup_empty. unfold Object_prototype.
      rewrite (Hbuiltin 0) by (unfold Object_prototype_keys; cbn; lia). by rewrite lookup_empty. }
    rewrite Hstatus. cbn [strict_eq]. rewrite Htoken.
    unfold Part002.check_payment_resume, Part002.reconcile.
    cbn [bind Part002.k_order]. rewrite Hmatched. by cbn. }
  cbn zeta. rewrite Hfirst. cbn [heap]. split; [done |].
  destruct (inherited orderId) as [l |] eqn:Hl;
    [| by apply index_of_None in Hl].
  exists l.
  unfold Part002.check_payment, Part002.check_payment_begin, lookup_order.
  cbn [ORDERS heap]. rewrite Hfree, Hl.
  assert (Hlt : l < length Object_prototype_keys) by by eapply index_of_bound.
  assert (Hpaid : get_prop (set_prop (heap st) Object_prototype "status" (JStr "PAID"))
                    l "status" = JStr "PAID").
  { destruct (decide (l = Object_prototype)) as [-> | Hne].
    - apply (get_prop_set_same _ _ ∅). apply Hbuiltin. unfold Object_prototype, Object_prototype_keys. cbn. lia.
    - unfold get_prop. rewrite set_prop_lookup_ne by done.
      rewrite (Hbuiltin l Hlt), lookup_empty.
      rewrite set_prop_lookup, (Hbuiltin Object_prototype)
        by (unfold Object_prototype, Object_prototype_keys; cbn; lia).
      cbn. by rewrite lookup_insert_eq. }
  rewrite Hpaid. cbn [strict_eq]. by rewrite String.eqb_refl.
Qed.

End Part002Inherited.

(** ** The serverless handlers *)

Section ServerlessHandlers.
Context `{JsBuiltins} (env : ProcessEnv).
Implicit Types (req : Serverless.Request) (w : Part002.World).

(** The condition [data && data.responseCode === 0 && data.data] never
    throws: the guard keeps [null] and [undefined] away from the property
    reads. *)
Lemma settlement_matched_total (data : JsValue) :
  exists paid, Part002.settlement_matched data = Ok paid.
Proof.
  unfold Part002.settlement_matched.
  destruct (truthy data) eqn:Htruthy; [| eauto].
  destruct data as [| | b | x | s | items | props]; try discriminate;
    cbn [Get bind]; destruct (strict_eq _ _); cbn [bind]; eauto.
Qed.

(** [req.body || {}] can always be destructured. *)
Lemma Get_body_or_empty (body : JsValue) (key : string) :
  exists v, Get (js_or body (JObj [])) key = Ok v.
Proof.
  unfold js_or. destruct (truthy body) eqn:Htruthy; [| cbn; eauto].
  destruct body as [| | b | x | s | items | props]; try discriminate;
    cbn [Get]; eauto.
Qed.

Lemma serverless_create_done w req r :
  Serverless.create_begin env w req = Done r ->
  Serverless.headers r = Serverless.cors_headers.
Proof.
  unfold Serverless.create_begin.
  destruct (String.eqb _ "OPTIONS"); [by intros [= <-] |].
  destruct (negb _); [by intros [= <-] |].
  destruct (Get _ "amount") as [amount0 | ?]; cbn [bind try_catch];
    [| by intros [= <-]].
  destruct (Get _ "currency") as [currency | ?]; cbn [bind try_catch];
    [| by intros [= <-]].
  destruct (ToNumber _) as [amount | ?]; cbn [bind try_catch];
    [| by intros [= <-]].
  destruct (_ || _); cbn [try_catch]; [by intros [= <-] |].
  destruct (_ || _); cbn [try_catch]; [by intros [= <-] |].
  destruct (call_toUpperCase _) as [currencyCode | ?]; cbn [bind try_catch];
    [| by intros [= <-]].
  destruct (Part002.generateIndividual w _) as [result | ?];
    cbn [bind try_catch]; [| by intros [= <-]].
  destruct (Server.generate_rejected result) as [[|] | ?];
    cbn [bind try_catch]; [by intros [= <-] | | by intros [= <-]].
  destruct (Get result "data") as [data | ?]; cbn [bind try_catch];
    [| by intros [= <-]].
  destruct (Get data "qr") as [qr | ?]; cbn [bind try_catch];
    [| by intros [= <-]].
  destruct (Get data "md5") as [md5 | ?]; cbn [bind try_catch];
    [discriminate | by intros [= <-]].
Qed.

(** X19: every answer of the two serverless handlers carries the three
    CORS headers, on every path; and a request whose method is not POST is
    answered the same by both, without reading the body or the environment:
    200 with no body for OPTIONS, 405 for any other method. *)
Theorem serverless_answers_carry_cors
    w req (toDataURL : Completion string) (axios_post : Completion JsValue) :
  let create_answer :=
    match Serverless.create_begin env w req with
    | Done r => r
    | Await k => Serverless.create_resume k toDataURL
    end in
  let check_answer :=
    match Serverless.check_begin env req with
    | Done r => r
    | Await k => Serverless.check_resume axios_post
    end in
  Serverless.headers create_answer = Serverless.cors_headers
  /\ Serverless.headers check_answer = Serverless.cors_headers
  /\ (Serverless.method req <> "POST" ->
      create_answer = check_answer
      /\ create_answer
         = (if String.eqb (Serverless.method req) "OPTIONS"
            then Serverless.reply 200 None
            else Serverless.reply 405
                   (Some [("ok", JBool false);
                          ("error", JStr "Method not allowed")]))).
Proof.
  cbn zeta. split; [| split].
  - destruct (Serverless.create_begin env w req) as [r | k] eqn:Ebegin.
    + by eapply serverless_create_done.
    + by destruct toDataURL.
  - unfold Serverless.check_begin.
    destruct (String.eqb _ "OPTIONS"); [done |].
    destruct (negb _); [done |].
    destruct (Get_body_or_empty (Serverless.body req) "md5") as [md5 ->].
    cbn [bind try_catch].
    destruct (negb (truthy md5)); [done |].
    destruct (str_falsy _); [done |].
    unfold Serverless.check_resume.
    destruct axios_post as [data | ?]; cbn [bind try_catch]; [| done].
    destruct (settlement_matched_total data) as [paid ->]. done.
  - intros Hmethod. apply String.eqb_neq in Hmethod.
    unfold Serverless.create_begin, Serverless.check_begin.
    rewrite Hmethod. cbn [negb].
    by destruct (String.eqb _ "OPTIONS").
Qed.

(** X20: the serverless status check contacts the settlement authority
    exactly for a POST request whose body has a truthy [md5] while a token
    is configured, and what it asks about is that [md5]; a missing [md5] is
    answered 400 and a missing token 200 PENDING before any request is
    made. *)
Theorem serverless_check_contacts_iff req (k : Serverless.CheckCont) :
  Serverless.check_begin env req = Await k
  <-> Serverless.method req = "POST"
      /\ Get (js_or (Serverless.body req) (JObj [])) "md5" = Ok (Serverless.k_md5 k)
      /\ truthy (Serverless.k_md5 k) = true
      /\ Serverless.BAKONG_TOKEN env <> "".
Proof.
  unfold Serverless.check_begin.
  destruct (String.eqb_spec (Serverless.method req) "OPTIONS") as [Hopt | _].
  { split; [discriminate |]. intros (Hpost & _). congruence. }
  destruct (String.eqb_spec (Serverless.method req) "POST") as [Hpost | Hnot];
    cbn [negb]; [| split; [discriminate | by intros (? & _)]].
  destruct (Get_body_or_empty (Serverless.body req) "md5") as [md5 ->].
  cbn [bind try_catch].
  destruct (truthy md5) eqn:Htruthy; cbn [negb].
  - unfold str_falsy.
    destruct (String.eqb_spec (Serverless.BAKONG_TOKEN env) "") as [Hempty | Htoken].
    + split; [discriminate |]. by intros (_ & _ & _ & ?).
    + split.
      * intros [= <-]. by cbn.
      * intros (_ & [= ->] & _ & _). by destruct k.
  - split; [discriminate |]. intros (_ & [= ->] & Hk & _). congruence.
Qed.

(** X21: once the settlement authority has answered, the serverless status
    check answers 200, never 500, and reports PAID exactly when the answer
    is a matched record ([data && data.responseCode === 0 && data.data]),
    whatever amount and currency the record carries; otherwise it reports
    PENDING.  A request that fails is answered 500. *)
Theorem serverless_check_answer (data : JsValue) (reason : string) :
  Serverless.status (Serverless.check_resume (Ok data)) = 200
  /\ (exists paid,
        Part002.settlement_matched data = Ok paid
        /\ Serverless.payload (Serverless.check_resume (Ok data))
           = Some [("ok", JBool true);
                   ("status", JStr (if paid then "PAID" else "PENDING"));
                   ("raw", JUndefined)])
  /\ Serverless.check_resume (Throw reason) = Serverless.server_error
  /\ Serverless.status Serverless.server_error = 500.
Proof.
  unfold Serverless.check_resume. cbn [bind].
  destruct (settlement_matched_total data) as [paid Hpaid].
  rewrite Hpaid. cbn [bind try_catch]. split; [done |].
  split; [by exists paid | done].
Qed.

(** X22: on a POST request the serverless creation decides as the creation
    of part_002 does on the body [req.body || {}]: both refuse, with the
    same status, the same [ok] and the same [detail], or both go on to
    render the QR image for the same order id, amount, currency and
    fingerprint. *)
Theorem serverless_create_agrees_with_part002 w req :
  Serverless.method req = "POST" ->
  match Serverless.create_begin env w req,
        Part002.create_khqr_begin env w (js_or (Serverless.body req) (JObj []))
  with
  | Await k, Await k2 =>
      Serverless.c_orderId k = Part002.c_orderId k2
      /\ Serverless.c_amount k = Part002.c_amount k2
      /\ Serverless.c_currencyCode k = Part002.c_currencyCode k2
      /\ Serverless.c_md5 k = Part002.c_md5 k2
  | Done r, Done r2 =>
      Serverless.status r = code r2
      /\ exists props,
           Serverless.payload r = Some props
           /\ own_property props "ok" = own_property (json r2) "ok"
           /\ own_property props "detail" = own_property (json r2) "detail"
  | _, _ => False
  end.
Proof.
  intros Hpost.
  unfold Serverless.create_begin, Part002.create_khqr_begin.
  rewrite Hpost. cbn [String.eqb Ascii.eqb Bool.eqb negb].
  unfold Serverless.BAKONG_ACCOUNT_ID, Part002.BAKONG_ACCOUNT_ID,
    Serverless.MERCHANT_NAME, Part002.MERCHANT_NAME,
    Serverless.MERCHANT_CITY, Part002.MERCHANT_CITY,
    Serverless.DEFAULT_CURRENCY, Part002.DEFAULT_CURRENCY.
  destruct (Get _ "amount") as [amount0 | ?]; cbn [bind try_catch];
    [| split; [done | by eexists]].
  destruct (Get _ "currency") as [currency | ?]; cbn [bind try_catch];
    [| split; [done | by eexists]].
  destruct (ToNumber _) as [amount | ?]; cbn [bind try_catch];
    [| split; [done | by eexists]].
  destruct (_ || _); cbn [try_catch]; [split; [done | by eexists] |].
  destruct (_ || _); cbn [try_catch]; [split; [done | by eexists] |].
  destruct (call_toUpperCase _) as [currencyCode | ?]; cbn [bind try_catch];
    [| split; [done | by eexists]].
  destruct (Part002.generateIndividual w _) as [result | ?];
    cbn [bind try_catch]; [| split; [done | by eexists]].
  destruct (Server.generate_rejected result) as [[|] | ?];
    cbn [bind try_catch]; [split; [done | by eexists] |
                           | split; [done | by eexists]].
  destruct (Get result "data") as [data | ?]; cbn [bind try_catch];
    [| split; [done | by eexists]].
  destruct (Get data "qr") as [qr | ?]; cbn [bind try_catch];
    [| split; [done | by eexists]].
  destruct (Get data "md5") as [md5 | ?]; cbn [bind try_catch];
    [| split; [done | by eexists]].
  by destruct (Part002.debug_decode w qr).
Qed.

(** X23: the fingerprint round trip of the serverless handlers: the [md5]
    that a successful creation returns, posted back as [{ md5 }], is the
    fingerprint the status check asks the settlement authority about; when
    the encoder returned no usable [md5] the check is answered 400. *)
Theorem serverless_fingerprint_round_trip
    (k : Serverless.CreateCont) (qrImage : string) :
  let answer := Serverless.create_resume k (Ok qrImage) in
  let md5 := Serverless.c_md5 k in
  Serverless.status answer = 200
  /\ (exists props,
        Serverless.payload answer = Some props
        /\ own_property props "md5" = Some md5)
  /\ Serverless.check_begin env
       {| Serverless.method := "POST"; Serverless.body := JObj [("md5", md5)] |}
     = (if negb (truthy md5) then Done Serverless.missing_md5
        else if str_falsy (Serverless.BAKONG_TOKEN env)
        then Done Serverless.token_not_set
        else Await {| Serverless.k_md5 := md5 |}).
Proof.
  cbn zeta. split; [done |]. split; [by eexists |].
  unfold Serverless.check_begin.
  cbn [Serverless.method Serverless.body String.eqb Ascii.eqb Bool.eqb negb
       js_or truthy Get own_property default bind try_catch].
  unfold id.
  destruct (truthy (Serverless.c_md5 k)) eqn:Htruthy; cbn [negb bind try_catch];
    [| done].
  by destruct (str_falsy _).
Qed.

End ServerlessHandlers.

(** ** Status checks in part_003 *)

Section Part003Checking.
Context `{JsBuiltins} (env : ProcessEnv).
Implicit Types (st : State) (h : list Obj) (l : loc) (data : JsValue).

(** What the reconciliation block of part_003 has verified when it writes
    the status. *)
Lemma part003_reconcile_verified h l data h' :
  Part003.reconcile h l data = Ok h' ->
  h' = h
  \/ (h' = set_prop h l "status" (JStr "PAID")
      /\ Part003.settlement_matched data = Ok true
      /\ exists record amount0 paidAmount paidCurrency stored,
           Get data "data" = Ok record
           /\ Get record "amount" = Ok amount0
           /\ ToNumber amount0 = Ok paidAmount
           /\ Get record "currency" = Ok paidCurrency
           /\ strict_eq paidCurrency (get_prop h l "currency") = true
           /\ ToNumber (get_prop h l "amount") = Ok stored
           /\ num_lt (Math_abs (num_sub paidAmount stored)) (decimal 1 4) = true).
Proof.
  unfold Part003.reconcile.
  destruct (Part003.settlement_matched data) as [[|] | ?]; cbn [bind];
    [| intros [= <-]; by left | discriminate].
  destruct (Get data "data") as [record | ?] eqn:Erecord; cbn [bind];
    [| discriminate].
  destruct (Get record "amount") as [amount0 | ?] eqn:Eamount0; cbn [bind];
    [| discriminate].
  destruct (ToNumber amount0) as [paidAmount | ?] eqn:Epaid; cbn [bind];
    [| discriminate].
  destruct (Get record "currency") as [paidCurrency | ?] eqn:Ecurrency;
    cbn [bind]; [| discriminate].
  unfold Part003.amounts_agree.
  destruct (strict_eq paidCurrency (get_prop h l "currency")) eqn:Ecur;
    cbn [bind]; [| intros [= <-]; by left].
  destruct (ToNumber (get_prop h l "amount")) as [stored | ?] eqn:Estored;
    cbn [bind]; [| discriminate].
  destruct (num_lt (Math_abs (num_sub paidAmount stored)) (decimal 1 4)) eqn:Elt;
    [| intros [= <-]; by left].
  intros [= <-]. right. split; [done |]. split; [done |].
  by exists record, amount0, paidAmount, paidCurrency, stored.
Qed.

(** X25: part_003 answers a status check with PAID only with a reason: the
    order was already stored as PAID, or the settlement authority, asked
    about the order's fingerprint, returned a matched record whose currency
    is the stored one and whose amount is within 0.0001 of the stored one.
    The ledger changes in the second case only, and then only the status of
    the order looked up. *)
Theorem part003_paid_answer_is_justified
    (authority : JsValue -> Completion JsValue) st orderId :
  let result := Part003.check_payment env authority st orderId in
  (own_property (json result.1.1) "status" = Some (JStr "PAID") ->
   exists l,
     lookup_order st orderId = Some l
     /\ (get_prop (heap st) l "status" = JStr "PAID"
         \/ (result.1.2 = true
             /\ exists data record amount0 paidAmount paidCurrency stored,
                  authority (get_prop (heap st) l "md5") = Ok data
                  /\ Part003.settlement_matched data = Ok true
                  /\ Get data "data" = Ok record
                  /\ Get record "amount" = Ok amount0
                  /\ ToNumber amount0 = Ok paidAmount
                  /\ Get record "currency" = Ok paidCurrency
                  /\ strict_eq paidCurrency (get_prop (heap st) l "currency") = true
                  /\ ToNumber (get_prop (heap st) l "amount") = Ok stored
                  /\ num_lt (Math_abs (num_sub paidAmount stored)) (decimal 1 4)
                     = true)))
  /\ (result.2 = st
      \/ (result.1.2 = true
          /\ ORDERS result.2 = ORDERS st
          /\ exists l,
               lookup_order st orderId = Some l
               /\ heap result.2 = set_prop (heap st) l "status" (JStr "PAID"))).
Proof.
  cbn zeta. unfold Part003.check_payment, Part003.check_payment_begin.
  destruct (lookup_order st orderId) as [l |]; [| split; [discriminate | by left]].
  destruct (strict_eq (get_prop (heap st) l "status") (JStr "PAID")) eqn:Epaid.
  { split; [| by left]. intros _. exists l. split; [done |]. left.
    by apply strict_eq_JStr. }
  destruct (_ || _); [split; [discriminate | by left] |].
  unfold Part003.check_payment_resume. cbn [Part003.k_order Part003.k_md5].
  destruct (authority (get_prop (heap st) l "md5")) as [data | ?] eqn:Eanswer;
    cbn [bind try_catch fst snd]; [| split; [discriminate | by left]].
  destruct (Part003.reconcile (heap st) l data) as [h' | ?] eqn:Erec;
    cbn [bind try_catch fst snd]; [| split; [discriminate | by left]].
  apply part003_reconcile_verified in Erec
    as [-> | (-> & Hmatched & record & amount0 & paidAmount & paidCurrency
              & stored & Hfacts)].
  - split; [| left; apply state_eta].
    cbn. intros [= Hstatus]. apply strict_eq_JStr in Hstatus. congruence.
  - split.
    + intros _. exists l. split; [done |]. right. split; [done |].
      exists data, record, amount0, paidAmount, paidCurrency, stored.
      by split; [| split].
    + right. split; [done |]. split; [done |]. by exists l.
Qed.

End Part003Checking.

(** ** The further properties at concrete inputs *)

(** The run of the examples: a creation suspends and resumes, then a status
    check suspends and resumes with a settled payment. *)
Lemma example_run_is_reachable :
  @Server.reachable Examples.runtime Examples.env_live Examples.p_paid.
Proof.
  assert (Hcreated : @Server.reachable Examples.runtime Examples.env_live
                       Examples.p_created).
  { apply (@Server.steps_step Examples.runtime _ Server.boot Examples.p_creating).
    - apply (@Server.steps_step Examples.runtime _ Server.boot Server.boot);
        [apply Server.steps_refl |].
      apply (@Server.step_create_suspend Examples.runtime Examples.env_live
               Server.boot Examples.world
               (Examples.request (JNum (of_Z 5)) (JStr "USD")) Examples.k_create).
      vm_compute; reflexivity.
    - exact (@Server.step_create_resume Examples.runtime Examples.env_live
               Examples.p_creating Examples.k_create [] []
               (Ok Examples.qr_image) Examples.created_at eq_refl). }
  apply (@Server.steps_step Examples.runtime _ Server.boot Examples.p_checking).
  - apply (@Server.steps_step Examples.runtime _ Server.boot Examples.p_created);
      [exact Hcreated |].
    apply (@Server.step_check_suspend Examples.runtime Examples.env_live
             Examples.p_created Examples.the_id Examples.k_check).
    vm_compute; reflexivity.
  - exact (@Server.step_check_resume Examples.runtime Examples.env_live
             Examples.p_checking Examples.k_check [] []
             (Ok (Examples.settled (of_Z 5) "USD")) eq_refl).
Qed.

Lemma server_amount_accepted_iff_positive_witness :
  let body := Examples.request (JNum (of_Z 5)) (JStr "USD") in
  Get body "amount" = Ok (JNum (of_Z 5))
  /\ @ToNumber Examples.runtime (js_or (JNum (of_Z 5)) (JNum (of_Z 0)))
     = Ok (of_Z 5)
  /\ (@Server.create_khqr_begin Examples.runtime Examples.env_demo Examples.world
        body = Done Server.invalid_amount
      <-> num_lt (of_Z 0) (of_Z 5) = false).
Proof.
  intros body.
  assert (Hget : Get body "amount" = Ok (JNum (of_Z 5)))
    by (vm_compute; reflexivity).
  assert (Hnum : @ToNumber Examples.runtime (js_or (JNum (of_Z 5)) (JNum (of_Z 0)))
                 = Ok (of_Z 5)) by (vm_compute; reflexivity).
  split; [assumption |]. split; [assumption |].
  exact (@server_amount_accepted_iff_positive Examples.runtime Examples.env_demo
           Examples.world body _ _ Hget Hnum).
Defined.

Lemma server_created_order_mirrors_answer_witness :
  let body := Examples.request (JNum (of_Z 5)) (JStr "USD") in
  let result :=
    Server.create_khqr_resume Examples.k_create (Ok Examples.qr_image)
      Examples.created_at init in
  @Server.create_khqr_begin Examples.runtime Examples.env_live Examples.world body
    = Await Examples.k_create
  /\ ORDERS result.2 !! Server.c_orderId Examples.k_create = Some (length (heap init)).
Proof.
  intros body result.
  assert (Hbegin : @Server.create_khqr_begin Examples.runtime Examples.env_live
                     Examples.world body = Await Examples.k_create)
    by (vm_compute; reflexivity).
  split; [assumption |].
  exact (proj1 (@server_created_order_mirrors_answer Examples.runtime
                  Examples.env_live Examples.world body Examples.k_create
                  Examples.qr_image Examples.created_at init Hbegin)).
Defined.

Lemma server_paid_iff_amounts_agree_witness :
  let st := Examples.ledger_with "PENDING" in
  let o := Examples.order_of Examples.the_id (of_Z 5) "USD" "PENDING" in
  let data := Examples.settled (decimal 50001 4) "USD" in
  let record := JObj [("amount", JNum (decimal 50001 4)); ("currency", JStr "USD")] in
  let st' :=
    (@Server.check_payment_resume Examples.runtime Examples.k_check (Ok data) st).2 in
  heap st !! Server.k_order Examples.k_check = Some o
  /\ o !! "status" = Some (JStr "PENDING")
  /\ o !! "currency" = Some (JStr "USD")
  /\ o !! "amount" = Some (JNum (of_Z 5))
  /\ Server.settlement_matched data = Ok true
  /\ Get data "data" = Ok record
  /\ Get record "amount" = Ok (JNum (decimal 50001 4))
  /\ @ToNumber Examples.runtime (JNum (decimal 50001 4)) = Ok (decimal 50001 4)
  /\ Get record "currency" = Ok (JStr "USD")
  /\ (get_prop (heap st') (Server.k_order Examples.k_check) "status" = JStr "PAID"
      <-> JStr "USD" = JStr "USD"
          /\ num_lt (Math_abs (num_sub (decimal 50001 4) (of_Z 5))) (decimal 1 4)
             = true).
Proof.
  intros st o data record st'.
  assert (H1 : heap st !! Server.k_order Examples.k_check = Some o) by reflexivity.
  assert (H2 : o !! "status" = Some (JStr "PENDING")) by (vm_compute; reflexivity).
  assert (H3 : o !! "currency" = Some (JStr "USD")) by (vm_compute; reflexivity).
  assert (H4 : o !! "amount" = Some (JNum (of_Z 5))) by (vm_compute; reflexivity).
  assert (H5 : Server.settlement_matched data = Ok true)
    by (vm_compute; reflexivity).
  assert (H6 : Get data "data" = Ok record) by (vm_compute; reflexivity).
  assert (H7 : Get record "amount" = Ok (JNum (decimal 50001 4)))
    by (vm_compute; reflexivity).
  assert (H8 : @ToNumber Examples.runtime (JNum (decimal 50001 4))
               = Ok (decimal 50001 4)) by (vm_compute; reflexivity).
  assert (H9 : Get record "currency" = Ok (JStr "USD"))
    by (vm_compute; reflexivity).
  do 9 (split; [assumption |]).
  exact (@server_paid_iff_amounts_agree Examples.runtime st Examples.k_check o
           data record _ _ _ _ "USD" H1 H2 H3 H4 H5 H6 H7 H8 H9).
Defined.

Lemma server_paid_answer_is_justified_witness :
  let st := Examples.ledger_with "PENDING" in
  let authority := fun _ : JsValue => Ok (Examples.settled (of_Z 5) "USD") in
  Server.response_status
    (@Server.check_payment Examples.runtime Examples.env_live authority st
       Examples.the_id).1.1 = Some (JStr "PAID")
  /\ exists l, lookup_order st Examples.the_id = Some l.
Proof.
  intros st authority.
  assert (Hpaid : Server.response_status
                    (@Server.check_payment Examples.runtime Examples.env_live
                       authority st Examples.the_id).1.1 = Some (JStr "PAID"))
    by (vm_compute; reflexivity).
  split; [assumption |].
  destruct (@server_paid_answer_is_justified Examples.runtime Examples.env_live
              authority st Examples.the_id Hpaid) as (l & Hl & _).
  exists l. exact Hl.
Defined.

Lemma server_late_answer_is_harmless_witness :
  let st := Examples.ledger_with "PAID" in
  let o := Examples.order_of Examples.the_id (of_Z 5) "USD" "PAID" in
  heap st !! Server.k_order Examples.k_check = Some o
  /\ o !! "status" = Some (JStr "PAID")
  /\ (@Server.check_payment_resume Examples.runtime Examples.k_check
        (Ok (Examples.settled (of_Z 5) "USD")) st).2 = st.
Proof.
  intros st o.
  assert (Hobj : heap st !! Server.k_order Examples.k_check = Some o) by reflexivity.
  assert (Hpaid : o !! "status" = Some (JStr "PAID")) by (vm_compute; reflexivity).
  split; [assumption |]. split; [assumption |].
  exact (proj1 (@server_late_answer_is_harmless Examples.runtime
                  Examples.k_check o (Ok (Examples.settled (of_Z 5) "USD")) st
                  Hobj Hpaid)).
Defined.

Lemma server_reachable_ledger_is_consistent_witness :
  @Server.reachable Examples.runtime Examples.env_live Examples.p_paid
  /\ ledger_consistent (Server.ledger Examples.p_paid).
Proof.
  split; [exact example_run_is_reachable |].
  exact (proj1 (@server_reachable_ledger_is_consistent Examples.runtime
                  Examples.env_live Examples.p_paid example_run_is_reachable)).
Defined.

Lemma generateOrderId_collides_iff_witness :
  clock_in_range Examples.clock
  /\ Math_floor_toString (num_mul Examples.dice (of_Z 1000)) = pretty 42%Z
  /\ (0 <= 42 <= 999)%Z
  /\ Math_floor_toString (num_mul (decimal 5 1) (of_Z 1000)) = pretty 500%Z
  /\ (0 <= 500 <= 999)%Z
  /\ (generateOrderId Examples.clock Examples.dice
      = generateOrderId Examples.clock (decimal 5 1)
      <-> Examples.clock = Examples.clock /\ 42%Z = 500%Z).
Proof.
  assert (Hclock : clock_in_range Examples.clock)
    by (unfold clock_in_range; simpl; lia).
  assert (Hn : Math_floor_toString (num_mul Examples.dice (of_Z 1000))
               = pretty 42%Z) by (vm_compute; reflexivity).
  assert (Hn' : Math_floor_toString (num_mul (decimal 5 1) (of_Z 1000))
                = pretty 500%Z) by (vm_compute; reflexivity).
  assert (Hr : (0 <= 42 <= 999)%Z) by lia.
  assert (Hr' : (0 <= 500 <= 999)%Z) by lia.
  do 5 (split; [assumption |]).
  exact (generateOrderId_collides_iff Examples.clock Examples.clock
           Examples.dice (decimal 5 1) 42 500 Hclock Hclock Hn Hr Hn' Hr').
Defined.

Lemma part003_khr_amount_is_integer_witness :
  let amount := JNum (decimal 41004 1) in
  let body := Examples.request amount (JStr "KHR") in
  Get body "amount" = Ok amount
  /\ Get body "currency" = Ok (JStr "KHR")
  /\ @Part003.create_khqr_begin Examples.runtime Examples.env_demo Examples.world3
       body = Await Examples.k_create3
  /\ Part003.c_cur Examples.k_create3 = "KHR"
  /\ @ToNumber Examples.runtime amount = Ok (decimal 41004 1)
  /\ valid_binary prec emax (decimal 41004 1) = true
  /\ is_finite (decimal 41004 1) = true
  /\ Part003.c_khqrAmount Examples.k_create3 = Math_round (decimal 41004 1)
  /\ is_integer (Part003.c_khqrAmount Examples.k_create3) = true.
Proof.
  intros amount body.
  assert (H1 : Get body "amount" = Ok amount) by (vm_compute; reflexivity).
  assert (H2 : Get body "currency" = Ok (JStr "KHR")) by (vm_compute; reflexivity).
  assert (H3 : @Part003.create_khqr_begin Examples.runtime Examples.env_demo
                 Examples.world3 body = Await Examples.k_create3)
    by (vm_compute; reflexivity).
  assert (H4 : Part003.c_cur Examples.k_create3 = "KHR") by reflexivity.
  assert (H5 : @ToNumber Examples.runtime amount = Ok (decimal 41004 1))
    by (vm_compute; reflexivity).
  assert (H6 : valid_binary prec emax (decimal 41004 1) = true)
    by (vm_compute; reflexivity).
  assert (H7 : is_finite (decimal 41004 1) = true) by (vm_compute; reflexivity).
  do 7 (split; [assumption |]).
  exact (@part003_khr_amount_is_integer Examples.runtime Examples.env_demo
           Examples.world3 body amount (JStr "KHR") (decimal 41004 1)
           Examples.k_create3 H1 H2 H3 H4 H5 H6 H7).
Defined.

Lemma part003_stored_order_is_validated_witness :
  let body := Examples.request (JNum (decimal 41004 1)) (JStr "KHR") in
  let result :=
    Part003.create_khqr_resume Examples.k_create3 (Ok Examples.qr_image) init in
  @Part003.create_khqr_begin Examples.runtime Examples.env_demo Examples.world3
    body = Await Examples.k_create3
  /\ exists s : string,
       get_prop (heap result.2) (length (heap init)) "khqrString" = JStr s
       /\ s <> ""
       /\ get_prop (heap result.2) (length (heap init)) "md5"
          = JStr (Part003.md5_hex Examples.world3 s).
Proof.
  intros body result.
  assert (Hbegin : @Part003.create_khqr_begin Examples.runtime Examples.env_demo
                     Examples.world3 body = Await Examples.k_create3)
    by (vm_compute; reflexivity).
  split; [assumption |].
  destruct (@part003_stored_order_is_validated Examples.runtime Examples.env_demo
              Examples.world3 body Examples.k_create3 Examples.qr_image init
              Hbegin)
    as (cur & s & a & _ & _ & _ & Hs & Hne & Hmd5 & _).
  exists s. split; [exact Hs |]. split; [exact Hne | exact Hmd5].
Defined.

Lemma empty_settlement_answer_witness :
  let st := Examples.ledger_with "PENDING" in
  truthy (JStr "") = false
  /\ @Server.check_payment_resume Examples.runtime Examples.k_check
       (Ok (JStr "")) st
     = (Server.order_status (heap st) (Server.k_order Examples.k_check), st).
Proof.
  intros st.
  assert (Hfalsy : truthy (JStr "") = false) by reflexivity.
  split; [assumption |].
  exact (proj1 (@empty_settlement_answer Examples.runtime (JStr "")
                  Examples.k_check
                  {| Part002.k_order := 12; Part002.k_md5 := JStr "9e107d9d" |}
                  {| Part003.k_order := 12; Part003.k_md5 := JStr "9e107d9d" |}
                  st Hfalsy)).
Defined.

Lemma part002_inherited_names_become_paid_witness :
  let data := Examples.settled (of_Z 1) "KHR" in
  let st' :=
    (Part002.check_payment Examples.env_live (fun _ => Ok data) init "__proto__").2 in
  well_formed init
  /\ ORDERS init !! "__proto__" = None
  /\ str_falsy (Part002.BAKONG_TOKEN Examples.env_live)
     || String.eqb (Part002.BAKONG_TOKEN Examples.env_live)
          "YOUR_BAKONG_API_TOKEN_HERE" = false
  /\ Part002.settlement_matched data = Ok true
  /\ "constructor" ∈ Object_prototype_keys
  /\ ORDERS init !! "constructor" = None
  /\ heap st' = set_prop (heap init) Object_prototype "status" (JStr "PAID").
Proof.
  intros data st'.
  assert (H2 : ORDERS init !! "__proto__" = None) by (vm_compute; reflexivity).
  assert (H3 : str_falsy (Part002.BAKONG_TOKEN Examples.env_live)
               || String.eqb (Part002.BAKONG_TOKEN Examples.env_live)
                    "YOUR_BAKONG_API_TOKEN_HERE" = false)
    by (vm_compute; reflexivity).
  assert (H4 : Part002.settlement_matched data = Ok true)
    by (vm_compute; reflexivity).
  assert (H5 : "constructor" ∈ Object_prototype_keys)
    by (apply list_elem_of_In; simpl; auto).
  assert (H6 : ORDERS init !! "constructor" = None) by (vm_compute; reflexivity).
  split; [exact init_well_formed |].
  do 5 (split; [assumption |]).
  exact (proj1 (part002_inherited_names_become_paid Examples.env_live init data
                  "constructor" (fun _ => Throw "unreachable")
                  init_well_formed H2 H3 H4 H5 H6)).
Defined.

Lemma serverless_create_agrees_with_part002_witness :
  let req := Examples.post (Examples.request (JNum (of_Z 5)) (JStr "USD")) in
  Serverless.method req = "POST"
  /\ match @Serverless.create_begin Examples.runtime Examples.env_demo
             Examples.world2 req,
           @Part002.create_khqr_begin Examples.runtime Examples.env_demo
             Examples.world2 (js_or (Serverless.body req) (JObj []))
     with
     | Await k, Await k2 =>
         Serverless.c_orderId k = Part002.c_orderId k2
         /\ Serverless.c_amount k = Part002.c_amount k2
         /\ Serverless.c_currencyCode k = Part002.c_currencyCode k2
         /\ Serverless.c_md5 k = Part002.c_md5 k2
     | Done r, Done r2 =>
         Serverless.status r = code r2
         /\ exists props,
              Serverless.payload r = Some props
              /\ own_property props "ok" = own_property (json r2) "ok"
              /\ own_property props "detail" = own_property (json r2) "detail"
     | _, _ => False
     end.
Proof.
  intros req.
  assert (Hpost : Serverless.method req = "POST") by reflexivity.
  split; [assumption |].
  exact (@serverless_create_agrees_with_part002 Examples.runtime Examples.env_demo
           Examples.world2 req Hpost).
Defined.

Lemma part002_matched_is_paid_witness :
  let st := Examples.ledger_with "PENDING" in
  let k := {| Part002.k_order := 12; Part002.k_md5 := JStr "9e107d9d" |} in
  let o := Examples.order_of Examples.the_id (of_Z 5) "USD" "PENDING" in
  let data := Examples.settled (decimal 501 2) "KHR" in
  heap st !! Part002.k_order k = Some o
  /\ Part002.settlement_matched data = Ok true
  /\ get_prop (heap (Part002.check_payment_resume k (Ok data) st).2)
       (Part002.k_order k) "status" = JStr "PAID".
Proof.
  intros st k o data.
  assert (Hobj : heap st !! Part002.k_order k = Some o) by reflexivity.
  assert (Hmatched : Part002.settlement_matched data = Ok true)
    by (vm_compute; reflexivity).
  split; [assumption |]. split; [assumption |].
  exact (part002_matched_is_paid st k o data Hobj Hmatched).
Defined.

Lemma server_created_order_is_found_witness :
  let body := Examples.request (JNum (of_Z 5)) (JStr "USD") in
  let result :=
    Server.create_khqr_resume Examples.k_create (Ok Examples.qr_image)
      Examples.created_at init in
  @Server.create_khqr_begin Examples.runtime Examples.env_live Examples.world body
    = Await Examples.k_create
  /\ @Server.check_payment_begin Examples.env_live result.2
       (Server.c_orderId Examples.k_create)
     = (if str_falsy (Server.BAKONG_TOKEN Examples.env_live)
           || String.eqb (Server.BAKONG_TOKEN Examples.env_live)
                "YOUR_BAKONG_API_TOKEN_HERE"
        then Done Server.token_not_set
        else Await {| Server.k_order := length (heap init);
                      Server.k_md5 := Server.c_md5 Examples.k_create |}).
Proof.
  intros body result.
  assert (Hbegin : @Server.create_khqr_begin Examples.runtime Examples.env_live
                     Examples.world body = Await Examples.k_create)
    by (vm_compute; reflexivity).
  split; [assumption |].
  exact (proj2 (proj2 (@server_created_order_is_found Examples.runtime
                         Examples.env_live Examples.world body Examples.k_create
                         Examples.qr_image Examples.created_at init Hbegin))).
Defined.

Lemma part003_paid_answer_is_justified_witness :
  let st := store_order init Examples.the_id (Part003.new_order Examples.k_create3) in
  let authority := fun _ : JsValue => Ok (Examples.settled (of_Z 4100) "KHR") in
  let result :=
    @Part003.check_payment Examples.runtime Examples.env_live authority st
      Examples.the_id in
  own_property (json result.1.1) "status" = Some (JStr "PAID")
  /\ exists l, lookup_order st Examples.the_id = Some l.
Proof.
  intros st authority result.
  assert (Hpaid : own_property (json result.1.1) "status" = Some (JStr "PAID"))
    by (vm_compute; reflexivity).
  split; [assumption |].
  destruct (proj1 (@part003_paid_answer_is_justified Examples.runtime
                     Examples.env_live authority st Examples.the_id) Hpaid)
    as (l & Hl & _).
  exists l. exact Hl.
Defined.
